(** * FHIR Django models: validation ([clean]) and serialization ([convert_*])

    A shallow embedding of the validation chain of
    [abstractClasses/models.py], [observation/models.py],
    [encounter/models.py], [organization/models.py] and of the serializers
    [observation/serializers.py] and [encounter/serializers.py].

    Conventions of the embedding:
    - a nullable column is an [option]; Python's [None] is Rocq's [None];
    - [x is not None] is [is_not_None x]; the truth test [if x:] is one of the
      [truthy_*] functions, by the Python type of [x];
    - a related manager ([self.extension], [self.contained], ...) is the list
      of rows its query yields, so [.exists()] is "the list is not empty"
      and [.all()] is the list itself;
    - [raise ValidationError(msg)] is the outcome [Raised msg]; a [clean]
      that returns normally is [Passed];
    - inheritance is a coercion from the record of the subclass to the
      record of its base class;
    - a [string] holds the UTF-8 bytes of a Python [str]: the code tests
      such text for emptiness, for equality with an ASCII literal or for an
      ASCII character in it, which read the same on the bytes and on the
      code points; the text that the code strips ([Organization.name]) is a
      [Py.text], the list of its Unicode code points;
    - the serializers read related managers ([category.all()], ...), which
      Django refuses on a row without a primary key: their properties are
      stated for saved rows. *)

From Stdlib Require Import String Ascii List ZArith Bool Lia DecimalString.
Import ListNotations.

Local Open Scope string_scope.
Local Open Scope list_scope.

(** ** Python values and idioms *)

Module Py.

(** The values a serializer puts in its [data] dict. *)
#[warnings="-register-all"]
Inductive value : Type :=
| PyNone
| PyBool (b : bool)
| PyInt (z : Z)
| PyStr (s : string)
| PyList (l : list value)
| PyDict (d : list (string * value)).

(** A dict keeps its insertion order: an association list without
    duplicate keys. *)
Definition dict : Type := list (string * value).

Fixpoint dict_get (k : string) (d : dict) : option value :=
  match d with
  | [] => None
  | (k', v) :: d' => if String.eqb k k' then Some v else dict_get k d'
  end.

(** [d[k] = v]: overwrite in place, or append a new key. *)
Fixpoint dict_set (k : string) (v : value) (d : dict) : dict :=
  match d with
  | [] => [(k, v)]
  | (k', v') :: d' =>
      if String.eqb k k' then (k', v) :: d' else (k', v') :: dict_set k v d'
  end.

(** [if c: d[k] = v] *)
Definition set_if (c : bool) (k : string) (v : value) (d : dict) : dict :=
  if c then dict_set k v d else d.

(** [if x: d[k] = f(x)] for an optional object [x] (a model instance or a
    [datetime]), which is true exactly when it is not [None]. *)
Definition set_opt {A : Type} (x : option A) (k : string) (f : A -> value)
    (d : dict) : dict :=
  match x with Some a => dict_set k (f a) d | None => d end.

(** [if x: d[k] = x] for an optional string [x]. *)
Definition set_str (x : option string) (k : string) (d : dict) : dict :=
  match x with
  | Some s => if String.eqb s "" then d else dict_set k (PyStr s) d
  | None => d
  end.

(** [if l: d[k] = l] for a list [l] built by the caller. *)
Definition set_list (l : list value) (k : string) (d : dict) : dict :=
  match l with [] => d | _ => dict_set k (PyList l) d end.

Definition keys (d : dict) : list string := map fst d.

Definition has_key (k : string) (d : dict) : bool :=
  match dict_get k d with Some _ => true | None => false end.

(** Truth value testing. *)
Definition truthy (v : value) : bool :=
  match v with
  | PyNone => false
  | PyBool b => b
  | PyInt z => negb (Z.eqb z 0)
  | PyStr s => negb (String.eqb s "")
  | PyList l => match l with [] => false | _ => true end
  | PyDict d => match d with [] => false | _ => true end
  end.

Definition is_not_None {A : Type} (x : option A) : bool :=
  match x with Some _ => true | None => false end.

(** [if x:] for an optional string: [None] and [''] are false. *)
Definition truthy_str (x : option string) : bool :=
  match x with Some s => negb (String.eqb s "") | None => false end.

(** [if x:] for an optional object with neither [__bool__] nor [__len__]
    (a model instance, a [datetime], a [time]): only [None] is false. *)
Definition truthy_obj {A : Type} (x : option A) : bool :=
  match x with Some _ => true | None => false end.

(** [if x:] for an optional JSON column. *)
Definition truthy_json (x : option value) : bool :=
  match x with Some v => truthy v | None => false end.

(** [if l:] for a list. *)
Definition truthy_list {A : Type} (l : list A) : bool :=
  match l with [] => false | _ => true end.

(** [QuerySet.exists()] *)
Definition exists_ {A : Type} (rows : list A) : bool :=
  match rows with [] => false | _ => true end.

(** A Unicode code point, and a Python [str] as the list of its code
    points. *)
Definition codepoint : Type := N.
Definition text : Type := list codepoint.

(** The code points of an ASCII literal. *)
Definition of_string (s : string) : text :=
  map N_of_ascii (list_ascii_of_string s).

(** [str.isspace] on one character, over all of Unicode: the controls
    U+0009..U+000D and U+001C..U+001F, the space, U+0085, U+00A0, U+1680,
    U+2000..U+200A, U+2028, U+2029, U+202F, U+205F and U+3000. *)
Definition isspace (c : codepoint) : bool :=
  ((9 <=? c) && (c <=? 13) || (28 <=? c) && (c <=? 32)
   || (c =? 133) || (c =? 160) || (c =? 5760)
   || (8192 <=? c) && (c <=? 8202)
   || (c =? 8232) || (c =? 8233) || (c =? 8239) || (c =? 8287)
   || (c =? 12288))%N.

Fixpoint lstrip (s : text) : text :=
  match s with
  | [] => []
  | c :: s' => if isspace c then lstrip s' else s
  end.

Fixpoint rstrip (s : text) : text :=
  match s with
  | [] => []
  | c :: s' =>
      match rstrip s' with
      | [] => if isspace c then [] else [c]
      | r => c :: r
      end
  end.

(** [s.strip()], which removes the leading and trailing characters that
    [str.isspace] accepts. *)
Definition strip (s : text) : text := rstrip (lstrip s).

(** [c in s] for a one-character [c]. *)
Fixpoint contains (c : ascii) (s : string) : bool :=
  match s with
  | EmptyString => false
  | String c' s' => Ascii.eqb c c' || contains c s'
  end.

(** The loop
    [for row in rows: v = f(row); if v: out.append(v)]
    that every serializer runs over a relation. *)
Definition collect {A : Type} (f : A -> value) (rows : list A) : list value :=
  filter truthy (map f rows).

(** [x in l] for a list of strings. *)
Definition str_in (x : string) (l : list string) : bool :=
  existsb (String.eqb x) l.

(** [f'{x}'] of an optional string. *)
Definition format (x : option string) : string :=
  match x with Some s => s | None => "None" end.

End Py.

(** ** Outcome of a [clean] call *)

Inductive outcome : Type :=
| Passed
| Raised (message : string).

(** Sequencing of statements: the first [raise] ends the call. *)
Definition and_then (a b : outcome) : outcome :=
  match a with
  | Passed => b
  | Raised m => Raised m
  end.

Notation "a ;; b" := (and_then a b) (at level 61, right associativity).

(** [if c: raise ValidationError(msg)] *)
Definition raise_if (c : bool) (msg : string) : outcome :=
  if c then Raised msg else Passed.

Definition fails (r : outcome) : Prop := exists m, r = Raised m.

(** [for x in l: body(x)], where [body] may raise. *)
Fixpoint for_each {A : Type} (l : list A) (body : A -> outcome) : outcome :=
  match l with
  | [] => Passed
  | x :: l' => body x ;; for_each l' body
  end.

(** Number of true flags. *)
Definition b2n (b : bool) : nat := if b then 1 else 0.

(** A [DateTimeField] value: an instant, in microseconds since the epoch.
    All instants are timezone-aware, as Django stores them. *)
Definition datetime : Type := Z.

(** A [TimeField] value: microseconds since midnight. *)
Definition time : Type := Z.

(** The target of a generic foreign key: a content type and an object id. *)
Record GenericRef : Type := {
  content_type : string;
  object_id : N
}.

(** ** The [components] application

    [components/models.py] and [components/serializers.py] are outside the
    modelled sources.  The row types whose attributes are never read here
    and the serializers of [components] are the members of this interface. *)
Class Components : Type := {
  CodeableConcept : Type;
  Coding : Type;
  Quantity : Type;
  Period : Type;
  Range : Type;
  Identifier : Type;
  convert_codeable_concept : CodeableConcept -> Py.value;
  convert_quantity : Quantity -> Py.value;
  convert_period : Period -> Py.value;
  (** [datetime.isoformat()] and [time.isoformat()] *)
  isoformat : datetime -> string;
  time_isoformat : time -> string
}.

(** ** abstractClasses/models.py *)

(** [models.Model]: every row has a primary key, [None] until the first
    save.  Keys are assigned by the database from 1 upwards, so the truth
    test [if self.pk] is the test that the key is not [None]. *)
Module Base.

Record t : Type := {
  pk : option positive
}.

Definition truthy_pk (self : t) : bool := Py.truthy_obj (pk self).

(** [models.Model.clean] does nothing. *)
Definition clean (self : t) : outcome := Passed.

End Base.

Module AbstractExtension.
Section Model.
Context {C : Components}.

Record t : Type := {
  url : string;
  value_string : option string;
  value_boolean : option bool;
  value_integer : option Z;
  (** [DecimalField(decimal_places=6)]: the number scaled by [10^6] *)
  value_decimal : option Z;
  value_datetime : option datetime;
  value_period : option Period;
  content_object : option GenericRef
}.

Definition value_fields : list string :=
  ["value_string"; "value_boolean"; "value_integer";
   "value_decimal"; "value_datetime"; "value_period"].

(** [getattr(self, f) is not None] *)
Definition getattr_is_not_None (self : t) (f : string) : bool :=
  if String.eqb f "value_string" then Py.is_not_None (value_string self)
  else if String.eqb f "value_boolean" then Py.is_not_None (value_boolean self)
  else if String.eqb f "value_integer" then Py.is_not_None (value_integer self)
  else if String.eqb f "value_decimal" then Py.is_not_None (value_decimal self)
  else if String.eqb f "value_datetime" then Py.is_not_None (value_datetime self)
  else if String.eqb f "value_period" then Py.is_not_None (value_period self)
  else false.

Definition set_values (self : t) : list string :=
  filter (getattr_is_not_None self) value_fields.

Definition clean (self : t) : outcome :=
  raise_if (1 <? length (set_values self))%nat
    "Only one value[x] can be set per Extension.".

(** [f"{val}"] for the values that are not strings: the text of a [bool],
    of an [int], of a [Decimal], of a [datetime] and of a Period row. *)
Variable str_bool : bool -> string.
Variable str_int : Z -> string.
Variable str_decimal : Z -> string.
Variable str_datetime : datetime -> string.
Variable str_period : Period -> string.

(** The loop over [value_fields] returns at the first value that is not
    [None]. *)
Definition __str__ (self : t) : string :=
  match value_string self with
  | Some val => url self ++ " = " ++ val
  | None =>
  match value_boolean self with
  | Some val => url self ++ " = " ++ str_bool val
  | None =>
  match value_integer self with
  | Some val => url self ++ " = " ++ str_int val
  | None =>
  match value_decimal self with
  | Some val => url self ++ " = " ++ str_decimal val
  | None =>
  match value_datetime self with
  | Some val => url self ++ " = " ++ str_datetime val
  | None =>
  match value_period self with
  | Some val => url self ++ " = " ++ str_period val
  | None => url self ++ " (no value)"
  end end end end end end.

End Model.
End AbstractExtension.

Module Element.
Section Model.
Context {C : Components}.

Record t : Type := {
  base :> Base.t;
  fhir_id : option string;
  (** rows of the generic relation [extension] *)
  extension : list AbstractExtension.t;
  (** the attribute [children]: [None] when [hasattr(self, 'children')]
      is false, its value otherwise *)
  children : option Py.value
}.

Definition clean (self : t) : outcome :=
  let has_children :=
    match children self with Some c => Py.truthy c | None => false end in
  let has_extension :=
    if Base.truthy_pk self then Py.exists_ (extension self) else false in
  raise_if ((has_children || has_extension) && negb (Py.truthy_str (fhir_id self)))
    "Element.fhir_id is required when element has children or extensions".

End Model.
End Element.

Coercion Element.base : Element.t >-> Base.t.

(** [DataType] and [PrimitiveType] add nothing to [Element]. *)
Module BackboneType.
Section Model.
Context {C : Components}.

Record t : Type := {
  element :> Element.t;
  modifierExtension : list AbstractExtension.t
}.

Definition clean (self : t) : outcome :=
  Element.clean self ;;
  raise_if (Py.exists_ (modifierExtension self) && negb (Py.truthy_str (Element.fhir_id self)))
    "BackboneType.fhir_id is required when modifierExtension is present".

End Model.
End BackboneType.

Coercion BackboneType.element : BackboneType.t >-> Element.t.

(** [BackboneElement] has no [clean] of its own: it runs [Element.clean]. *)
Module BackboneElement.
Section Model.
Context {C : Components}.

Record t : Type := {
  element :> Element.t;
  modifierExtension : option Py.value
}.

Definition clean (self : t) : outcome := Element.clean self.

End Model.
End BackboneElement.

Coercion BackboneElement.element : BackboneElement.t >-> Element.t.

(** Modelled from the spec: [components.MetaElement] is declared in
    [components/models.py]; the spec calls it the optional [meta] record of
    versioning and security metadata, and [DomainResource.clean] reads its
    [versionId], [lastUpdated] and [security] attributes. *)
Module MetaElement.
Section Model.
Context {C : Components}.

Record t : Type := {
  versionId : option string;
  lastUpdated : option datetime;
  security : list Coding
}.

End Model.
End MetaElement.

Module Resource.
Section Model.
Context {C : Components}.

Record t : Type := {
  base :> Base.t;
  fhir_id : option string;
  meta : option MetaElement.t;
  implicitRules : option string;
  language : option string
}.

Definition clean (self : t) : outcome :=
  Base.clean self ;;
  raise_if (Py.truthy_str (implicitRules self) && negb (Py.truthy_str (fhir_id self)))
    "Resource.fhir_id is required when resource has implicit rules".

End Model.
End Resource.

Coercion Resource.base : Resource.t >-> Base.t.

Module DomainResource.
Section Model.
Context {C : Components}.

Record t : Type := {
  resource :> Resource.t;
  (** rows of the generic relation [contained] *)
  contained : list GenericRef;
  (** the generic foreign key [container] *)
  container : option GenericRef
}.

Definition clean (self : t) : outcome :=
  Resource.clean self ;;
  if Py.truthy_obj (container self) then
    raise_if (Py.exists_ (contained self))
      "Contained resources cannot themselves contain other resources" ;;
    raise_if
      (match Resource.meta self with
       | Some meta =>
           Py.truthy_str (MetaElement.versionId meta)
           || Py.truthy_obj (MetaElement.lastUpdated meta)
       | None => false
       end)
      "Contained resources cannot have meta.versionId or meta.lastUpdated" ;;
    raise_if
      (match Resource.meta self with
       | Some meta => Py.exists_ (MetaElement.security meta)
       | None => false
       end)
      "Contained resources cannot have security labels"
  else Passed.

End Model.
End DomainResource.

Coercion DomainResource.resource : DomainResource.t >-> Resource.t.

Module CanonicalResource.
Section Model.
Context {C : Components}.

Record t : Type := {
  domain :> DomainResource.t;
  url : option string;
  version : option string;
  versionAlgorithmString : option string;
  versionAlgorithmCoding : option Coding;
  status : string
}.

(** The check of the [versionAlgorithm[x]] group. *)
Definition clean_version_algorithm (self : t) : outcome :=
  raise_if (Py.truthy_str (versionAlgorithmString self)
            && Py.truthy_obj (versionAlgorithmCoding self))
    "Only one versionAlgorithm[x] field can be set".

(** The check of [url]. *)
Definition clean_url (self : t) : outcome :=
  raise_if
    (match url self with
     | Some u => negb (String.eqb u "") && (Py.contains "|" u || Py.contains "#" u)
     | None => false
     end)
    "URL should not contain | or # characters".

Definition clean (self : t) : outcome :=
  DomainResource.clean self ;;
  clean_version_algorithm self ;;
  clean_url self.

End Model.
End CanonicalResource.

Coercion CanonicalResource.domain : CanonicalResource.t >-> DomainResource.t.

(** ** components: the rows whose attributes are read *)

(** Modelled from the spec: [components.Reference] is declared in
    [components/reference.py]; a reference field is serialized as the
    one-field object [{reference: "<Type>/<id>"}] from its [reference]
    attribute. *)
Module Reference.

Record t : Type := {
  reference : option string;
  display : option string
}.

(** [{'reference': r.reference}] *)
Definition to_value (r : t) : Py.value :=
  Py.PyDict [("reference",
              match reference r with Some s => Py.PyStr s | None => Py.PyNone end)].

End Reference.

(** Modelled from the spec: [components.ContactPoint] is declared in
    [components/models.py]; [Organization.clean] reads its [use]. *)
Module ContactPoint.

Record t : Type := {
  system : option string;
  value : option string;
  use : option string
}.

End ContactPoint.

(** Modelled from the spec: [components.ContactDetail] is declared in
    [components/models.py]; [Organization.clean] iterates over its
    [telecom] relation. *)
Module ContactDetail.

Record t : Type := {
  name : option string;
  telecom : list ContactPoint.t
}.

End ContactDetail.

(** ** encounter/models.py *)

Module EncounterParticipant.
Section Model.
Context {C : Components}.

Record t : Type := {
  backbone :> BackboneElement.t;
  type : list CodeableConcept;
  period : option Period;
  actor : option Reference.t
}.

End Model.
End EncounterParticipant.

Coercion EncounterParticipant.backbone : EncounterParticipant.t >-> BackboneElement.t.

Module EncounterDiagnosis.
Section Model.
Context {C : Components}.

Record t : Type := {
  backbone :> BackboneElement.t;
  condition : Reference.t;
  use : list CodeableConcept
}.

End Model.
End EncounterDiagnosis.

Coercion EncounterDiagnosis.backbone : EncounterDiagnosis.t >-> BackboneElement.t.

Module EncounterAdmission.
Section Model.
Context {C : Components}.

Record t : Type := {
  backbone :> BackboneElement.t;
  preAdmissionIdentifier : option Identifier;
  origin : option Reference.t;
  admitSource : option CodeableConcept;
  reAdmission : option CodeableConcept;
  destination : option Reference.t;
  dischargeDisposition : option CodeableConcept
}.

End Model.
End EncounterAdmission.

Coercion EncounterAdmission.backbone : EncounterAdmission.t >-> BackboneElement.t.

Module EncounterLocation.
Section Model.
Context {C : Components}.

Record t : Type := {
  backbone :> BackboneElement.t;
  location : Reference.t;
  status : option string;
  form : option CodeableConcept;
  period : option Period
}.

End Model.
End EncounterLocation.

Coercion EncounterLocation.backbone : EncounterLocation.t >-> BackboneElement.t.

Module Encounter.
Section Model.
Context {C : Components}.

Record t : Type := {
  domain :> DomainResource.t;
  status : string;
  class_field : CodeableConcept;
  priority : option CodeableConcept;
  type : list CodeableConcept;
  subject : option Reference.t;
  actualPeriod : option Period;
  plannedStartDate : option datetime;
  plannedEndDate : option datetime;
  period : option Period;
  note : option string;
  (** reverse relations *)
  participants : list EncounterParticipant.t;
  diagnoses : list EncounterDiagnosis.t;
  (** the one-to-one [admission]; [None] when reading it raises
      [DoesNotExist] *)
  admission : option EncounterAdmission.t;
  locations : list EncounterLocation.t
}.

(** The rule on the order of the planned dates. *)
Definition clean_planned_dates (self : t) : outcome :=
  raise_if
    (match plannedStartDate self, plannedEndDate self with
     | Some start, Some end_ => Z.gtb start end_
     | _, _ => false
     end)
    "Encounter planned start date must be before or equal to planned end date".

(** The rule on the period of a finished encounter. *)
Definition clean_period (self : t) : outcome :=
  raise_if (Py.str_in (status self) ["completed"; "discharged"]
            && negb (Py.truthy_obj (period self)))
    "Completed or discharged encounters should have a period defined".

Definition clean (self : t) : outcome :=
  DomainResource.clean self ;;
  clean_planned_dates self ;;
  clean_period self.

End Model.
End Encounter.

Coercion Encounter.domain : Encounter.t >-> DomainResource.t.

(** ** observation/models.py *)

Module ObservationReferenceRange.
Section Model.
Context {C : Components}.

Record t : Type := {
  backbone :> BackboneElement.t;
  low : option Quantity;
  high : option Quantity;
  normalValue : option CodeableConcept;
  type : option CodeableConcept;
  age : option Range;
  text : option string
}.

End Model.
End ObservationReferenceRange.

Coercion ObservationReferenceRange.backbone : ObservationReferenceRange.t >-> BackboneElement.t.

Module ObservationComponent.
Section Model.
Context {C : Components}.

Record t : Type := {
  backbone :> BackboneElement.t;
  code : CodeableConcept;
  dataAbsentReason : option CodeableConcept;
  interpretation : list CodeableConcept;
  valueQuantity : option Quantity;
  valueCodeableConcept : option CodeableConcept;
  valueString : option string;
  valueBoolean : option bool;
  valueInteger : option Z;
  valueRange : option Range;
  valuePeriod : option Period;
  valueDateTime : option datetime;
  valueTime : option time;
  (** reverse relation *)
  reference_ranges : list ObservationReferenceRange.t
}.

Definition value_fields : list string :=
  ["valueQuantity"; "valueCodeableConcept"; "valueString"; "valueBoolean";
   "valueInteger"; "valueRange"; "valuePeriod"; "valueDateTime"; "valueTime"].

(** [getattr(self, f) is not None] *)
Definition getattr_is_not_None (self : t) (f : string) : bool :=
  if String.eqb f "valueQuantity" then Py.is_not_None (valueQuantity self)
  else if String.eqb f "valueCodeableConcept" then Py.is_not_None (valueCodeableConcept self)
  else if String.eqb f "valueString" then Py.is_not_None (valueString self)
  else if String.eqb f "valueBoolean" then Py.is_not_None (valueBoolean self)
  else if String.eqb f "valueInteger" then Py.is_not_None (valueInteger self)
  else if String.eqb f "valueRange" then Py.is_not_None (valueRange self)
  else if String.eqb f "valuePeriod" then Py.is_not_None (valuePeriod self)
  else if String.eqb f "valueDateTime" then Py.is_not_None (valueDateTime self)
  else if String.eqb f "valueTime" then Py.is_not_None (valueTime self)
  else false.

Definition set_values (self : t) : list string :=
  filter (getattr_is_not_None self) value_fields.

(** The check of the [value[x]] group. *)
Definition clean_value (self : t) : outcome :=
  raise_if (1 <? length (set_values self))%nat
    "Only one value[x] can be set per ObservationComponent".

Definition clean (self : t) : outcome :=
  BackboneElement.clean self ;;
  clean_value self.

End Model.
End ObservationComponent.

Coercion ObservationComponent.backbone : ObservationComponent.t >-> BackboneElement.t.

Module Observation.
Section Model.
Context {C : Components}.

Record t : Type := {
  domain :> DomainResource.t;
  status : string;
  category : list CodeableConcept;
  code : CodeableConcept;
  subject : option Reference.t;
  encounter : option Encounter.t;
  effectiveDateTime : option datetime;
  effectiveInstant : option datetime;
  effectivePeriod : option Period;
  issued : option datetime;
  valueQuantity : option Quantity;
  valueCodeableConcept : option CodeableConcept;
  valueString : option string;
  valueBoolean : option bool;
  valueInteger : option Z;
  valueRange : option Range;
  valuePeriod : option Period;
  valueDateTime : option datetime;
  valueTime : option time;
  dataAbsentReason : option CodeableConcept;
  interpretation : list CodeableConcept;
  note : option Py.value;
  bodySite : option CodeableConcept;
  method : option CodeableConcept;
  (** reverse relations *)
  reference_ranges : list ObservationReferenceRange.t;
  components : list ObservationComponent.t
}.

Definition effective_fields : list string :=
  ["effectiveDateTime"; "effectiveInstant"; "effectivePeriod"].

Definition value_fields : list string :=
  ["valueQuantity"; "valueCodeableConcept"; "valueString"; "valueBoolean";
   "valueInteger"; "valueRange"; "valuePeriod"; "valueDateTime"; "valueTime"].

(** [getattr(self, f) is not None] *)
Definition getattr_is_not_None (self : t) (f : string) : bool :=
  if String.eqb f "effectiveDateTime" then Py.is_not_None (effectiveDateTime self)
  else if String.eqb f "effectiveInstant" then Py.is_not_None (effectiveInstant self)
  else if String.eqb f "effectivePeriod" then Py.is_not_None (effectivePeriod self)
  else if String.eqb f "valueQuantity" then Py.is_not_None (valueQuantity self)
  else if String.eqb f "valueCodeableConcept" then Py.is_not_None (valueCodeableConcept self)
  else if String.eqb f "valueString" then Py.is_not_None (valueString self)
  else if String.eqb f "valueBoolean" then Py.is_not_None (valueBoolean self)
  else if String.eqb f "valueInteger" then Py.is_not_None (valueInteger self)
  else if String.eqb f "valueRange" then Py.is_not_None (valueRange self)
  else if String.eqb f "valuePeriod" then Py.is_not_None (valuePeriod self)
  else if String.eqb f "valueDateTime" then Py.is_not_None (valueDateTime self)
  else if String.eqb f "valueTime" then Py.is_not_None (valueTime self)
  else false.

Definition set_effectives (self : t) : list string :=
  filter (getattr_is_not_None self) effective_fields.

Definition set_values (self : t) : list string :=
  filter (getattr_is_not_None self) value_fields.

(** The check of the [effective[x]] group. *)
Definition clean_effective (self : t) : outcome :=
  raise_if (1 <? length (set_effectives self))%nat
    "Only one effective[x] field can be set".

(** The check of the [value[x]] group. *)
Definition clean_value (self : t) : outcome :=
  raise_if (1 <? length (set_values self))%nat
    "Only one value[x] field can be set".

(** The [dataAbsentReason] rule. *)
Definition clean_data_absent (self : t) : outcome :=
  raise_if (Base.truthy_pk self
            && Py.truthy_list (set_values self)
            && Py.truthy_obj (dataAbsentReason self))
    "dataAbsentReason shall only be present if there is no value[x]".

Definition clean (self : t) : outcome :=
  DomainResource.clean self ;;
  clean_effective self ;;
  clean_value self ;;
  clean_data_absent self.

End Model.
End Observation.

Coercion Observation.domain : Observation.t >-> DomainResource.t.

(** ** organization/models.py *)

Module Organization.
Section Model.
Context {C : Components}.

Record t : Type := {
  domain :> DomainResource.t;
  active : option bool;
  name : option Py.text;
  description : option string;
  (** reverse relations *)
  identifiers : list Identifier;
  contacts : list ContactDetail.t
}.

(** [self.pk and self.identifiers.exists()], as a truth value *)
Definition has_identifier (self : t) : bool :=
  if Base.truthy_pk self then Py.exists_ (identifiers self) else false.

(** [bool(self.name and self.name.strip())] *)
Definition has_name (self : t) : bool :=
  match name self with
  | Some s => if Py.truthy_list s then Py.truthy_list (Py.strip s) else false
  | None => false
  end.

(** The name-or-identifier rule. *)
Definition clean_identity (self : t) : outcome :=
  raise_if (negb (has_identifier self || has_name self))
    "Organization must have at least a name or an identifier".

(** The rule on the [use] of contact telecoms. *)
Definition clean_telecom (self : t) : outcome :=
  if Base.truthy_pk self then
    for_each (contacts self) (fun contact_detail =>
      for_each (ContactDetail.telecom contact_detail) (fun telecom =>
        raise_if
          (match ContactPoint.use telecom with
           | Some u => String.eqb u "home"
           | None => false
           end)
          "Organization contact telecom cannot have 'home' use"))
  else Passed.

Definition clean (self : t) : outcome :=
  DomainResource.clean self ;;
  clean_identity self ;;
  clean_telecom self.

End Model.
End Organization.

Coercion Organization.domain : Organization.t >-> DomainResource.t.


(** ** observation/serializers.py *)

Section ObservationSerializers.
Context {C : Components}.

Definition observation_reference_range_data (rr : ObservationReferenceRange.t)
    : Py.dict :=
  let data := [] in
  let data := Py.set_opt (ObservationReferenceRange.low rr) "low" convert_quantity data in
  let data := Py.set_opt (ObservationReferenceRange.high rr) "high" convert_quantity data in
  let data := Py.set_opt (ObservationReferenceRange.type rr) "type" convert_codeable_concept data in
  let data := Py.set_opt (ObservationReferenceRange.normalValue rr) "normalValue"
                convert_codeable_concept data in
  let data := Py.set_str (ObservationReferenceRange.text rr) "text" data in
  data.

Definition convert_observation_reference_range
    (django_rr : option ObservationReferenceRange.t) : Py.value :=
  match django_rr with
  | None => Py.PyNone
  | Some rr => Py.PyDict (observation_reference_range_data rr)
  end.

(** The [if]/[elif] chain over the branches of [value[x]]; it is the same,
    branch for branch, in [convert_observation_component] and in
    [convert_observation]. *)
Definition set_value_x
    (valueQuantity : option Quantity)
    (valueCodeableConcept : option CodeableConcept)
    (valueString : option string)
    (valueBoolean : option bool)
    (valueInteger : option Z)
    (valuePeriod : option Period)
    (valueDateTime : option datetime)
    (valueTime : option time)
    (data : Py.dict) : Py.dict :=
  match valueQuantity with
  | Some q => Py.dict_set "valueQuantity" (convert_quantity q) data
  | None =>
  match valueCodeableConcept with
  | Some cc => Py.dict_set "valueCodeableConcept" (convert_codeable_concept cc) data
  | None =>
  if Py.truthy_str valueString
  then Py.dict_set "valueString"
         (match valueString with Some s => Py.PyStr s | None => Py.PyNone end) data
  else
  match valueBoolean with
  | Some b => Py.dict_set "valueBoolean" (Py.PyBool b) data
  | None =>
  match valueInteger with
  | Some z => Py.dict_set "valueInteger" (Py.PyInt z) data
  | None =>
  match valuePeriod with
  | Some p => Py.dict_set "valuePeriod" (convert_period p) data
  | None =>
  match valueDateTime with
  | Some d => Py.dict_set "valueDateTime" (Py.PyStr (isoformat d)) data
  | None =>
  match valueTime with
  | Some t => Py.dict_set "valueTime" (Py.PyStr (time_isoformat t)) data
  | None => data
  end end end end end end end.

Definition observation_component_data (comp : ObservationComponent.t) : Py.dict :=
  let data := [("code", convert_codeable_concept (ObservationComponent.code comp))] in
  let data :=
    set_value_x
      (ObservationComponent.valueQuantity comp)
      (ObservationComponent.valueCodeableConcept comp)
      (ObservationComponent.valueString comp)
      (ObservationComponent.valueBoolean comp)
      (ObservationComponent.valueInteger comp)
      (ObservationComponent.valuePeriod comp)
      (ObservationComponent.valueDateTime comp)
      (ObservationComponent.valueTime comp) data in
  let data := Py.set_opt (ObservationComponent.dataAbsentReason comp) "dataAbsentReason"
                convert_codeable_concept data in
  let interpretations :=
    Py.collect convert_codeable_concept (ObservationComponent.interpretation comp) in
  let data := Py.set_list interpretations "interpretation" data in
  let reference_ranges :=
    Py.collect (fun rr => convert_observation_reference_range (Some rr))
      (ObservationComponent.reference_ranges comp) in
  let data := Py.set_list reference_ranges "referenceRange" data in
  data.

Definition convert_observation_component
    (django_component : option ObservationComponent.t) : Py.value :=
  match django_component with
  | None => Py.PyNone
  | Some comp => Py.PyDict (observation_component_data comp)
  end.

(** The [if]/[elif] chain over the branches of [effective[x]]. *)
Definition set_effective_x (o : Observation.t) (data : Py.dict) : Py.dict :=
  match Observation.effectiveDateTime o with
  | Some d => Py.dict_set "effectiveDateTime" (Py.PyStr (isoformat d)) data
  | None =>
  match Observation.effectiveInstant o with
  | Some d => Py.dict_set "effectiveInstant" (Py.PyStr (isoformat d)) data
  | None =>
  match Observation.effectivePeriod o with
  | Some p => Py.dict_set "effectivePeriod" (convert_period p) data
  | None => data
  end end end.

(** The keyword arguments [data] that [convert_observation] hands to the
    resource constructor. *)
Definition observation_data (o : Observation.t) : Py.dict :=
  let data :=
    [("resourceType", Py.PyStr "Observation");
     ("status", Py.PyStr (Observation.status o));
     ("code", convert_codeable_concept (Observation.code o))] in
  let data := Py.set_str (Resource.fhir_id o) "id" data in
  let categories := Py.collect convert_codeable_concept (Observation.category o) in
  let data := Py.set_list categories "category" data in
  let data := Py.set_opt (Observation.subject o) "subject" Reference.to_value data in
  let data :=
    Py.set_opt (Observation.encounter o) "encounter"
      (fun e => Py.PyDict
         [("reference", Py.PyStr ("Encounter/" ++ Py.format (Resource.fhir_id e)))])
      data in
  let data := set_effective_x o data in
  let data := Py.set_opt (Observation.issued o) "issued"
                (fun d => Py.PyStr (isoformat d)) data in
  let data :=
    set_value_x
      (Observation.valueQuantity o)
      (Observation.valueCodeableConcept o)
      (Observation.valueString o)
      (Observation.valueBoolean o)
      (Observation.valueInteger o)
      (Observation.valuePeriod o)
      (Observation.valueDateTime o)
      (Observation.valueTime o) data in
  let data := Py.set_opt (Observation.dataAbsentReason o) "dataAbsentReason"
                convert_codeable_concept data in
  let interpretations :=
    Py.collect convert_codeable_concept (Observation.interpretation o) in
  let data := Py.set_list interpretations "interpretation" data in
  let data := Py.set_if (Py.truthy_json (Observation.note o)) "note"
                (match Observation.note o with Some n => n | None => Py.PyNone end)
                data in
  let data := Py.set_opt (Observation.bodySite o) "bodySite"
                convert_codeable_concept data in
  let data := Py.set_opt (Observation.method o) "method"
                convert_codeable_concept data in
  let reference_ranges :=
    Py.collect (fun rr => convert_observation_reference_range (Some rr))
      (Observation.reference_ranges o) in
  let data := Py.set_list reference_ranges "referenceRange" data in
  let obs_components :=
    Py.collect (fun comp => convert_observation_component (Some comp))
      (Observation.components o) in
  let data := Py.set_list obs_components "component" data in
  data.

(** [convert_observation]; the resource object it returns is represented by
    the keyword arguments it is built from. *)
Definition convert_observation (django_obs : option Observation.t) : Py.value :=
  match django_obs with
  | None => Py.PyNone
  | Some o => Py.PyDict (observation_data o)
  end.

End ObservationSerializers.

(** ** encounter/serializers.py *)

Section EncounterSerializers.
Context {C : Components}.

Definition encounter_participant_data (p : EncounterParticipant.t) : Py.dict :=
  let data := [] in
  let types := Py.collect convert_codeable_concept (EncounterParticipant.type p) in
  let data := Py.set_list types "type" data in
  let data := Py.set_opt (EncounterParticipant.period p) "period" convert_period data in
  let data := Py.set_opt (EncounterParticipant.actor p) "actor" Reference.to_value data in
  data.

Definition convert_encounter_participant
    (django_participant : option EncounterParticipant.t) : Py.value :=
  match django_participant with
  | None => Py.PyNone
  | Some p => Py.PyDict (encounter_participant_data p)
  end.

Definition encounter_diagnosis_data (dg : EncounterDiagnosis.t) : Py.dict :=
  let data :=
    [("condition", Py.PyList [Reference.to_value (EncounterDiagnosis.condition dg)])] in
  let uses := Py.collect convert_codeable_concept (EncounterDiagnosis.use dg) in
  let data := Py.set_list uses "use" data in
  data.

Definition convert_encounter_diagnosis
    (django_diagnosis : option EncounterDiagnosis.t) : Py.value :=
  match django_diagnosis with
  | None => Py.PyNone
  | Some dg => Py.PyDict (encounter_diagnosis_data dg)
  end.

Definition encounter_admission_data (a : EncounterAdmission.t) : Py.dict :=
  let data := [] in
  let data := Py.set_opt (EncounterAdmission.admitSource a) "admitSource"
                convert_codeable_concept data in
  let data := Py.set_opt (EncounterAdmission.reAdmission a) "reAdmission"
                convert_codeable_concept data in
  let data := Py.set_opt (EncounterAdmission.dischargeDisposition a)
                "dischargeDisposition" convert_codeable_concept data in
  let data := Py.set_opt (EncounterAdmission.origin a) "origin" Reference.to_value data in
  let data := Py.set_opt (EncounterAdmission.destination a) "destination"
                Reference.to_value data in
  data.

Definition convert_encounter_admission
    (django_admission : option EncounterAdmission.t) : Py.value :=
  match django_admission with
  | None => Py.PyNone
  | Some a => Py.PyDict (encounter_admission_data a)
  end.

Definition encounter_location_data (loc : EncounterLocation.t) : Py.dict :=
  let data := [("location", Reference.to_value (EncounterLocation.location loc))] in
  let data := Py.set_str (EncounterLocation.status loc) "status" data in
  let data := Py.set_opt (EncounterLocation.form loc) "form" convert_codeable_concept data in
  let data := Py.set_opt (EncounterLocation.period loc) "period" convert_period data in
  data.

Definition convert_encounter_location
    (django_loc : option EncounterLocation.t) : Py.value :=
  match django_loc with
  | None => Py.PyNone
  | Some loc => Py.PyDict (encounter_location_data loc)
  end.

(** The keyword arguments [data] that [convert_encounter] hands to the
    resource constructor. *)
Definition encounter_data (e : Encounter.t) : Py.dict :=
  let data :=
    [("resourceType", Py.PyStr "Encounter");
     ("status", Py.PyStr (Encounter.status e));
     ("class", Py.PyList [convert_codeable_concept (Encounter.class_field e)])] in
  let data := Py.set_str (Resource.fhir_id e) "id" data in
  let data := Py.set_opt (Encounter.priority e) "priority" convert_codeable_concept data in
  let data := Py.set_opt (Encounter.subject e) "subject" Reference.to_value data in
  let data := Py.set_opt (Encounter.actualPeriod e) "actualPeriod" convert_period data in
  let data := Py.set_opt (Encounter.plannedStartDate e) "plannedStartDate"
                (fun d => Py.PyStr (isoformat d)) data in
  let data := Py.set_opt (Encounter.plannedEndDate e) "plannedEndDate"
                (fun d => Py.PyStr (isoformat d)) data in
  let types := Py.collect convert_codeable_concept (Encounter.type e) in
  let data := Py.set_list types "type" data in
  let participants :=
    Py.collect (fun p => convert_encounter_participant (Some p))
      (Encounter.participants e) in
  let data := Py.set_list participants "participant" data in
  let diagnoses :=
    Py.collect (fun dg => convert_encounter_diagnosis (Some dg))
      (Encounter.diagnoses e) in
  let data := Py.set_list diagnoses "diagnosis" data in
  let data :=
    match Encounter.admission e with
    | Some a =>
        let admission_data := convert_encounter_admission (Some a) in
        Py.set_if (Py.truthy admission_data) "admission" admission_data data
    | None => data
    end in
  let locations :=
    Py.collect (fun loc => convert_encounter_location (Some loc))
      (Encounter.locations e) in
  let data := Py.set_list locations "location" data in
  data.

Definition convert_encounter (django_encounter : option Encounter.t) : Py.value :=
  match django_encounter with
  | None => Py.PyNone
  | Some e => Py.PyDict (encounter_data e)
  end.

End EncounterSerializers.


(** ** Vocabulary of the properties *)

Section Populated.
Context {C : Components}.

(** Number of non-null fields of each choice-type group, counted on the
    columns themselves. *)
Definition extension_value_populated (e : AbstractExtension.t) : nat :=
  b2n (Py.is_not_None (AbstractExtension.value_string e))
  + b2n (Py.is_not_None (AbstractExtension.value_boolean e))
  + b2n (Py.is_not_None (AbstractExtension.value_integer e))
  + b2n (Py.is_not_None (AbstractExtension.value_decimal e))
  + b2n (Py.is_not_None (AbstractExtension.value_datetime e))
  + b2n (Py.is_not_None (AbstractExtension.value_period e)).

Definition component_value_populated (c : ObservationComponent.t) : nat :=
  b2n (Py.is_not_None (ObservationComponent.valueQuantity c))
  + b2n (Py.is_not_None (ObservationComponent.valueCodeableConcept c))
  + b2n (Py.is_not_None (ObservationComponent.valueString c))
  + b2n (Py.is_not_None (ObservationComponent.valueBoolean c))
  + b2n (Py.is_not_None (ObservationComponent.valueInteger c))
  + b2n (Py.is_not_None (ObservationComponent.valueRange c))
  + b2n (Py.is_not_None (ObservationComponent.valuePeriod c))
  + b2n (Py.is_not_None (ObservationComponent.valueDateTime c))
  + b2n (Py.is_not_None (ObservationComponent.valueTime c)).

Definition observation_effective_populated (o : Observation.t) : nat :=
  b2n (Py.is_not_None (Observation.effectiveDateTime o))
  + b2n (Py.is_not_None (Observation.effectiveInstant o))
  + b2n (Py.is_not_None (Observation.effectivePeriod o)).

Definition observation_value_populated (o : Observation.t) : nat :=
  b2n (Py.is_not_None (Observation.valueQuantity o))
  + b2n (Py.is_not_None (Observation.valueCodeableConcept o))
  + b2n (Py.is_not_None (Observation.valueString o))
  + b2n (Py.is_not_None (Observation.valueBoolean o))
  + b2n (Py.is_not_None (Observation.valueInteger o))
  + b2n (Py.is_not_None (Observation.valueRange o))
  + b2n (Py.is_not_None (Observation.valuePeriod o))
  + b2n (Py.is_not_None (Observation.valueDateTime o))
  + b2n (Py.is_not_None (Observation.valueTime o)).

Definition version_algorithm_populated (r : CanonicalResource.t) : nat :=
  b2n (Py.is_not_None (CanonicalResource.versionAlgorithmString r))
  + b2n (Py.is_not_None (CanonicalResource.versionAlgorithmCoding r)).

End Populated.

(** ** Vocabulary of the validation rules *)

(** A string field is set when it holds a non-empty string. *)
Definition str_set (x : option string) : Prop :=
  exists s, x = Some s /\ s <> "".

(** The white space of Python's [str]: the characters, by code point,
    that [strip()] removes. *)
Definition python_whitespace : list N :=
  [0x09; 0x0A; 0x0B; 0x0C; 0x0D; 0x1C; 0x1D; 0x1E; 0x1F; 0x20; 0x85; 0xA0;
   0x1680; 0x2000; 0x2001; 0x2002; 0x2003; 0x2004; 0x2005; 0x2006; 0x2007;
   0x2008; 0x2009; 0x200A; 0x2028; 0x2029; 0x202F; 0x205F; 0x3000]%N.

(** A text is non-blank when one of its characters is not white space. *)
Definition nonblank (s : Py.text) : Prop :=
  exists c, In c s /\ ~ In c python_whitespace.

Definition resource_error : string :=
  "Resource.fhir_id is required when resource has implicit rules".
Definition contained_error : string :=
  "Contained resources cannot themselves contain other resources".
Definition meta_version_error : string :=
  "Contained resources cannot have meta.versionId or meta.lastUpdated".
Definition meta_security_error : string :=
  "Contained resources cannot have security labels".
Definition data_absent_error : string :=
  "dataAbsentReason shall only be present if there is no value[x]".
Definition date_order_error : string :=
  "Encounter planned start date must be before or equal to planned end date".
Definition period_required_error : string :=
  "Completed or discharged encounters should have a period defined".
Definition identity_error : string :=
  "Organization must have at least a name or an identifier".
Definition home_telecom_error : string :=
  "Organization contact telecom cannot have 'home' use".

Section Rules.
Context {C : Components}.

(** The three containment clauses, as violations. *)
Definition contains_resources (r : DomainResource.t) : Prop :=
  DomainResource.contained r <> [].

Definition meta_versioned (r : DomainResource.t) : Prop :=
  exists meta, Resource.meta r = Some meta
    /\ (str_set (MetaElement.versionId meta) \/ MetaElement.lastUpdated meta <> None).

Definition meta_labelled (r : DomainResource.t) : Prop :=
  exists meta, Resource.meta r = Some meta /\ MetaElement.security meta <> [].

(** The conditions of the second and third [if] of the containment block. *)
Definition meta_versioned_test (r : DomainResource.t) : bool :=
  match Resource.meta r with
  | Some meta =>
      Py.truthy_str (MetaElement.versionId meta)
      || Py.truthy_obj (MetaElement.lastUpdated meta)
  | None => false
  end.

Definition meta_labelled_test (r : DomainResource.t) : bool :=
  match Resource.meta r with
  | Some meta => Py.exists_ (MetaElement.security meta)
  | None => false
  end.

(** The element has a [children] attribute that is true. *)
Definition has_children (e : Element.t) : Prop :=
  exists c, Element.children e = Some c /\ Py.truthy c = true.

(** The organization has a non-blank name. *)
Definition has_nonblank_name (o : Organization.t) : Prop :=
  exists s, Organization.name o = Some s /\ nonblank s.

(** Some telecom of some contact of the organization has use ['home']. *)
Definition has_home_telecom (o : Organization.t) : Prop :=
  exists contact_detail telecom,
    In contact_detail (Organization.contacts o)
    /\ In telecom (ContactDetail.telecom contact_detail)
    /\ ContactPoint.use telecom = Some "home".

End Rules.

(** ** Vocabulary of the serializers *)

(** The first branch of a choice-type group that is populated, the
    branches being listed in priority order with their flag. *)
Definition first_populated (branches : list (string * bool)) : option string :=
  option_map fst (find snd branches).

(** The keys of a group that a wire document carries. *)
Definition emitted (keys : list string) (data : Py.dict) : list string :=
  filter (fun k => Py.has_key k data) keys.

Definition effective_keys : list string :=
  ["effectiveDateTime"; "effectiveInstant"; "effectivePeriod"].

(** The [value[x]] keys that the serializers handle, in priority order. *)
Definition value_keys : list string :=
  ["valueQuantity"; "valueCodeableConcept"; "valueString"; "valueBoolean";
   "valueInteger"; "valuePeriod"; "valueDateTime"; "valueTime"].

Section Wire.
Context {C : Components}.

(** The branches of [value[x]] in the priority order of the serializers;
    a string branch is populated when it is a non-empty string, every other
    branch when it is not [None]. *)
Definition value_branches
    (valueQuantity : option Quantity)
    (valueCodeableConcept : option CodeableConcept)
    (valueString : option string)
    (valueBoolean : option bool)
    (valueInteger : option Z)
    (valuePeriod : option Period)
    (valueDateTime : option datetime)
    (valueTime : option time) : list (string * bool) :=
  [("valueQuantity", Py.is_not_None valueQuantity);
   ("valueCodeableConcept", Py.is_not_None valueCodeableConcept);
   ("valueString", Py.truthy_str valueString);
   ("valueBoolean", Py.is_not_None valueBoolean);
   ("valueInteger", Py.is_not_None valueInteger);
   ("valuePeriod", Py.is_not_None valuePeriod);
   ("valueDateTime", Py.is_not_None valueDateTime);
   ("valueTime", Py.is_not_None valueTime)].

Definition observation_value_branches (o : Observation.t) : list (string * bool) :=
  value_branches
    (Observation.valueQuantity o) (Observation.valueCodeableConcept o)
    (Observation.valueString o) (Observation.valueBoolean o)
    (Observation.valueInteger o) (Observation.valuePeriod o)
    (Observation.valueDateTime o) (Observation.valueTime o).

Definition component_value_branches (c : ObservationComponent.t)
    : list (string * bool) :=
  value_branches
    (ObservationComponent.valueQuantity c) (ObservationComponent.valueCodeableConcept c)
    (ObservationComponent.valueString c) (ObservationComponent.valueBoolean c)
    (ObservationComponent.valueInteger c) (ObservationComponent.valuePeriod c)
    (ObservationComponent.valueDateTime c) (ObservationComponent.valueTime c).

Definition observation_effective_branches (o : Observation.t)
    : list (string * bool) :=
  [("effectiveDateTime", Py.is_not_None (Observation.effectiveDateTime o));
   ("effectiveInstant", Py.is_not_None (Observation.effectiveInstant o));
   ("effectivePeriod", Py.is_not_None (Observation.effectivePeriod o))].

(** The optional fields and relationships of each entity that has a wire
    key, with the test that the underlying value is present: not [None] for
    a field, at least one row for a relationship. *)
Definition observation_optional (o : Observation.t) : list (string * bool) :=
  [("id", Py.is_not_None (Resource.fhir_id o));
   ("category", Py.exists_ (Observation.category o));
   ("subject", Py.is_not_None (Observation.subject o));
   ("encounter", Py.is_not_None (Observation.encounter o));
   ("effectiveDateTime", Py.is_not_None (Observation.effectiveDateTime o));
   ("effectiveInstant", Py.is_not_None (Observation.effectiveInstant o));
   ("effectivePeriod", Py.is_not_None (Observation.effectivePeriod o));
   ("issued", Py.is_not_None (Observation.issued o));
   ("valueQuantity", Py.is_not_None (Observation.valueQuantity o));
   ("valueCodeableConcept", Py.is_not_None (Observation.valueCodeableConcept o));
   ("valueString", Py.is_not_None (Observation.valueString o));
   ("valueBoolean", Py.is_not_None (Observation.valueBoolean o));
   ("valueInteger", Py.is_not_None (Observation.valueInteger o));
   ("valueRange", Py.is_not_None (Observation.valueRange o));
   ("valuePeriod", Py.is_not_None (Observation.valuePeriod o));
   ("valueDateTime", Py.is_not_None (Observation.valueDateTime o));
   ("valueTime", Py.is_not_None (Observation.valueTime o));
   ("dataAbsentReason", Py.is_not_None (Observation.dataAbsentReason o));
   ("interpretation", Py.exists_ (Observation.interpretation o));
   ("note", Py.is_not_None (Observation.note o));
   ("bodySite", Py.is_not_None (Observation.bodySite o));
   ("method", Py.is_not_None (Observation.method o));
   ("referenceRange", Py.exists_ (Observation.reference_ranges o));
   ("component", Py.exists_ (Observation.components o))].

Definition component_optional (c : ObservationComponent.t) : list (string * bool) :=
  [("valueQuantity", Py.is_not_None (ObservationComponent.valueQuantity c));
   ("valueCodeableConcept", Py.is_not_None (ObservationComponent.valueCodeableConcept c));
   ("valueString", Py.is_not_None (ObservationComponent.valueString c));
   ("valueBoolean", Py.is_not_None (ObservationComponent.valueBoolean c));
   ("valueInteger", Py.is_not_None (ObservationComponent.valueInteger c));
   ("valueRange", Py.is_not_None (ObservationComponent.valueRange c));
   ("valuePeriod", Py.is_not_None (ObservationComponent.valuePeriod c));
   ("valueDateTime", Py.is_not_None (ObservationComponent.valueDateTime c));
   ("valueTime", Py.is_not_None (ObservationComponent.valueTime c));
   ("dataAbsentReason", Py.is_not_None (ObservationComponent.dataAbsentReason c));
   ("interpretation", Py.exists_ (ObservationComponent.interpretation c));
   ("referenceRange", Py.exists_ (ObservationComponent.reference_ranges c))].

Definition encounter_optional (e : Encounter.t) : list (string * bool) :=
  [("id", Py.is_not_None (Resource.fhir_id e));
   ("priority", Py.is_not_None (Encounter.priority e));
   ("subject", Py.is_not_None (Encounter.subject e));
   ("actualPeriod", Py.is_not_None (Encounter.actualPeriod e));
   ("plannedStartDate", Py.is_not_None (Encounter.plannedStartDate e));
   ("plannedEndDate", Py.is_not_None (Encounter.plannedEndDate e));
   ("type", Py.exists_ (Encounter.type e));
   ("participant", Py.exists_ (Encounter.participants e));
   ("diagnosis", Py.exists_ (Encounter.diagnoses e));
   ("admission", Py.is_not_None (Encounter.admission e));
   ("location", Py.exists_ (Encounter.locations e))].

(** The wire keys that hold the rows of a multi-valued relationship. *)
Definition observation_list_keys : list string :=
  ["category"; "interpretation"; "referenceRange"; "component"].

Definition component_list_keys : list string :=
  ["interpretation"; "referenceRange"].

Definition encounter_list_keys : list string :=
  ["type"; "participant"; "diagnosis"; "location"].

End Wire.

(** ** A small instance of [components] for worked examples

    A codeable concept or coding is its text, a quantity a value and a
    unit, a period and a range a pair of bounds, an identifier its value;
    [isoformat] prints the number of microseconds. *)
Definition sample_components : Components := {|
  CodeableConcept := string;
  Coding := string;
  Quantity := Z * string;
  Period := option datetime * option datetime;
  Range := Z * Z;
  Identifier := string;
  convert_codeable_concept := fun text => Py.PyDict [("text", Py.PyStr text)];
  convert_quantity := fun q =>
    Py.PyDict [("value", Py.PyInt (fst q)); ("unit", Py.PyStr (snd q))];
  convert_period := fun p =>
    Py.PyDict
      [("start", match fst p with Some d => Py.PyInt d | None => Py.PyNone end);
       ("end", match snd p with Some d => Py.PyInt d | None => Py.PyNone end)];
  isoformat := fun d => NilZero.string_of_int (Z.to_int d);
  time_isoformat := fun t => NilZero.string_of_int (Z.to_int t)
|}.

Module Sample.

Definition unsaved : Base.t := {| Base.pk := None |}.
Definition saved : Base.t := {| Base.pk := Some 1%positive |}.

Definition resource (b : Base.t) : @Resource.t sample_components := {|
  Resource.base := b;
  Resource.fhir_id := None;
  Resource.meta := None;
  Resource.implicitRules := None;
  Resource.language := None
|}.

Definition domain (b : Base.t) : @DomainResource.t sample_components := {|
  DomainResource.resource := resource b;
  DomainResource.contained := [];
  DomainResource.container := None
|}.

(** A definitional resource with [versionAlgorithmString = ''] and a
    [versionAlgorithmCoding]. *)
Definition canonical_empty_string : @CanonicalResource.t sample_components := {|
  CanonicalResource.domain := domain saved;
  CanonicalResource.url := None;
  CanonicalResource.version := None;
  CanonicalResource.versionAlgorithmString := Some "";
  CanonicalResource.versionAlgorithmCoding := Some "semver";
  CanonicalResource.status := "draft"
|}.

(** The same with [versionAlgorithmString = 'semver']. *)
Definition canonical_both : @CanonicalResource.t sample_components := {|
  CanonicalResource.domain := domain saved;
  CanonicalResource.url := None;
  CanonicalResource.version := None;
  CanonicalResource.versionAlgorithmString := Some "semver";
  CanonicalResource.versionAlgorithmCoding := Some "semver";
  CanonicalResource.status := "draft"
|}.

Definition ref (n : N) : GenericRef :=
  {| content_type := "organization"; object_id := n |}.

Definition meta_full : @MetaElement.t sample_components := {|
  MetaElement.versionId := Some "3";
  MetaElement.lastUpdated := Some 1736035200000000%Z;
  MetaElement.security := ("R" : @Coding sample_components) :: nil
|}.

(** A contained resource that itself contains a resource and whose meta
    carries a version, a date and a security label. *)
Definition contained_domain : @DomainResource.t sample_components := {|
  DomainResource.resource := {|
    Resource.base := saved;
    Resource.fhir_id := Some "inner";
    Resource.meta := Some meta_full;
    Resource.implicitRules := None;
    Resource.language := None
  |};
  DomainResource.contained := [ref 7];
  DomainResource.container := Some (ref 1)
|}.

Definition extension_row : @AbstractExtension.t sample_components := {|
  AbstractExtension.url := "http://example.org/ext";
  AbstractExtension.value_string := Some "x";
  AbstractExtension.value_boolean := None;
  AbstractExtension.value_integer := None;
  AbstractExtension.value_decimal := None;
  AbstractExtension.value_datetime := None;
  AbstractExtension.value_period := None;
  AbstractExtension.content_object := None
|}.

(** An element with one attached extension and no [fhir_id]. *)
Definition element_with_extension (b : Base.t) : @Element.t sample_components := {|
  Element.base := b;
  Element.fhir_id := None;
  Element.extension := [extension_row];
  Element.children := None
|}.

(** The observation of the spec's scenario: status ['final'], a code,
    [valueString = 'Normal'] and a [dataAbsentReason]. *)
Definition observation_normal (b : Base.t) : @Observation.t sample_components := {|
  Observation.domain := domain b;
  Observation.status := "final";
  Observation.category := [];
  Observation.code := "Blood Pressure";
  Observation.subject := None;
  Observation.encounter := None;
  Observation.effectiveDateTime := None;
  Observation.effectiveInstant := None;
  Observation.effectivePeriod := None;
  Observation.issued := None;
  Observation.valueQuantity := None;
  Observation.valueCodeableConcept := None;
  Observation.valueString := Some "Normal";
  Observation.valueBoolean := None;
  Observation.valueInteger := None;
  Observation.valueRange := None;
  Observation.valuePeriod := None;
  Observation.valueDateTime := None;
  Observation.valueTime := None;
  Observation.dataAbsentReason := Some "unknown";
  Observation.interpretation := [];
  Observation.note := None;
  Observation.bodySite := None;
  Observation.method := None;
  Observation.reference_ranges := [];
  Observation.components := []
|}.

(** 2025-01-05T00:00Z and 2025-01-10T00:00Z *)
Definition jan_05 : datetime := 1736035200000000%Z.
Definition jan_10 : datetime := 1736467200000000%Z.

Definition encounter (status : string) (start end_ : option datetime)
    (period : option (option datetime * option datetime))
    : @Encounter.t sample_components := {|
  Encounter.domain := domain unsaved;
  Encounter.status := status;
  Encounter.class_field := "inpatient";
  Encounter.priority := None;
  Encounter.type := [];
  Encounter.subject := None;
  Encounter.actualPeriod := None;
  Encounter.plannedStartDate := start;
  Encounter.plannedEndDate := end_;
  Encounter.period := period;
  Encounter.note := None;
  Encounter.participants := [];
  Encounter.diagnoses := [];
  Encounter.admission := None;
  Encounter.locations := []
|}.

(** An organization whose name is given by its code points. *)
Definition organization_text (d : @DomainResource.t sample_components)
    (name : option Py.text) (identifiers : list string)
    (contacts : list ContactDetail.t) : @Organization.t sample_components := {|
  Organization.domain := d;
  Organization.active := None;
  Organization.name := name;
  Organization.description := None;
  Organization.identifiers := identifiers;
  Organization.contacts := contacts
|}.

(** An organization whose name is an ASCII literal. *)
Definition organization (d : @DomainResource.t sample_components)
    (name : option string) (identifiers : list string)
    (contacts : list ContactDetail.t) : @Organization.t sample_components :=
  organization_text d (option_map Py.of_string name) identifiers contacts.

(** A name made of an em space (U+2003) and an ideographic space
    (U+3000). *)
Definition wide_blank : Py.text := [0x2003; 0x3000]%N.

Definition home_contact : ContactDetail.t := {|
  ContactDetail.name := Some "Front desk";
  ContactDetail.telecom :=
    [{| ContactPoint.system := Some "phone";
        ContactPoint.value := Some "+1-555-0100";
        ContactPoint.use := Some "home" |}]
|}.

(** An unsaved resource with a container and the given contained rows. *)
Definition unsaved_contained (rows : list GenericRef)
    : @DomainResource.t sample_components := {|
  DomainResource.resource := resource unsaved;
  DomainResource.contained := rows;
  DomainResource.container := Some (ref 1)
|}.

(** A saved observation with the given [value[x]] branches and no
    other optional field. *)
Definition observation_value (valueString : option string)
    (valueBoolean : option bool) (valueInteger : option Z)
    (valueRange : option (Z * Z)) : @Observation.t sample_components := {|
  Observation.domain := domain saved;
  Observation.status := "final";
  Observation.category := [];
  Observation.code := "Blood Pressure";
  Observation.subject := None;
  Observation.encounter := None;
  Observation.effectiveDateTime := None;
  Observation.effectiveInstant := None;
  Observation.effectivePeriod := None;
  Observation.issued := None;
  Observation.valueQuantity := None;
  Observation.valueCodeableConcept := None;
  Observation.valueString := valueString;
  Observation.valueBoolean := valueBoolean;
  Observation.valueInteger := valueInteger;
  Observation.valueRange := valueRange;
  Observation.valuePeriod := None;
  Observation.valueDateTime := None;
  Observation.valueTime := None;
  Observation.dataAbsentReason := None;
  Observation.interpretation := [];
  Observation.note := None;
  Observation.bodySite := None;
  Observation.method := None;
  Observation.reference_ranges := [];
  Observation.components := []
|}.

End Sample.

(** ** Vocabulary of the whole validation chain *)

Definition effective_error : string := "Only one effective[x] field can be set".
Definition value_error : string := "Only one value[x] field can be set".
Definition component_value_error : string :=
  "Only one value[x] can be set per ObservationComponent".
Definition element_error : string :=
  "Element.fhir_id is required when element has children or extensions".
Definition backbone_type_error : string :=
  "BackboneType.fhir_id is required when modifierExtension is present".
Definition version_algorithm_error : string :=
  "Only one versionAlgorithm[x] field can be set".
Definition url_error : string := "URL should not contain | or # characters".

(** The errors of the rules that every resource inherits. *)
Definition inherited_errors : list string :=
  [resource_error; contained_error; meta_version_error; meta_security_error].

(** The string has one of the characters [|] and [#]. *)
Definition has_reserved_char (u : string) : Prop :=
  In "|"%char (list_ascii_of_string u) \/ In "#"%char (list_ascii_of_string u).

Section ChainRules.
Context {C : Components}.

(** Implicit rules need a logical id. *)
Definition resource_rule (r : Resource.t) : Prop :=
  str_set (Resource.implicitRules r) -> str_set (Resource.fhir_id r).

(** A contained resource violates none of the three containment clauses. *)
Definition containment_rule (r : DomainResource.t) : Prop :=
  DomainResource.container r <> None ->
  ~ contains_resources r /\ ~ meta_versioned r /\ ~ meta_labelled r.

Definition dates_ordered (e : Encounter.t) : Prop :=
  forall s t : datetime,
    Encounter.plannedStartDate e = Some s ->
    Encounter.plannedEndDate e = Some t -> (s <= t)%Z.

Definition period_rule (e : Encounter.t) : Prop :=
  Encounter.status e = "completed" \/ Encounter.status e = "discharged" ->
  Encounter.period e <> None.

Definition data_absent_rule (o : Observation.t) : Prop :=
  Base.pk o <> None -> 0 < observation_value_populated o ->
  Observation.dataAbsentReason o = None.

Definition identity_rule (o : Organization.t) : Prop :=
  has_nonblank_name o
  \/ (Base.pk o <> None /\ Organization.identifiers o <> []).

Definition telecom_rule (o : Organization.t) : Prop :=
  Base.pk o <> None -> ~ has_home_telecom o.

(** The violations, in positive form. *)
Definition dates_reversed (e : Encounter.t) : Prop :=
  exists s t : datetime,
    Encounter.plannedStartDate e = Some s
    /\ Encounter.plannedEndDate e = Some t /\ (s > t)%Z.

Definition period_missing (e : Encounter.t) : Prop :=
  (Encounter.status e = "completed" \/ Encounter.status e = "discharged")
  /\ Encounter.period e = None.

Definition data_absent_conflict (o : Observation.t) : Prop :=
  Base.pk o <> None /\ 0 < observation_value_populated o
  /\ Observation.dataAbsentReason o <> None.

Definition identity_missing (o : Organization.t) : Prop :=
  ~ has_nonblank_name o
  /\ ~ (Base.pk o <> None /\ Organization.identifiers o <> []).

(** The element needs a [fhir_id]: it has children, or it is saved and has
    extension rows. *)
Definition element_needs_id (e : Element.t) : Prop :=
  has_children e \/ (Base.pk e <> None /\ Element.extension e <> []).

End ChainRules.

(** ** Vocabulary of the wire documents *)

(** The keys that each serializer can put in its document. *)
Definition observation_keys : list string :=
  ["resourceType"; "status"; "code"; "id"; "category"; "subject"; "encounter";
   "effectiveDateTime"; "effectiveInstant"; "effectivePeriod"; "issued";
   "valueQuantity"; "valueCodeableConcept"; "valueString"; "valueBoolean";
   "valueInteger"; "valuePeriod"; "valueDateTime"; "valueTime";
   "dataAbsentReason"; "interpretation"; "note"; "bodySite"; "method";
   "referenceRange"; "component"].

Definition component_keys : list string :=
  ["code"; "valueQuantity"; "valueCodeableConcept"; "valueString";
   "valueBoolean"; "valueInteger"; "valuePeriod"; "valueDateTime"; "valueTime";
   "dataAbsentReason"; "interpretation"; "referenceRange"].

Definition encounter_keys : list string :=
  ["resourceType"; "status"; "class"; "id"; "priority"; "subject";
   "actualPeriod"; "plannedStartDate"; "plannedEndDate"; "type"; "participant";
   "diagnosis"; "admission"; "location"].

Section WireTables.
Context {C : Components}.

(** Some row of the relation converts to a true value. *)
Definition some_truthy {A : Type} (f : A -> Py.value) (rows : list A) : bool :=
  existsb (fun row => Py.truthy (f row)) rows.

(** The optional keys outside the choice-type groups, each with the test
    under which the field or relationship has something to emit. *)
Definition observation_emits (o : Observation.t) : list (string * bool) :=
  [("id", Py.truthy_str (Resource.fhir_id o));
   ("category", some_truthy convert_codeable_concept (Observation.category o));
   ("subject", Py.is_not_None (Observation.subject o));
   ("encounter", Py.is_not_None (Observation.encounter o));
   ("issued", Py.is_not_None (Observation.issued o));
   ("dataAbsentReason", Py.is_not_None (Observation.dataAbsentReason o));
   ("interpretation",
    some_truthy convert_codeable_concept (Observation.interpretation o));
   ("note", Py.truthy_json (Observation.note o));
   ("bodySite", Py.is_not_None (Observation.bodySite o));
   ("method", Py.is_not_None (Observation.method o));
   ("component", Py.exists_ (Observation.components o))].

Definition encounter_emits (e : Encounter.t) : list (string * bool) :=
  [("id", Py.truthy_str (Resource.fhir_id e));
   ("priority", Py.is_not_None (Encounter.priority e));
   ("subject", Py.is_not_None (Encounter.subject e));
   ("actualPeriod", Py.is_not_None (Encounter.actualPeriod e));
   ("plannedStartDate", Py.is_not_None (Encounter.plannedStartDate e));
   ("plannedEndDate", Py.is_not_None (Encounter.plannedEndDate e));
   ("type", some_truthy convert_codeable_concept (Encounter.type e));
   ("diagnosis", Py.exists_ (Encounter.diagnoses e));
   ("location", Py.exists_ (Encounter.locations e))].

(** The optional fields of the backbone elements, with the test that the
    underlying value is present. *)
Definition reference_range_optional (rr : ObservationReferenceRange.t)
    : list (string * bool) :=
  [("low", Py.is_not_None (ObservationReferenceRange.low rr));
   ("high", Py.is_not_None (ObservationReferenceRange.high rr));
   ("type", Py.is_not_None (ObservationReferenceRange.type rr));
   ("normalValue", Py.is_not_None (ObservationReferenceRange.normalValue rr));
   ("text", Py.is_not_None (ObservationReferenceRange.text rr))].

Definition participant_optional (p : EncounterParticipant.t) : list (string * bool) :=
  [("type", Py.exists_ (EncounterParticipant.type p));
   ("period", Py.is_not_None (EncounterParticipant.period p));
   ("actor", Py.is_not_None (EncounterParticipant.actor p))].

Definition diagnosis_optional (dg : EncounterDiagnosis.t) : list (string * bool) :=
  [("use", Py.exists_ (EncounterDiagnosis.use dg))].

Definition admission_optional (a : EncounterAdmission.t) : list (string * bool) :=
  [("admitSource", Py.is_not_None (EncounterAdmission.admitSource a));
   ("reAdmission", Py.is_not_None (EncounterAdmission.reAdmission a));
   ("dischargeDisposition",
    Py.is_not_None (EncounterAdmission.dischargeDisposition a));
   ("origin", Py.is_not_None (EncounterAdmission.origin a));
   ("destination", Py.is_not_None (EncounterAdmission.destination a))].

Definition location_optional (loc : EncounterLocation.t) : list (string * bool) :=
  [("status", Py.is_not_None (EncounterLocation.status loc));
   ("form", Py.is_not_None (EncounterLocation.form loc));
   ("period", Py.is_not_None (EncounterLocation.period loc))].

(** The admission has one of the five fields that its serializer reads. *)
Definition admission_has_data (a : EncounterAdmission.t) : Prop :=
  EncounterAdmission.admitSource a <> None
  \/ EncounterAdmission.reAdmission a <> None
  \/ EncounterAdmission.dischargeDisposition a <> None
  \/ EncounterAdmission.origin a <> None
  \/ EncounterAdmission.destination a <> None.

End WireTables.

Section EmptyRows.
Context {C : Components}.



End EmptyRows.

(** ** Rows for the worked examples of the further properties *)

Module SampleX.

Definition element (b : Base.t) (fhir_id : option string)
    (rows : list (@AbstractExtension.t sample_components))
    : @Element.t sample_components := {|
  Element.base := b;
  Element.fhir_id := fhir_id;
  Element.extension := rows;
  Element.children := None
|}.

Definition backbone (b : Base.t) (fhir_id : option string)
    (rows : list (@AbstractExtension.t sample_components))
    : @BackboneElement.t sample_components := {|
  BackboneElement.element := element b fhir_id rows;
  BackboneElement.modifierExtension := None
|}.

(** A saved component "Systolic BP" with the given integer and string
    values. *)
Definition component (fhir_id : option string)
    (rows : list (@AbstractExtension.t sample_components))
    (valueInteger : option Z) (valueString : option string)
    : @ObservationComponent.t sample_components := {|
  ObservationComponent.backbone := backbone Sample.saved fhir_id rows;
  ObservationComponent.code := "Systolic BP";
  ObservationComponent.dataAbsentReason := None;
  ObservationComponent.interpretation := [];
  ObservationComponent.valueQuantity := None;
  ObservationComponent.valueCodeableConcept := None;
  ObservationComponent.valueString := valueString;
  ObservationComponent.valueBoolean := None;
  ObservationComponent.valueInteger := valueInteger;
  ObservationComponent.valueRange := None;
  ObservationComponent.valuePeriod := None;
  ObservationComponent.valueDateTime := None;
  ObservationComponent.valueTime := None;
  ObservationComponent.reference_ranges := []
|}.

(** A reference range with the given text and nothing else. *)
Definition reference_range (text : option string)
    : @ObservationReferenceRange.t sample_components := {|
  ObservationReferenceRange.backbone := backbone Sample.saved None [];
  ObservationReferenceRange.low := None;
  ObservationReferenceRange.high := None;
  ObservationReferenceRange.normalValue := None;
  ObservationReferenceRange.type := None;
  ObservationReferenceRange.age := Some (18, 65)%Z;
  ObservationReferenceRange.text := text
|}.


Definition ward : Reference.t := {|
  Reference.reference := Some "Location/ward-3";
  Reference.display := None
|}.

Definition condition : Reference.t := {|
  Reference.reference := Some "Condition/c1";
  Reference.display := None
|}.

(** A saved participant with the given actor and nothing else. *)
Definition participant (actor : option Reference.t)
    : @EncounterParticipant.t sample_components := {|
  EncounterParticipant.backbone := backbone Sample.saved None [];
  EncounterParticipant.type := [];
  EncounterParticipant.period := None;
  EncounterParticipant.actor := actor
|}.

Definition diagnosis : @EncounterDiagnosis.t sample_components := {|
  EncounterDiagnosis.backbone := backbone Sample.saved None [];
  EncounterDiagnosis.condition := condition;
  EncounterDiagnosis.use := []
|}.

Definition location : @EncounterLocation.t sample_components := {|
  EncounterLocation.backbone := backbone Sample.saved None [];
  EncounterLocation.location := ward;
  EncounterLocation.status := None;
  EncounterLocation.form := None;
  EncounterLocation.period := None
|}.

(** An admission with a pre-admission identifier and the given origin. *)
Definition admission (origin : option Reference.t)
    : @EncounterAdmission.t sample_components := {|
  EncounterAdmission.backbone := backbone Sample.saved None [];
  EncounterAdmission.preAdmissionIdentifier := Some "PRE-1";
  EncounterAdmission.origin := origin;
  EncounterAdmission.admitSource := None;
  EncounterAdmission.reAdmission := None;
  EncounterAdmission.destination := None;
  EncounterAdmission.dischargeDisposition := None
|}.

Definition resource (fhir_id : option string) : @Resource.t sample_components := {|
  Resource.base := Sample.saved;
  Resource.fhir_id := fhir_id;
  Resource.meta := None;
  Resource.implicitRules := None;
  Resource.language := None
|}.

Definition domain (fhir_id : option string)
    : @DomainResource.t sample_components := {|
  DomainResource.resource := resource fhir_id;
  DomainResource.contained := [];
  DomainResource.container := None
|}.

(** A saved, in-progress encounter. *)
Definition encounter (fhir_id : option string)
    (participants : list (@EncounterParticipant.t sample_components))
    (admission : option (@EncounterAdmission.t sample_components))
    : @Encounter.t sample_components := {|
  Encounter.domain := domain fhir_id;
  Encounter.status := "in-progress";
  Encounter.class_field := "inpatient";
  Encounter.priority := None;
  Encounter.type := [];
  Encounter.subject := None;
  Encounter.actualPeriod := None;
  Encounter.plannedStartDate := None;
  Encounter.plannedEndDate := None;
  Encounter.period := None;
  Encounter.note := None;
  Encounter.participants := participants;
  Encounter.diagnoses := [diagnosis];
  Encounter.admission := admission;
  Encounter.locations := [location]
|}.

(** A saved observation made during the given encounter, with two
    components and the given reference ranges and quantity. *)
Definition observation
    (encounter : option (@Encounter.t sample_components))
    (reference_ranges : list (@ObservationReferenceRange.t sample_components))
    (valueQuantity : option (Z * string)) (valueInteger : option Z)
    : @Observation.t sample_components := {|
  Observation.domain := domain (Some "obs-1");
  Observation.status := "final";
  Observation.category := [];
  Observation.code := "Blood Pressure";
  Observation.subject := None;
  Observation.encounter := encounter;
  Observation.effectiveDateTime := None;
  Observation.effectiveInstant := None;
  Observation.effectivePeriod := None;
  Observation.issued := None;
  Observation.valueQuantity := valueQuantity;
  Observation.valueCodeableConcept := None;
  Observation.valueString := None;
  Observation.valueBoolean := None;
  Observation.valueInteger := valueInteger;
  Observation.valueRange := None;
  Observation.valuePeriod := None;
  Observation.valueDateTime := None;
  Observation.valueTime := None;
  Observation.dataAbsentReason := None;
  Observation.interpretation := [];
  Observation.note := None;
  Observation.bodySite := None;
  Observation.method := None;
  Observation.reference_ranges := reference_ranges;
  Observation.components :=
    [component None [] (Some 120%Z) None; component None [] (Some 80%Z) None]
|}.

(** A definitional resource with the given url and version algorithm. *)
Definition canonical (url versionAlgorithmString : option string)
    (versionAlgorithmCoding : option string)
    : @CanonicalResource.t sample_components := {|
  CanonicalResource.domain := domain (Some "def-1");
  CanonicalResource.url := url;
  CanonicalResource.version := None;
  CanonicalResource.versionAlgorithmString := versionAlgorithmString;
  CanonicalResource.versionAlgorithmCoding := versionAlgorithmCoding;
  CanonicalResource.status := "draft"
|}.

(** An extension whose one value is the integer 5. *)
Definition extension_five : @AbstractExtension.t sample_components := {|
  AbstractExtension.url := "http://example.org/ext";
  AbstractExtension.value_string := None;
  AbstractExtension.value_boolean := None;
  AbstractExtension.value_integer := Some 5%Z;
  AbstractExtension.value_decimal := None;
  AbstractExtension.value_datetime := None;
  AbstractExtension.value_period := None;
  AbstractExtension.content_object := None
|}.

End SampleX.

(** * Properties *)

(** ** Outcomes *)

Lemma fails_raise_if (c : bool) (msg : string) :
  fails (raise_if c msg) <-> c = true.
Proof.
  unfold fails, raise_if. destruct c; split; intros H.
  - reflexivity.
  - now exists msg.
  - destruct H as [m H]. discriminate H.
  - discriminate H.
Qed.

Lemma raise_if_passed (c : bool) (msg : string) :
  raise_if c msg = Passed <-> c = false.
Proof.
  unfold raise_if. destruct c; split; intros H; try reflexivity; discriminate H.
Qed.

Lemma raise_if_raised (c : bool) (msg m : string) :
  raise_if c msg = Raised m <-> c = true /\ m = msg.
Proof.
  unfold raise_if. destruct c; split.
  - intros H. injection H as ->. now split.
  - intros [_ ->]. reflexivity.
  - discriminate.
  - intros [H _]. discriminate H.
Qed.

Lemma fails_and_then_l (a b : outcome) : fails a -> fails (a ;; b).
Proof. intros [m ->]. now exists m. Qed.

Lemma fails_and_then_r (a b : outcome) : fails b -> fails (a ;; b).
Proof.
  intros Hb. destruct a as [|m]; [exact Hb | now exists m].
Qed.

Lemma fails_not_passed (r : outcome) : fails r <-> r <> Passed.
Proof.
  split.
  - intros [m ->]. discriminate.
  - destruct r as [|m]; [intros H; now elim H | intros _; now exists m].
Qed.

Lemma and_then_passed (a b : outcome) :
  a ;; b = Passed <-> a = Passed /\ b = Passed.
Proof.
  destruct a; simpl; split.
  - intros H. now split.
  - intros [_ H]. exact H.
  - discriminate.
  - intros [H _]. discriminate H.
Qed.

Lemma and_then_raised (a b : outcome) (m : string) :
  a ;; b = Raised m <-> a = Raised m \/ (a = Passed /\ b = Raised m).
Proof.
  destruct a; simpl; split.
  - intros H. right. now split.
  - intros [H | [_ H]]; [discriminate H | exact H].
  - intros H. now left.
  - intros [H | [H _]]; [exact H | discriminate H].
Qed.

(** ** Counting the populated fields of a group *)

Lemma length_filter_cons {A : Type} (f : A -> bool) (x : A) (l : list A) :
  length (filter f (x :: l)) = b2n (f x) + length (filter f l).
Proof. simpl. destruct (f x); reflexivity. Qed.

Section ChoiceTypes.
Context {C : Components}.

Lemma extension_set_values_length (e : AbstractExtension.t) :
  length (AbstractExtension.set_values e) = extension_value_populated e.
Proof.
  unfold AbstractExtension.set_values, AbstractExtension.value_fields,
    extension_value_populated.
  rewrite !length_filter_cons.
  unfold AbstractExtension.getattr_is_not_None. simpl. lia.
Qed.

Lemma component_set_values_length (c : ObservationComponent.t) :
  length (ObservationComponent.set_values c) = component_value_populated c.
Proof.
  unfold ObservationComponent.set_values, ObservationComponent.value_fields,
    component_value_populated.
  rewrite !length_filter_cons.
  unfold ObservationComponent.getattr_is_not_None. simpl. lia.
Qed.

Lemma observation_set_effectives_length (o : Observation.t) :
  length (Observation.set_effectives o) = observation_effective_populated o.
Proof.
  unfold Observation.set_effectives, Observation.effective_fields,
    observation_effective_populated.
  rewrite !length_filter_cons.
  unfold Observation.getattr_is_not_None. simpl. lia.
Qed.

Lemma observation_set_values_length (o : Observation.t) :
  length (Observation.set_values o) = observation_value_populated o.
Proof.
  unfold Observation.set_values, Observation.value_fields,
    observation_value_populated.
  rewrite !length_filter_cons.
  unfold Observation.getattr_is_not_None. simpl. lia.
Qed.

Lemma extension_clean_iff (e : AbstractExtension.t) :
  fails (AbstractExtension.clean e) <-> 1 < extension_value_populated e.
Proof.
  unfold AbstractExtension.clean.
  rewrite fails_raise_if, extension_set_values_length. apply Nat.ltb_lt.
Qed.

Lemma component_clean_value_iff (c : ObservationComponent.t) :
  fails (ObservationComponent.clean_value c) <-> 1 < component_value_populated c.
Proof.
  unfold ObservationComponent.clean_value.
  rewrite fails_raise_if, component_set_values_length. apply Nat.ltb_lt.
Qed.

Lemma observation_clean_effective_iff (o : Observation.t) :
  fails (Observation.clean_effective o) <-> 1 < observation_effective_populated o.
Proof.
  unfold Observation.clean_effective.
  rewrite fails_raise_if, observation_set_effectives_length. apply Nat.ltb_lt.
Qed.

Lemma observation_clean_value_iff (o : Observation.t) :
  fails (Observation.clean_value o) <-> 1 < observation_value_populated o.
Proof.
  unfold Observation.clean_value.
  rewrite fails_raise_if, observation_set_values_length. apply Nat.ltb_lt.
Qed.

Lemma version_algorithm_at_most_one (r : CanonicalResource.t) :
  version_algorithm_populated r <= 1 ->
  CanonicalResource.clean_version_algorithm r = Passed.
Proof.
  unfold version_algorithm_populated, CanonicalResource.clean_version_algorithm.
  destruct (CanonicalResource.versionAlgorithmString r) as [s|],
    (CanonicalResource.versionAlgorithmCoding r) as [c|]; simpl; intros H.
  - lia.
  - now rewrite andb_false_r.
  - reflexivity.
  - reflexivity.
Qed.

Lemma version_algorithm_nonempty_iff (r : CanonicalResource.t) :
  CanonicalResource.versionAlgorithmString r <> Some "" ->
  (fails (CanonicalResource.clean_version_algorithm r)
   <-> 1 < version_algorithm_populated r).
Proof.
  unfold version_algorithm_populated, CanonicalResource.clean_version_algorithm.
  intros Hne. rewrite fails_raise_if.
  destruct (CanonicalResource.versionAlgorithmString r) as [s|],
    (CanonicalResource.versionAlgorithmCoding r) as [c|]; simpl.
  - destruct (String.eqb_spec s "") as [-> | Hs]; [now elim Hne|].
    simpl. split; [lia | reflexivity].
  - rewrite andb_false_r. split; [discriminate | lia].
  - split; [discriminate | lia].
  - split; [discriminate | lia].
Qed.

(** C1 (as amended).  Each list-based choice-type group (Extension.value[x],
    ObservationComponent.value[x], Observation.effective[x],
    Observation.value[x]) has a check that raises if and only if more than
    one field of the group is non-null; when a group's check raises, [clean]
    of the entity fails.  The check of CanonicalResource.versionAlgorithm[x]
    passes whenever at most one of its two fields is non-null, and, when
    versionAlgorithmString is not the empty string, raises if and only if
    both fields are non-null. *)
Theorem choice_type_exclusivity :
  (forall e : AbstractExtension.t,
      fails (AbstractExtension.clean e) <-> 1 < extension_value_populated e)
  /\ (forall c : ObservationComponent.t,
         (fails (ObservationComponent.clean_value c)
          <-> 1 < component_value_populated c)
         /\ (fails (ObservationComponent.clean_value c)
             -> fails (ObservationComponent.clean c)))
  /\ (forall o : Observation.t,
         (fails (Observation.clean_effective o)
          <-> 1 < observation_effective_populated o)
         /\ (fails (Observation.clean_value o)
             <-> 1 < observation_value_populated o)
         /\ (fails (Observation.clean_effective o) \/ fails (Observation.clean_value o)
             -> fails (Observation.clean o)))
  /\ (forall r : CanonicalResource.t,
         (version_algorithm_populated r <= 1
          -> CanonicalResource.clean_version_algorithm r = Passed)
         /\ (CanonicalResource.versionAlgorithmString r <> Some ""
             -> (fails (CanonicalResource.clean_version_algorithm r)
                 <-> 1 < version_algorithm_populated r))
         /\ (fails (CanonicalResource.clean_version_algorithm r)
             -> fails (CanonicalResource.clean r))).
Proof.
  split; [exact extension_clean_iff|].
  split; [|split].
  - intros c. split; [apply component_clean_value_iff|].
    intros H. unfold ObservationComponent.clean. now apply fails_and_then_r.
  - intros o. split; [apply observation_clean_effective_iff|].
    split; [apply observation_clean_value_iff|].
    unfold Observation.clean. intros [H | H]; apply fails_and_then_r.
    + now apply fails_and_then_l.
    + apply fails_and_then_r. now apply fails_and_then_l.
  - intros r. split; [apply version_algorithm_at_most_one|].
    split; [apply version_algorithm_nonempty_iff|].
    intros H. unfold CanonicalResource.clean.
    apply fails_and_then_r. now apply fails_and_then_l.
Qed.

End ChoiceTypes.

(** The exclusivity law of C1 at [versionAlgorithmString = 'semver'] with a
    coding: both fields are non-null and [clean] fails. *)
Lemma choice_type_exclusivity_witness :
  CanonicalResource.versionAlgorithmString Sample.canonical_both <> Some ""
  /\ 1 < version_algorithm_populated Sample.canonical_both
  /\ fails (CanonicalResource.clean Sample.canonical_both).
Proof.
  pose proof (@choice_type_exclusivity sample_components) as [_ [_ [_ H]]].
  destruct (H Sample.canonical_both) as [_ [Hiff Hclean]].
  assert (Hne : CanonicalResource.versionAlgorithmString Sample.canonical_both
                <> Some "") by (simpl; discriminate).
  assert (Hpop : 1 < version_algorithm_populated Sample.canonical_both)
    by (vm_compute; lia).
  split; [exact Hne|]. split; [exact Hpop|].
  apply Hclean. apply (proj2 (Hiff Hne)). exact Hpop.
Defined.

(** C1 as stated fails on the code: with [versionAlgorithmString = ''] and a
    [versionAlgorithmCoding], two fields of the group are non-null and
    [clean] passes. *)
Lemma choice_type_exclusivity_counterexample :
  1 < version_algorithm_populated Sample.canonical_empty_string
  /\ CanonicalResource.clean Sample.canonical_empty_string = Passed.
Proof. split; [vm_compute; lia | reflexivity]. Qed.

(** ** Truth tests *)

Lemma truthy_str_iff (x : option string) : Py.truthy_str x = true <-> str_set x.
Proof.
  unfold str_set, Py.truthy_str. destruct x as [s|].
  - destruct (String.eqb_spec s "") as [-> | Hne]; simpl; split.
    + discriminate.
    + intros [s' [H Hs']]. injection H as <-. now elim Hs'.
    + intros _. now exists s.
    + reflexivity.
  - split; [discriminate | intros [s [H _]]; discriminate H].
Qed.

Lemma truthy_obj_iff {A : Type} (x : option A) : Py.truthy_obj x = true <-> x <> None.
Proof.
  destruct x; simpl; split; try discriminate; try reflexivity.
  intros H. now elim H.
Qed.

Lemma truthy_obj_false_iff {A : Type} (x : option A) :
  Py.truthy_obj x = false <-> x = None.
Proof. destruct x; simpl; split; try discriminate; reflexivity. Qed.

Lemma exists_iff {A : Type} (rows : list A) : Py.exists_ rows = true <-> rows <> [].
Proof.
  destruct rows; simpl; split; try discriminate; try reflexivity.
  intros H. now elim H.
Qed.

Lemma not_true_false (b : bool) : b <> true <-> b = false.
Proof. destruct b; split; intros H; try reflexivity; try discriminate; now elim H. Qed.

(** ** Containment rules of [DomainResource] *)

Section Containment.
Context {C : Components}.

Lemma meta_versioned_iff (r : DomainResource.t) :
  meta_versioned_test r = true <-> meta_versioned r.
Proof.
  unfold meta_versioned_test, meta_versioned.
  destruct (Resource.meta r) as [meta|].
  - rewrite orb_true_iff, truthy_str_iff, truthy_obj_iff. split.
    + intros H. now exists meta.
    + intros [meta' [Heq H]]. injection Heq as <-. exact H.
  - split; [discriminate | intros [meta [H _]]; discriminate H].
Qed.

Lemma meta_labelled_iff (r : DomainResource.t) :
  meta_labelled_test r = true <-> meta_labelled r.
Proof.
  unfold meta_labelled_test, meta_labelled.
  destruct (Resource.meta r) as [meta|].
  - rewrite exists_iff. split.
    + intros H. now exists meta.
    + intros [meta' [Heq H]]. injection Heq as <-. exact H.
  - split; [discriminate | intros [meta [H _]]; discriminate H].
Qed.

Lemma domain_clean_contained (r : DomainResource.t) :
  DomainResource.container r <> None ->
  DomainResource.clean r =
    (Resource.clean r ;;
     raise_if (Py.exists_ (DomainResource.contained r)) contained_error ;;
     raise_if (meta_versioned_test r) meta_version_error ;;
     raise_if (meta_labelled_test r) meta_security_error).
Proof.
  intros H. apply truthy_obj_iff in H.
  unfold DomainResource.clean. rewrite H. reflexivity.
Qed.

Lemma domain_clean_not_contained (r : DomainResource.t) :
  DomainResource.container r = None ->
  DomainResource.clean r = Resource.clean r.
Proof.
  intros H. unfold DomainResource.clean. rewrite H. simpl.
  destruct (Resource.clean r); reflexivity.
Qed.

Lemma resource_clean_not_containment (r : Resource.t) :
  Resource.clean r <> Raised contained_error
  /\ Resource.clean r <> Raised meta_version_error
  /\ Resource.clean r <> Raised meta_security_error.
Proof.
  unfold Resource.clean, Base.clean. simpl.
  destruct (Py.truthy_str (Resource.implicitRules r)
            && negb (Py.truthy_str (Resource.fhir_id r))); simpl;
    repeat split; discriminate.
Qed.

(** C3.  For a DomainResource whose container is set, validation fails
    when its contained set is non-empty, when its meta has a versionId
    (a non-empty string) or a lastUpdated, and when its meta has a security
    label; once the inherited Resource rule has passed, the error raised is
    that of the first violated clause in the order contained, version,
    security, and validation passes when no clause is violated.  With no
    container the outcome is that of the inherited rule alone, never one of
    the three containment errors. *)
Theorem containment_rules (r : DomainResource.t) :
  (DomainResource.container r <> None ->
     (contains_resources r \/ meta_versioned r \/ meta_labelled r ->
      fails (DomainResource.clean r))
     /\ (Resource.clean r = Passed ->
         (contains_resources r ->
          DomainResource.clean r = Raised contained_error)
         /\ (~ contains_resources r -> meta_versioned r ->
             DomainResource.clean r = Raised meta_version_error)
         /\ (~ contains_resources r -> ~ meta_versioned r -> meta_labelled r ->
             DomainResource.clean r = Raised meta_security_error)
         /\ (~ contains_resources r -> ~ meta_versioned r -> ~ meta_labelled r ->
             DomainResource.clean r = Passed)))
  /\ (DomainResource.container r = None ->
      DomainResource.clean r = Resource.clean r
      /\ DomainResource.clean r <> Raised contained_error
      /\ DomainResource.clean r <> Raised meta_version_error
      /\ DomainResource.clean r <> Raised meta_security_error).
Proof.
  unfold contains_resources.
  rewrite <- meta_versioned_iff, <- meta_labelled_iff, <- exists_iff.
  rewrite !not_true_false.
  split.
  - intros Hc. rewrite (domain_clean_contained r Hc). split.
    + intros H. apply fails_and_then_r.
      destruct (Py.exists_ (DomainResource.contained r));
        [now exists contained_error|].
      destruct (meta_versioned_test r); [now exists meta_version_error|].
      destruct (meta_labelled_test r); [now exists meta_security_error|].
      destruct H as [H | [H | H]]; discriminate H.
    + intros ->. simpl. repeat split.
      * intros ->. reflexivity.
      * intros -> ->. reflexivity.
      * intros -> -> ->. reflexivity.
      * intros -> -> ->. reflexivity.
  - intros Hc. rewrite (domain_clean_not_contained r Hc).
    split; [reflexivity | apply resource_clean_not_containment].
Qed.

End Containment.

(** C3 at a contained resource that violates all three clauses: the error
    raised is that of the first clause. *)
Lemma containment_rules_witness :
  DomainResource.container Sample.contained_domain <> None
  /\ DomainResource.clean Sample.contained_domain = Raised contained_error.
Proof.
  assert (Hc : DomainResource.container Sample.contained_domain <> None)
    by (simpl; discriminate).
  split; [exact Hc|].
  destruct (containment_rules Sample.contained_domain) as [H _].
  destruct (H Hc) as [_ Horder].
  destruct (Horder eq_refl) as [Hfirst _].
  apply Hfirst. unfold contains_resources. simpl. discriminate.
Defined.

(** ** Errors that the inherited rules can raise *)

Section Messages.
Context {C : Components}.

Lemma domain_clean_raises (r : DomainResource.t) (m : string) :
  DomainResource.clean r = Raised m ->
  In m [resource_error; contained_error; meta_version_error; meta_security_error].
Proof.
  unfold DomainResource.clean, Resource.clean, Base.clean, raise_if. simpl.
  destruct (Py.truthy_str (Resource.implicitRules r)
            && negb (Py.truthy_str (Resource.fhir_id r))); simpl.
  - intros H. injection H as <-. now left.
  - destruct (Py.truthy_obj (DomainResource.container r)); [|discriminate].
    destruct (Py.exists_ (DomainResource.contained r)); simpl.
    + intros H. injection H as <-. right. now left.
    + destruct (Resource.meta r) as [meta|]; simpl; [|discriminate].
      destruct (Py.truthy_str (MetaElement.versionId meta)
                || Py.truthy_obj (MetaElement.lastUpdated meta)); simpl.
      * intros H. injection H as <-. right. right. now left.
      * destruct (Py.exists_ (MetaElement.security meta)); [|discriminate].
        intros H. injection H as <-. right. right. right. now left.
Qed.

End Messages.

(** A resource-specific error is none of the inherited ones. *)
Ltac not_inherited H :=
  apply domain_clean_raises in H; simpl in H;
  repeat (destruct H as [H | H]; [discriminate H|]); exact H.

(** ** Element: the [fhir_id] requirement *)

Section ElementRule.
Context {C : Components}.

Lemma has_children_iff (e : Element.t) :
  match Element.children e with Some c => Py.truthy c | None => false end = true
  <-> has_children e.
Proof.
  unfold has_children. destruct (Element.children e) as [c|]; split.
  - intros H. now exists c.
  - intros [c' [Heq H]]. injection Heq as <-. exact H.
  - discriminate.
  - intros [c [H _]]. discriminate H.
Qed.

Lemma element_has_extension_iff (e : Element.t) :
  (if Base.truthy_pk e then Py.exists_ (Element.extension e) else false) = true
  <-> Base.pk e <> None /\ Element.extension e <> [].
Proof.
  unfold Base.truthy_pk. rewrite <- truthy_obj_iff, <- exists_iff.
  destruct (Py.truthy_obj (Base.pk e)); split.
  - intros H. now split.
  - intros [_ H]. exact H.
  - discriminate.
  - intros [H _]. discriminate H.
Qed.

Lemma element_clean_fails_iff (e : Element.t) :
  fails (Element.clean e)
  <-> (has_children e \/ (Base.pk e <> None /\ Element.extension e <> []))
      /\ ~ str_set (Element.fhir_id e).
Proof.
  unfold Element.clean.
  rewrite fails_raise_if, andb_true_iff, orb_true_iff, negb_true_iff.
  rewrite has_children_iff, element_has_extension_iff.
  rewrite <- truthy_str_iff, not_true_false. reflexivity.
Qed.

Lemma element_clean_passed_iff (e : Element.t) :
  Element.clean e = Passed <-> ~ fails (Element.clean e).
Proof.
  rewrite fails_not_passed. destruct (Element.clean e); split; intros H.
  - intros H'. now apply H'.
  - reflexivity.
  - discriminate H.
  - elim H. discriminate.
Qed.

(** C4 (as amended).  A persisted Element with an attached extension, and
    any Element with child elements, fails validation unless its fhir_id is
    set; an Element whose fhir_id is set passes, and so does an Element with
    no extensions and no children. *)
Theorem fhir_id_requirement (e : Element.t) :
  (Base.pk e <> None -> Element.extension e <> [] ->
   ~ str_set (Element.fhir_id e) -> fails (Element.clean e))
  /\ (has_children e -> ~ str_set (Element.fhir_id e) -> fails (Element.clean e))
  /\ (str_set (Element.fhir_id e) -> Element.clean e = Passed)
  /\ (Element.extension e = [] -> ~ has_children e -> Element.clean e = Passed).
Proof.
  rewrite element_clean_passed_iff, element_clean_fails_iff.
  split; [|split; [|split]].
  - intros Hpk Hrows Hid. split; [right; now split | exact Hid].
  - intros Hch Hid. split; [now left | exact Hid].
  - intros Hid [_ Hn]. now apply Hn.
  - intros Hrows Hch [[Hc | [_ Hr]] _]; [now apply Hch | now apply Hr].
Qed.

End ElementRule.

(** C4 at a saved element with one extension and no [fhir_id]. *)
Lemma fhir_id_requirement_witness :
  fails (Element.clean (Sample.element_with_extension Sample.saved)).
Proof.
  destruct (fhir_id_requirement (Sample.element_with_extension Sample.saved))
    as [H _].
  apply H.
  - simpl. discriminate.
  - simpl. discriminate.
  - intros [s [Hs _]]. simpl in Hs. discriminate Hs.
Defined.

(** C4 as stated fails on the code: an unsaved element with an attached
    extension and no [fhir_id] passes validation. *)
Lemma fhir_id_requirement_counterexample :
  Element.extension (Sample.element_with_extension Sample.unsaved) <> []
  /\ Element.fhir_id (Sample.element_with_extension Sample.unsaved) = None
  /\ Element.clean (Sample.element_with_extension Sample.unsaved) = Passed.
Proof. repeat split. simpl. discriminate. Qed.

(** ** Observation: value and absent reason *)

Section ObservationRules.
Context {C : Components}.

Lemma observation_groups_pass (o : Observation.t) :
  observation_effective_populated o <= 1 ->
  observation_value_populated o <= 1 ->
  Observation.clean_effective o = Passed /\ Observation.clean_value o = Passed.
Proof.
  intros He Hv. unfold Observation.clean_effective, Observation.clean_value.
  rewrite !raise_if_passed, observation_set_effectives_length,
    observation_set_values_length, !Nat.ltb_ge. now split.
Qed.

Lemma observation_set_values_truthy (o : Observation.t) :
  Py.truthy_list (Observation.set_values o) = true
  <-> 0 < observation_value_populated o.
Proof.
  rewrite <- observation_set_values_length.
  destruct (Observation.set_values o); simpl; split;
    try discriminate; try reflexivity; lia.
Qed.

Lemma observation_clean_unsaved (o : Observation.t) :
  Base.pk o = None ->
  Observation.clean o =
    (DomainResource.clean o ;; Observation.clean_effective o ;;
     Observation.clean_value o).
Proof.
  intros Hpk. unfold Observation.clean, Observation.clean_data_absent,
    Base.truthy_pk. rewrite Hpk. simpl.
  destruct (DomainResource.clean o), (Observation.clean_effective o),
    (Observation.clean_value o); reflexivity.
Qed.

(** C5.  A persisted Observation with a populated value[x] branch and a
    dataAbsentReason fails validation, with the data-absent error once the
    earlier rules have passed.  For an Observation that is not yet persisted
    the rule is skipped: the data-absent error is never raised, and the
    same field combination passes as soon as the other rules pass. *)
Theorem data_absent_reason_conflict (o : Observation.t) :
  (Base.pk o <> None ->
   0 < observation_value_populated o ->
   Observation.dataAbsentReason o <> None ->
   fails (Observation.clean o)
   /\ (DomainResource.clean o = Passed ->
       observation_effective_populated o <= 1 ->
       observation_value_populated o <= 1 ->
       Observation.clean o = Raised data_absent_error))
  /\ (Base.pk o = None ->
      Observation.clean_data_absent o = Passed
      /\ Observation.clean o <> Raised data_absent_error
      /\ (DomainResource.clean o = Passed ->
          observation_effective_populated o <= 1 ->
          observation_value_populated o <= 1 ->
          Observation.clean o = Passed)).
Proof.
  split.
  - intros Hpk Hval Habs.
    assert (Hrule : Observation.clean_data_absent o = Raised data_absent_error).
    { unfold Observation.clean_data_absent, Base.truthy_pk.
      apply truthy_obj_iff in Hpk, Habs.
      apply observation_set_values_truthy in Hval.
      rewrite Hpk, Hval, Habs. reflexivity. }
    split.
    + unfold Observation.clean. do 3 apply fails_and_then_r.
      rewrite Hrule. now exists data_absent_error.
    + intros Hd He Hv.
      destruct (observation_groups_pass o He Hv) as [Hce Hcv].
      unfold Observation.clean. now rewrite Hd, Hce, Hcv.
  - intros Hpk. split; [|split].
    + unfold Observation.clean_data_absent, Base.truthy_pk.
      now rewrite Hpk.
    + rewrite (observation_clean_unsaved o Hpk). intros H.
      apply and_then_raised in H. destruct H as [H | [_ H]]; [not_inherited H|].
      apply and_then_raised in H. destruct H as [H | [_ H]].
      * apply raise_if_raised in H. destruct H as [_ H]. discriminate H.
      * apply raise_if_raised in H. destruct H as [_ H]. discriminate H.
    + intros Hd He Hv.
      destruct (observation_groups_pass o He Hv) as [Hce Hcv].
      rewrite (observation_clean_unsaved o Hpk). now rewrite Hd, Hce, Hcv.
Qed.

End ObservationRules.

(** C5 at the scenario of the spec: the persisted observation fails with
    the data-absent error, the unsaved one passes. *)
Lemma data_absent_reason_conflict_witness :
  Observation.clean (Sample.observation_normal Sample.saved)
    = Raised data_absent_error
  /\ Observation.clean (Sample.observation_normal Sample.unsaved) = Passed.
Proof.
  split.
  - destruct (data_absent_reason_conflict (Sample.observation_normal Sample.saved))
      as [H _].
    apply H.
    + simpl. discriminate.
    + vm_compute. lia.
    + simpl. discriminate.
    + reflexivity.
    + vm_compute. lia.
    + vm_compute. lia.
  - destruct (data_absent_reason_conflict (Sample.observation_normal Sample.unsaved))
      as [_ H].
    apply H.
    + reflexivity.
    + reflexivity.
    + vm_compute. lia.
    + vm_compute. lia.
Defined.

(** ** Encounter: planned dates and period *)

Section EncounterRules.
Context {C : Components}.

Lemma encounter_clean_raised (e : Encounter.t) (m : string) :
  Encounter.clean e = Raised m ->
  In m [resource_error; contained_error; meta_version_error; meta_security_error]
  \/ Encounter.clean_planned_dates e = Raised m
  \/ Encounter.clean_period e = Raised m.
Proof.
  unfold Encounter.clean. intros H.
  apply and_then_raised in H. destruct H as [H | [_ H]].
  - left. now apply domain_clean_raises in H.
  - apply and_then_raised in H. destruct H as [H | [_ H]]; [now right; left|].
    now right; right.
Qed.

Lemma clean_planned_dates_iff (e : Encounter.t) :
  fails (Encounter.clean_planned_dates e)
  <-> exists s t, Encounter.plannedStartDate e = Some s
                  /\ Encounter.plannedEndDate e = Some t /\ (s > t)%Z.
Proof.
  unfold Encounter.clean_planned_dates. rewrite fails_raise_if.
  destruct (Encounter.plannedStartDate e) as [s|],
    (Encounter.plannedEndDate e) as [t|]; split;
    try discriminate;
    try (intros [s' [t' [Hs [Ht _]]]]; discriminate).
  - intros H. exists s, t. repeat split. now apply Z.gtb_gt.
  - intros [s' [t' [Hs [Ht H]]]]. injection Hs as <-. injection Ht as <-.
    now apply Z.gtb_gt.
Qed.

Lemma clean_planned_dates_passed (e : Encounter.t) :
  ~ fails (Encounter.clean_planned_dates e) ->
  Encounter.clean_planned_dates e = Passed
  /\ Encounter.clean e <> Raised date_order_error.
Proof.
  intros Hn.
  assert (Hp : Encounter.clean_planned_dates e = Passed).
  { destruct (Encounter.clean_planned_dates e) as [|m] eqn:E; [reflexivity|].
    elim Hn. now exists m. }
  split; [exact Hp|].
  intros H. apply encounter_clean_raised in H.
  destruct H as [H | [H | H]].
  - simpl in H. repeat (destruct H as [H | H]; [discriminate H|]). exact H.
  - rewrite Hp in H. discriminate H.
  - apply raise_if_raised in H. destruct H as [_ H]. discriminate H.
Qed.

(** C6.  With both planned dates set, validation fails when the start is
    strictly after the end (with the date-order error once the inherited
    rules have passed), and the date-order rule passes when the start is
    before or equal to the end; with either date absent the rule never
    fires. *)
Theorem planned_date_order (e : Encounter.t) :
  (forall s t : datetime,
      Encounter.plannedStartDate e = Some s ->
      Encounter.plannedEndDate e = Some t ->
      ((s > t)%Z ->
       fails (Encounter.clean e)
       /\ (DomainResource.clean e = Passed ->
           Encounter.clean e = Raised date_order_error))
      /\ ((s <= t)%Z ->
          Encounter.clean_planned_dates e = Passed
          /\ Encounter.clean e <> Raised date_order_error))
  /\ (Encounter.plannedStartDate e = None \/ Encounter.plannedEndDate e = None ->
      Encounter.clean_planned_dates e = Passed
      /\ Encounter.clean e <> Raised date_order_error).
Proof.
  split.
  - intros s t Hs Ht. split.
    + intros Hgt.
      assert (Hrule : Encounter.clean_planned_dates e = Raised date_order_error).
      { unfold Encounter.clean_planned_dates. rewrite Hs, Ht.
        apply Z.gtb_gt in Hgt. now rewrite Hgt. }
      split.
      * unfold Encounter.clean. apply fails_and_then_r, fails_and_then_l.
        rewrite Hrule. now exists date_order_error.
      * intros Hd. unfold Encounter.clean. now rewrite Hd, Hrule.
    + intros Hle. apply clean_planned_dates_passed.
      rewrite clean_planned_dates_iff. intros [s' [t' [Hs' [Ht' Hgt]]]].
      rewrite Hs in Hs'. rewrite Ht in Ht'.
      injection Hs' as <-. injection Ht' as <-. lia.
  - intros Habs. apply clean_planned_dates_passed.
    rewrite clean_planned_dates_iff. intros [s [t [Hs [Ht _]]]].
    destruct Habs as [H | H]; [rewrite H in Hs | rewrite H in Ht]; discriminate.
Qed.

Lemma clean_period_passed (e : Encounter.t) :
  Encounter.clean_period e = Passed ->
  Encounter.clean e <> Raised period_required_error.
Proof.
  intros Hp H. apply encounter_clean_raised in H.
  destruct H as [H | [H | H]].
  - simpl in H. repeat (destruct H as [H | H]; [discriminate H|]). exact H.
  - apply raise_if_raised in H. destruct H as [_ H]. discriminate H.
  - rewrite Hp in H. discriminate H.
Qed.

(** C7.  An Encounter whose status is 'completed' or 'discharged' and that
    has no period fails validation (with the period error once the earlier
    rules have passed); for every other status, and whenever a period is
    set, the period rule passes. *)
Theorem completed_requires_period (e : Encounter.t) :
  (Encounter.status e = "completed" \/ Encounter.status e = "discharged" ->
   Encounter.period e = None ->
   fails (Encounter.clean e)
   /\ (DomainResource.clean e = Passed ->
       Encounter.clean_planned_dates e = Passed ->
       Encounter.clean e = Raised period_required_error))
  /\ (Encounter.status e <> "completed" ->
      Encounter.status e <> "discharged" ->
      Encounter.clean_period e = Passed
      /\ Encounter.clean e <> Raised period_required_error)
  /\ (Encounter.period e <> None ->
      Encounter.clean_period e = Passed
      /\ Encounter.clean e <> Raised period_required_error).
Proof.
  split; [|split].
  - intros Hst Hp.
    assert (Hrule : Encounter.clean_period e = Raised period_required_error).
    { unfold Encounter.clean_period. rewrite Hp.
      destruct Hst as [-> | ->]; reflexivity. }
    split.
    + unfold Encounter.clean. do 2 apply fails_and_then_r.
      rewrite Hrule. now exists period_required_error.
    + intros Hd Hdates. unfold Encounter.clean. now rewrite Hd, Hdates, Hrule.
  - intros Hc Hd.
    assert (Hrule : Encounter.clean_period e = Passed).
    { unfold Encounter.clean_period, Py.str_in. simpl.
      apply String.eqb_neq in Hc, Hd. now rewrite Hc, Hd. }
    split; [exact Hrule | now apply clean_period_passed].
  - intros Hp.
    assert (Hrule : Encounter.clean_period e = Passed).
    { unfold Encounter.clean_period. apply truthy_obj_iff in Hp. rewrite Hp.
      simpl. now rewrite andb_false_r. }
    split; [exact Hrule | now apply clean_period_passed].
Qed.

End EncounterRules.

(** C6 at the scenario of the spec: planned from 2025-01-10 to 2025-01-05
    validation raises the date-order error, with the dates swapped it
    passes. *)
Lemma planned_date_order_witness :
  Encounter.clean
    (Sample.encounter "planned" (Some Sample.jan_10) (Some Sample.jan_05) None)
    = Raised date_order_error
  /\ Encounter.clean_planned_dates
       (Sample.encounter "planned" (Some Sample.jan_05) (Some Sample.jan_10) None)
     = Passed.
Proof.
  split.
  - destruct (planned_date_order
                (Sample.encounter "planned" (Some Sample.jan_10)
                   (Some Sample.jan_05) None)) as [H _].
    destruct (H Sample.jan_10 Sample.jan_05 eq_refl eq_refl) as [Hgt _].
    apply Hgt; [reflexivity | reflexivity].
  - destruct (planned_date_order
                (Sample.encounter "planned" (Some Sample.jan_05)
                   (Some Sample.jan_10) None)) as [H _].
    destruct (H Sample.jan_05 Sample.jan_10 eq_refl eq_refl) as [_ Hle].
    apply Hle. discriminate.
Defined.

(** C7 at a completed encounter without a period. *)
Lemma completed_requires_period_witness :
  Encounter.clean (Sample.encounter "completed" None None None)
  = Raised period_required_error.
Proof.
  destruct (completed_requires_period
              (Sample.encounter "completed" None None None)) as [H _].
  apply H; [now left | reflexivity | reflexivity | reflexivity].
Defined.

(** ** Stripping whitespace *)

Lemma isspace_iff (c : Py.codepoint) :
  Py.isspace c = true <-> In c python_whitespace.
Proof.
  unfold Py.isspace, python_whitespace. simpl In.
  rewrite !orb_true_iff, !andb_true_iff, !N.leb_le, !N.eqb_eq. lia.
Qed.

Lemma isspace_false_iff (c : Py.codepoint) :
  Py.isspace c = false <-> ~ In c python_whitespace.
Proof. rewrite <- isspace_iff. now destruct (Py.isspace c). Qed.

Lemma nonblank_empty : ~ nonblank [].
Proof. intros [c [H _]]. exact H. Qed.

Lemma nonblank_cons (c : Py.codepoint) (s : Py.text) :
  nonblank (c :: s) <-> Py.isspace c = false \/ nonblank s.
Proof.
  unfold nonblank. rewrite isspace_false_iff. simpl. split.
  - intros [c' [[<- | Hin] Hc]]; [now left | right; now exists c'].
  - intros [Hc | [c' [Hin Hc]]]; [exists c | exists c']; auto.
Qed.

Lemma rstrip_nonempty_iff (s : Py.text) : Py.rstrip s <> [] <-> nonblank s.
Proof.
  induction s as [|c s IH]; simpl.
  - split; [intros H; now elim H | intros H; now apply nonblank_empty in H].
  - rewrite nonblank_cons. destruct (Py.rstrip s) as [|c' r].
    + assert (Hs : ~ nonblank s) by (intros H; apply IH in H; now apply H).
      destruct (Py.isspace c); split.
      * intros H. now elim H.
      * intros [H | H]; [discriminate H | now apply Hs in H].
      * intros _. now left.
      * discriminate.
    + split; [|discriminate]. intros _. right. apply IH. discriminate.
Qed.

Lemma lstrip_nonblank_iff (s : Py.text) : nonblank (Py.lstrip s) <-> nonblank s.
Proof.
  induction s as [|c s IH]; simpl; [reflexivity|].
  destruct (Py.isspace c) eqn:Hc; [|reflexivity].
  rewrite IH, nonblank_cons, Hc. split.
  - intros H. now right.
  - intros [H | H]; [discriminate H | exact H].
Qed.

Lemma strip_nonempty_iff (s : Py.text) : Py.strip s <> [] <-> nonblank s.
Proof.
  unfold Py.strip. now rewrite rstrip_nonempty_iff, lstrip_nonblank_iff.
Qed.

Lemma truthy_list_iff {A : Type} (l : list A) : Py.truthy_list l = true <-> l <> [].
Proof.
  destruct l; simpl; split; try discriminate; try reflexivity.
  intros H. now elim H.
Qed.

(** ** Loops that raise *)

Lemma for_each_raised {A : Type} (l : list A) (body : A -> outcome) (m : string) :
  for_each l body = Raised m -> exists x, In x l /\ body x = Raised m.
Proof.
  induction l as [|x l IH]; simpl; [discriminate|].
  intros H. apply and_then_raised in H. destruct H as [H | [_ H]].
  - exists x. now split; [left|].
  - destruct (IH H) as [y [Hin Hy]]. exists y. now split; [right|].
Qed.

Lemma for_each_fails {A : Type} (l : list A) (body : A -> outcome) (x : A) :
  In x l -> fails (body x) -> fails (for_each l body).
Proof.
  induction l as [|y l IH]; simpl; [intros H; now elim H|].
  intros [-> | Hin] Hx.
  - now apply fails_and_then_l.
  - apply fails_and_then_r. now apply IH.
Qed.

(** ** Organization: identity and telecoms *)

Section OrganizationRules.
Context {C : Components}.

Lemma has_name_iff (o : Organization.t) :
  Organization.has_name o = true <-> has_nonblank_name o.
Proof.
  unfold Organization.has_name, has_nonblank_name.
  destruct (Organization.name o) as [s|].
  - destruct s as [|c s]; simpl Py.truthy_list; cbv iota; split.
    + discriminate.
    + intros [s' [Heq Hnb]]. injection Heq as <-. now apply nonblank_empty in Hnb.
    + intros H. exists (c :: s). split; [reflexivity|].
      apply strip_nonempty_iff. now apply truthy_list_iff.
    + intros [s' [Heq Hnb]]. injection Heq as <-.
      apply truthy_list_iff. now apply strip_nonempty_iff.
  - split; [discriminate | intros [s [H _]]; discriminate H].
Qed.

Lemma has_identifier_iff (o : Organization.t) :
  Organization.has_identifier o = true
  <-> Base.pk o <> None /\ Organization.identifiers o <> [].
Proof.
  unfold Organization.has_identifier, Base.truthy_pk.
  rewrite <- truthy_obj_iff, <- exists_iff.
  destruct (Py.truthy_obj (Base.pk o)); split.
  - intros H. now split.
  - intros [_ H]. exact H.
  - discriminate.
  - intros [H _]. discriminate H.
Qed.

Lemma clean_identity_fails_iff (o : Organization.t) :
  fails (Organization.clean_identity o)
  <-> ~ has_nonblank_name o
      /\ ~ (Base.pk o <> None /\ Organization.identifiers o <> []).
Proof.
  unfold Organization.clean_identity.
  rewrite fails_raise_if, negb_true_iff, orb_false_iff.
  rewrite <- has_name_iff, <- has_identifier_iff, !not_true_false. tauto.
Qed.

Lemma clean_telecom_raised (o : Organization.t) (m : string) :
  Organization.clean_telecom o = Raised m ->
  m = home_telecom_error /\ Base.pk o <> None /\ has_home_telecom o.
Proof.
  unfold Organization.clean_telecom, Base.truthy_pk.
  destruct (Base.pk o) as [k|]; simpl; [|discriminate].
  intros H. apply for_each_raised in H. destruct H as [cd [Hcd H]].
  apply for_each_raised in H. destruct H as [t [Ht H]].
  apply raise_if_raised in H. destruct H as [Huse ->].
  split; [reflexivity|]. split; [discriminate|].
  exists cd, t. split; [exact Hcd|]. split; [exact Ht|].
  destruct (ContactPoint.use t) as [u|]; [|discriminate].
  apply String.eqb_eq in Huse. now subst u.
Qed.

Lemma clean_telecom_fails (o : Organization.t) :
  Base.pk o <> None -> has_home_telecom o ->
  Organization.clean_telecom o = Raised home_telecom_error.
Proof.
  intros Hpk Hhome.
  destruct (Organization.clean_telecom o) as [|m] eqn:E.
  - exfalso. revert E. unfold Organization.clean_telecom, Base.truthy_pk.
    apply truthy_obj_iff in Hpk. rewrite Hpk.
    destruct Hhome as [cd [t [Hcd [Ht Hu]]]]. intros E.
    assert (Hf : fails (for_each (Organization.contacts o) (fun contact_detail =>
      for_each (ContactDetail.telecom contact_detail) (fun telecom =>
        raise_if
          (match ContactPoint.use telecom with
           | Some u => String.eqb u "home"
           | None => false
           end)
          "Organization contact telecom cannot have 'home' use")))).
    { apply (for_each_fails _ _ cd Hcd). apply (for_each_fails _ _ t Ht).
      rewrite Hu. simpl. now exists home_telecom_error. }
    rewrite E in Hf. destruct Hf as [m Hm]. discriminate Hm.
  - apply clean_telecom_raised in E. now destruct E as [-> _].
Qed.

Lemma organization_clean_not_identity (o : Organization.t) :
  Organization.clean_identity o = Passed ->
  Organization.clean o <> Raised identity_error.
Proof.
  intros Hp H. unfold Organization.clean in H.
  apply and_then_raised in H. destruct H as [H | [_ H]]; [not_inherited H|].
  rewrite Hp in H. simpl in H.
  apply clean_telecom_raised in H. destruct H as [H _]. discriminate H.
Qed.

Lemma clean_identity_passed_iff (o : Organization.t) :
  Organization.clean_identity o = Passed
  <-> has_nonblank_name o
      \/ (Base.pk o <> None /\ Organization.identifiers o <> []).
Proof.
  unfold Organization.clean_identity.
  rewrite raise_if_passed, negb_false_iff, orb_true_iff.
  rewrite has_name_iff, has_identifier_iff. tauto.
Qed.

(** C8.  An Organization with neither a non-blank name nor a linked
    Identifier fails validation; the identity rule passes whenever the name
    is non-blank, and whenever the instance is persisted and has at least
    one linked Identifier. *)
Theorem organization_identity (o : Organization.t) :
  (~ has_nonblank_name o -> Organization.identifiers o = [] ->
   fails (Organization.clean o)
   /\ (DomainResource.clean o = Passed ->
       Organization.clean o = Raised identity_error))
  /\ (has_nonblank_name o ->
      Organization.clean_identity o = Passed
      /\ Organization.clean o <> Raised identity_error)
  /\ (Base.pk o <> None -> Organization.identifiers o <> [] ->
      Organization.clean_identity o = Passed
      /\ Organization.clean o <> Raised identity_error).
Proof.
  split; [|split].
  - intros Hname Hids.
    assert (Hrule : Organization.clean_identity o = Raised identity_error).
    { assert (Hf : fails (Organization.clean_identity o)).
      { apply clean_identity_fails_iff. split; [exact Hname|].
        intros [_ H]. now apply H. }
      destruct Hf as [m Hm]. rewrite Hm.
      unfold Organization.clean_identity in Hm.
      apply raise_if_raised in Hm. now destruct Hm as [_ ->]. }
    split.
    + unfold Organization.clean. apply fails_and_then_r, fails_and_then_l.
      rewrite Hrule. now exists identity_error.
    + intros Hd. unfold Organization.clean. now rewrite Hd, Hrule.
  - intros Hname.
    assert (Hrule : Organization.clean_identity o = Passed)
      by (apply clean_identity_passed_iff; now left).
    split; [exact Hrule | now apply organization_clean_not_identity].
  - intros Hpk Hids.
    assert (Hrule : Organization.clean_identity o = Passed)
      by (apply clean_identity_passed_iff; right; now split).
    split; [exact Hrule | now apply organization_clean_not_identity].
Qed.

End OrganizationRules.

(** C8 at the scenario of the spec: no name and no identifier fails with
    the identity error, and so does a name made of wide spaces (U+2003,
    U+3000); a name, or an identifier on the saved instance, makes the rule
    pass. *)
Lemma organization_identity_witness :
  Organization.clean (Sample.organization (Sample.domain Sample.saved) None [] [])
    = Raised identity_error
  /\ Organization.clean
       (Sample.organization_text (Sample.domain Sample.saved)
          (Some Sample.wide_blank) [] [])
     = Raised identity_error
  /\ Organization.clean_identity
       (Sample.organization (Sample.domain Sample.saved) (Some "Test Clinic") [] [])
     = Passed
  /\ Organization.clean_identity
       (Sample.organization (Sample.domain Sample.saved) None ["12345"] [])
     = Passed.
Proof.
  split; [|split; [|split]].
  - destruct (organization_identity
                (Sample.organization (Sample.domain Sample.saved) None [] []))
      as [H _].
    apply H.
    + intros [s [Hs _]]. simpl in Hs. discriminate Hs.
    + reflexivity.
    + reflexivity.
  - destruct (organization_identity
                (Sample.organization_text (Sample.domain Sample.saved)
                   (Some Sample.wide_blank) [] [])) as [H _].
    apply H.
    + intros [s [Hs [c [Hin Hc]]]]. simpl in Hs. injection Hs as <-.
      apply Hc. unfold python_whitespace.
      destruct Hin as [<- | [<- | Hin]]; [simpl; tauto | simpl; tauto | now elim Hin].
    + reflexivity.
    + reflexivity.
  - destruct (organization_identity
                (Sample.organization (Sample.domain Sample.saved)
                   (Some "Test Clinic") [] [])) as [_ [H _]].
    apply H. exists (Py.of_string "Test Clinic"). split; [reflexivity|].
    exists 84%N. split; [simpl; now left|].
    unfold python_whitespace. simpl. intros Hin.
    repeat (destruct Hin as [Hin | Hin]; [discriminate Hin|]). exact Hin.
  - destruct (organization_identity
                (Sample.organization (Sample.domain Sample.saved) None
                   ["12345"] [])) as [_ [_ H]].
    apply H; simpl; discriminate.
Defined.

(** ** Checks that wait for a primary key *)

Section PkGating.
Context {C : Components}.

Lemma element_clean_unsaved (e : Element.t) :
  Base.pk e = None ->
  Element.clean e =
    raise_if
      (match Element.children e with Some c => Py.truthy c | None => false end
       && negb (Py.truthy_str (Element.fhir_id e)))
      "Element.fhir_id is required when element has children or extensions".
Proof.
  intros Hpk. unfold Element.clean, Base.truthy_pk. rewrite Hpk. simpl.
  now rewrite orb_false_r.
Qed.

Lemma organization_clean_unsaved (o : Organization.t) :
  Base.pk o = None ->
  Organization.has_identifier o = false
  /\ Organization.clean_telecom o = Passed.
Proof.
  intros Hpk. unfold Organization.has_identifier, Organization.clean_telecom,
    Base.truthy_pk. now rewrite Hpk.
Qed.

(** C9 (as amended).  The checks that read the extension rows of an
    Element, the identifier rows of an Organization and the contact rows of
    an Organization are skipped while the instance has no primary key: the
    outcome of [Element.clean], and of [Organization.clean], is then the
    same whatever these rows are; an unsaved Element without children
    passes, and an unsaved Organization never gets the home-telecom error.
    Once the instance is saved the checks are enforced: an Element with an
    extension and no fhir_id fails, and an Organization with a home-use
    contact telecom fails. *)
Theorem pk_gating :
  (forall (b : Base.t) (fhir_id : option string) (children : option Py.value)
          (rows rows' : list AbstractExtension.t),
      Base.pk b = None ->
      Element.clean
        {| Element.base := b; Element.fhir_id := fhir_id;
           Element.extension := rows; Element.children := children |}
      = Element.clean
          {| Element.base := b; Element.fhir_id := fhir_id;
             Element.extension := rows'; Element.children := children |})
  /\ (forall e : Element.t,
         Base.pk e = None -> ~ has_children e -> Element.clean e = Passed)
  /\ (forall e : Element.t,
         Base.pk e <> None -> Element.extension e <> [] ->
         ~ str_set (Element.fhir_id e) -> fails (Element.clean e))
  /\ (forall (d : DomainResource.t) (active : option bool)
             (name : option Py.text) (description : option string)
             (ids ids' : list Identifier) (cs cs' : list ContactDetail.t),
         Base.pk d = None ->
         Organization.clean
           {| Organization.domain := d; Organization.active := active;
              Organization.name := name; Organization.description := description;
              Organization.identifiers := ids; Organization.contacts := cs |}
         = Organization.clean
             {| Organization.domain := d; Organization.active := active;
                Organization.name := name; Organization.description := description;
                Organization.identifiers := ids'; Organization.contacts := cs' |})
  /\ (forall o : Organization.t,
         Base.pk o = None ->
         Organization.clean_telecom o = Passed
         /\ Organization.clean o <> Raised home_telecom_error)
  /\ (forall o : Organization.t,
         Base.pk o <> None -> has_home_telecom o ->
         Organization.clean_telecom o = Raised home_telecom_error
         /\ fails (Organization.clean o)).
Proof.
  split; [|split; [|split; [|split; [|split]]]].
  - intros b fhir_id children rows rows' Hpk.
    rewrite !element_clean_unsaved by exact Hpk. reflexivity.
  - intros e Hpk Hch. rewrite (element_clean_unsaved e Hpk).
    apply raise_if_passed. apply andb_false_iff. left.
    apply not_true_false. now rewrite has_children_iff.
  - intros e Hpk Hrows Hid. apply element_clean_fails_iff.
    split; [right; now split | exact Hid].
  - intros d active name description ids ids' cs cs' Hpk.
    unfold Organization.clean, Organization.clean_identity,
      Organization.clean_telecom, Organization.has_identifier,
      Organization.has_name, Base.truthy_pk.
    simpl. rewrite Hpk. reflexivity.
  - intros o Hpk. destruct (organization_clean_unsaved o Hpk) as [_ Ht].
    split; [exact Ht|]. intros H. unfold Organization.clean in H.
    apply and_then_raised in H. destruct H as [H | [_ H]]; [not_inherited H|].
    apply and_then_raised in H. destruct H as [H | [_ H]].
    + apply raise_if_raised in H. destruct H as [_ H]. discriminate H.
    + rewrite Ht in H. discriminate H.
  - intros o Hpk Hhome.
    pose proof (clean_telecom_fails o Hpk Hhome) as Ht.
    split; [exact Ht|].
    unfold Organization.clean. do 2 apply fails_and_then_r.
    rewrite Ht. now exists home_telecom_error.
Qed.

End PkGating.

(** C9 at an element with one extension and no [fhir_id] (the unsaved one
    passes, the saved one fails) and at an organization with a home-use
    contact telecom (unsaved: the telecom rule passes; saved: it raises). *)
Lemma pk_gating_witness :
  Element.clean (Sample.element_with_extension Sample.unsaved) = Passed
  /\ fails (Element.clean (Sample.element_with_extension Sample.saved))
  /\ Organization.clean_telecom
       (Sample.organization (Sample.domain Sample.unsaved) (Some "Clinic") []
          [Sample.home_contact]) = Passed
  /\ Organization.clean_telecom
       (Sample.organization (Sample.domain Sample.saved) (Some "Clinic") []
          [Sample.home_contact]) = Raised home_telecom_error.
Proof.
  destruct (@pk_gating sample_components)
    as [_ [Hunsaved [Hsaved [_ [Horg_unsaved Horg_saved]]]]].
  split; [|split; [|split]].
  - apply Hunsaved; [reflexivity|].
    intros [c [Hc _]]. simpl in Hc. discriminate Hc.
  - apply Hsaved.
    + simpl. discriminate.
    + simpl. discriminate.
    + intros [s [Hs _]]. simpl in Hs. discriminate Hs.
  - apply Horg_unsaved. reflexivity.
  - apply Horg_saved.
    + simpl. discriminate.
    + exists Sample.home_contact.
      exists {| ContactPoint.system := Some "phone";
                ContactPoint.value := Some "+1-555-0100";
                ContactPoint.use := Some "home" |}.
      simpl. repeat split; now left.
Defined.

(** C9 as stated fails on the code: the validation of an unsaved
    organization with a container reads its contained rows; without rows it
    passes, with one row it raises. *)
Lemma pk_gating_counterexample :
  Base.pk (Sample.organization (Sample.unsaved_contained []) (Some "Clinic") [] [])
    = None
  /\ Base.pk
       (Sample.organization (Sample.unsaved_contained [Sample.ref 7])
          (Some "Clinic") [] []) = None
  /\ Organization.clean
       (Sample.organization (Sample.unsaved_contained []) (Some "Clinic") [] [])
     = Passed
  /\ Organization.clean
       (Sample.organization (Sample.unsaved_contained [Sample.ref 7])
          (Some "Clinic") [] [])
     = Raised contained_error.
Proof. repeat split. Qed.

(** ** Dicts *)

Lemma dict_get_set (k k' : string) (v : Py.value) (d : Py.dict) :
  Py.dict_get k (Py.dict_set k' v d)
  = if String.eqb k k' then Some v else Py.dict_get k d.
Proof.
  induction d as [|[k0 v0] d IH]; simpl; [reflexivity|].
  destruct (String.eqb_spec k' k0) as [-> | Hne]; simpl.
  - destruct (String.eqb k k0); reflexivity.
  - destruct (String.eqb_spec k k0) as [-> | Hne'].
    + apply not_eq_sym in Hne. apply String.eqb_neq in Hne. now rewrite Hne.
    + exact IH.
Qed.

Lemma dict_get_set_ne (k k' : string) (v : Py.value) (d : Py.dict) :
  String.eqb k k' = false ->
  Py.dict_get k (Py.dict_set k' v d) = Py.dict_get k d.
Proof. intros H. now rewrite dict_get_set, H. Qed.

Lemma dict_get_set_if_ne (k k' : string) (c : bool) (v : Py.value) (d : Py.dict) :
  String.eqb k k' = false ->
  Py.dict_get k (Py.set_if c k' v d) = Py.dict_get k d.
Proof.
  intros H. unfold Py.set_if. destruct c; [now apply dict_get_set_ne | reflexivity].
Qed.

Lemma dict_get_set_opt_ne {A : Type} (k k' : string) (x : option A)
    (f : A -> Py.value) (d : Py.dict) :
  String.eqb k k' = false ->
  Py.dict_get k (Py.set_opt x k' f d) = Py.dict_get k d.
Proof.
  intros H. unfold Py.set_opt. destruct x; [now apply dict_get_set_ne | reflexivity].
Qed.

Lemma dict_get_set_str_ne (k k' : string) (x : option string) (d : Py.dict) :
  String.eqb k k' = false ->
  Py.dict_get k (Py.set_str x k' d) = Py.dict_get k d.
Proof.
  intros H. unfold Py.set_str. destruct x as [s|]; [|reflexivity].
  destruct (String.eqb s ""); [reflexivity | now apply dict_get_set_ne].
Qed.

Lemma dict_get_set_list_ne (k k' : string) (l : list Py.value) (d : Py.dict) :
  String.eqb k k' = false ->
  Py.dict_get k (Py.set_list l k' d) = Py.dict_get k d.
Proof.
  intros H. unfold Py.set_list. destruct l; [reflexivity | now apply dict_get_set_ne].
Qed.

Lemma dict_get_set_if_eq (k : string) (c : bool) (v : Py.value) (d : Py.dict) :
  Py.dict_get k (Py.set_if c k v d) = if c then Some v else Py.dict_get k d.
Proof.
  unfold Py.set_if. destruct c; [|reflexivity].
  now rewrite dict_get_set, String.eqb_refl.
Qed.

Lemma dict_get_set_opt_eq {A : Type} (k : string) (x : option A)
    (f : A -> Py.value) (d : Py.dict) :
  Py.dict_get k (Py.set_opt x k f d)
  = match x with Some a => Some (f a) | None => Py.dict_get k d end.
Proof.
  unfold Py.set_opt. destruct x; [|reflexivity].
  now rewrite dict_get_set, String.eqb_refl.
Qed.

Lemma dict_get_set_str_eq (k : string) (x : option string) (d : Py.dict) :
  Py.dict_get k (Py.set_str x k d)
  = match x with
    | Some s => if String.eqb s "" then Py.dict_get k d else Some (Py.PyStr s)
    | None => Py.dict_get k d
    end.
Proof.
  unfold Py.set_str. destruct x as [s|]; [|reflexivity].
  destruct (String.eqb s ""); [reflexivity|].
  now rewrite dict_get_set, String.eqb_refl.
Qed.

Lemma dict_get_set_list_eq (k : string) (l : list Py.value) (d : Py.dict) :
  Py.dict_get k (Py.set_list l k d)
  = match l with [] => Py.dict_get k d | _ => Some (Py.PyList l) end.
Proof.
  unfold Py.set_list. destruct l; [reflexivity|].
  now rewrite dict_get_set, String.eqb_refl.
Qed.

Lemma collect_nil {A : Type} (f : A -> Py.value) : Py.collect f [] = [].
Proof. reflexivity. Qed.

Lemma emitted_ext (keys : list string) (d d' : Py.dict) :
  (forall k, In k keys -> Py.dict_get k d = Py.dict_get k d') ->
  emitted keys d = emitted keys d'.
Proof.
  intros H. unfold emitted. apply filter_ext_in.
  intros k Hk. unfold Py.has_key. now rewrite (H k Hk).
Qed.

(** ** The choice-type chains of the serializers *)

Section Chains.
Context {C : Components}.

Lemma set_value_x_ne (k : string)
    (vq : option Quantity) (vcc : option CodeableConcept) (vs : option string)
    (vb : option bool) (vi : option Z) (vp : option Period)
    (vdt : option datetime) (vt : option time) (d : Py.dict) :
  Py.str_in k value_keys = false ->
  Py.dict_get k (set_value_x vq vcc vs vb vi vp vdt vt d) = Py.dict_get k d.
Proof.
  intros H. unfold Py.str_in, value_keys in H. simpl in H.
  repeat (apply orb_false_iff in H; destruct H as [? H]).
  unfold set_value_x.
  destruct vq; [now apply dict_get_set_ne|].
  destruct vcc; [now apply dict_get_set_ne|].
  destruct (Py.truthy_str vs); [now apply dict_get_set_ne|].
  destruct vb; [now apply dict_get_set_ne|].
  destruct vi; [now apply dict_get_set_ne|].
  destruct vp; [now apply dict_get_set_ne|].
  destruct vdt; [now apply dict_get_set_ne|].
  destruct vt; [now apply dict_get_set_ne | reflexivity].
Qed.

Lemma set_value_x_fresh (k : string)
    (vq : option Quantity) (vcc : option CodeableConcept) (vs : option string)
    (vb : option bool) (vi : option Z) (vp : option Period)
    (vdt : option datetime) (vt : option time) (d : Py.dict) :
  Py.dict_get k d = None ->
  Py.dict_get k (set_value_x vq vcc vs vb vi vp vdt vt d)
  = Py.dict_get k (set_value_x vq vcc vs vb vi vp vdt vt []).
Proof.
  intros H. unfold set_value_x.
  destruct vq; [now rewrite !dict_get_set, H|].
  destruct vcc; [now rewrite !dict_get_set, H|].
  destruct (Py.truthy_str vs); [now rewrite !dict_get_set, H|].
  destruct vb; [now rewrite !dict_get_set, H|].
  destruct vi; [now rewrite !dict_get_set, H|].
  destruct vp; [now rewrite !dict_get_set, H|].
  destruct vdt; [now rewrite !dict_get_set, H|].
  destruct vt; [now rewrite !dict_get_set, H | exact H].
Qed.

Lemma set_effective_x_ne (k : string) (o : Observation.t) (d : Py.dict) :
  Py.str_in k effective_keys = false ->
  Py.dict_get k (set_effective_x o d) = Py.dict_get k d.
Proof.
  intros H. unfold Py.str_in, effective_keys in H. simpl in H.
  repeat (apply orb_false_iff in H; destruct H as [? H]).
  unfold set_effective_x.
  destruct (Observation.effectiveDateTime o); [now apply dict_get_set_ne|].
  destruct (Observation.effectiveInstant o); [now apply dict_get_set_ne|].
  destruct (Observation.effectivePeriod o); [now apply dict_get_set_ne | reflexivity].
Qed.

Lemma set_effective_x_fresh (k : string) (o : Observation.t) (d : Py.dict) :
  Py.dict_get k d = None ->
  Py.dict_get k (set_effective_x o d) = Py.dict_get k (set_effective_x o []).
Proof.
  intros H. unfold set_effective_x.
  destruct (Observation.effectiveDateTime o); [now rewrite !dict_get_set, H|].
  destruct (Observation.effectiveInstant o); [now rewrite !dict_get_set, H|].
  destruct (Observation.effectivePeriod o); [now rewrite !dict_get_set, H | exact H].
Qed.

(** On an empty dict the chain sets the key of the first populated branch. *)
Lemma emitted_set_value_x
    (vq : option Quantity) (vcc : option CodeableConcept) (vs : option string)
    (vb : option bool) (vi : option Z) (vp : option Period)
    (vdt : option datetime) (vt : option time) :
  emitted value_keys (set_value_x vq vcc vs vb vi vp vdt vt [])
  = match first_populated (value_branches vq vcc vs vb vi vp vdt vt) with
    | Some k => [k]
    | None => []
    end.
Proof.
  unfold set_value_x, value_branches, first_populated.
  destruct vq; [reflexivity|].
  destruct vcc; [reflexivity|].
  destruct vs as [s|]; simpl Py.truthy_str.
  - destruct (String.eqb s ""); simpl negb; cbv iota; [|reflexivity].
    destruct vb; [reflexivity|]. destruct vi; [reflexivity|].
    destruct vp; [reflexivity|]. destruct vdt; [reflexivity|].
    destruct vt; reflexivity.
  - destruct vb; [reflexivity|]. destruct vi; [reflexivity|].
    destruct vp; [reflexivity|]. destruct vdt; [reflexivity|].
    destruct vt; reflexivity.
Qed.

(** The same over the whole [value[x]] group: the chain never sets a
    valueRange key. *)
Lemma emitted_group_set_value_x
    (vq : option Quantity) (vcc : option CodeableConcept) (vs : option string)
    (vb : option bool) (vi : option Z) (vp : option Period)
    (vdt : option datetime) (vt : option time) :
  emitted
    ["valueQuantity"; "valueCodeableConcept"; "valueString"; "valueBoolean";
     "valueInteger"; "valueRange"; "valuePeriod"; "valueDateTime"; "valueTime"]
    (set_value_x vq vcc vs vb vi vp vdt vt [])
  = match first_populated (value_branches vq vcc vs vb vi vp vdt vt) with
    | Some k => [k]
    | None => []
    end.
Proof.
  unfold set_value_x, value_branches, first_populated.
  destruct vq; [reflexivity|].
  destruct vcc; [reflexivity|].
  destruct vs as [s|]; simpl Py.truthy_str.
  - destruct (String.eqb s ""); simpl negb; cbv iota; [|reflexivity].
    destruct vb; [reflexivity|]. destruct vi; [reflexivity|].
    destruct vp; [reflexivity|]. destruct vdt; [reflexivity|].
    destruct vt; reflexivity.
  - destruct vb; [reflexivity|]. destruct vi; [reflexivity|].
    destruct vp; [reflexivity|]. destruct vdt; [reflexivity|].
    destruct vt; reflexivity.
Qed.

Lemma emitted_set_effective_x (o : Observation.t) :
  emitted effective_keys (set_effective_x o [])
  = match first_populated (observation_effective_branches o) with
    | Some k => [k]
    | None => []
    end.
Proof.
  unfold set_effective_x, observation_effective_branches, first_populated.
  destruct (Observation.effectiveDateTime o); [reflexivity|].
  destruct (Observation.effectiveInstant o); [reflexivity|].
  destruct (Observation.effectivePeriod o); reflexivity.
Qed.

End Chains.

(** Strip the layers of a [data] dict that set another key. *)
Ltac peel :=
  repeat first
    [ rewrite dict_get_set_opt_ne by reflexivity
    | rewrite dict_get_set_str_ne by reflexivity
    | rewrite dict_get_set_list_ne by reflexivity
    | rewrite dict_get_set_if_ne by reflexivity
    | rewrite dict_get_set_ne by reflexivity
    | rewrite set_value_x_ne by reflexivity
    | rewrite set_effective_x_ne by reflexivity ].

(** The field of an absent entry, then the layer that would set its key. *)
Ltac absent_field H :=
  match type of H with
  | Py.is_not_None ?x = false => destruct x; [discriminate H|]
  | Py.exists_ ?x = false => destruct x; [|discriminate H]
  end.

Ltac split_chain :=
  repeat match goal with
         | |- context [match ?x with _ => _ end] => destruct x
         end.

Ltac omitted H :=
  absent_field H; cbv zeta iota; peel;
  try first [ rewrite dict_get_set_opt_eq | rewrite dict_get_set_str_eq
            | rewrite dict_get_set_list_eq | rewrite dict_get_set_if_eq ];
  try rewrite collect_nil;
  cbn [Py.truthy_json Py.truthy_str]; cbv iota; peel; reflexivity.

Ltac not_empty_list :=
  cbv zeta; peel; rewrite dict_get_set_list_eq;
  match goal with
  | |- context [match ?l with _ => _ end] => destruct l
  end; [peel; discriminate | discriminate].

(** ** convert_observation *)

Section ObservationWire.
Context {C : Components}.

Lemma observation_data_value_key (o : Observation.t) (k : string) :
  In k Observation.value_fields ->
  Py.dict_get k (observation_data o)
  = Py.dict_get k
      (set_value_x
         (Observation.valueQuantity o) (Observation.valueCodeableConcept o)
         (Observation.valueString o) (Observation.valueBoolean o)
         (Observation.valueInteger o) (Observation.valuePeriod o)
         (Observation.valueDateTime o) (Observation.valueTime o) []).
Proof.
  intros Hk. unfold Observation.value_fields in Hk. simpl in Hk.
  unfold observation_data. cbv zeta.
  repeat (destruct Hk as [<- | Hk];
          [peel; first [reflexivity
                       | rewrite set_value_x_fresh; [reflexivity | peel; reflexivity]]|]).
  contradiction.
Qed.

Lemma observation_data_effective_key (o : Observation.t) (k : string) :
  In k effective_keys ->
  Py.dict_get k (observation_data o) = Py.dict_get k (set_effective_x o []).
Proof.
  intros Hk. unfold effective_keys in Hk. simpl in Hk.
  unfold observation_data. cbv zeta.
  repeat (destruct Hk as [<- | Hk];
          [peel; rewrite set_effective_x_fresh; [reflexivity | peel; reflexivity]|]).
  contradiction.
Qed.

Lemma observation_value_emitted (o : Observation.t) :
  emitted value_keys (observation_data o)
  = match first_populated (observation_value_branches o) with
    | Some k => [k]
    | None => []
    end.
Proof.
  unfold observation_value_branches. rewrite <- emitted_set_value_x.
  apply emitted_ext. intros k Hk. apply observation_data_value_key.
  unfold value_keys in Hk. unfold Observation.value_fields. simpl in *. tauto.
Qed.

Lemma observation_value_group_emitted (o : Observation.t) :
  emitted Observation.value_fields (observation_data o)
  = match first_populated (observation_value_branches o) with
    | Some k => [k]
    | None => []
    end.
Proof.
  unfold observation_value_branches, Observation.value_fields.
  rewrite <- emitted_group_set_value_x.
  apply emitted_ext. intros k Hk. now apply observation_data_value_key.
Qed.

Lemma observation_effective_emitted (o : Observation.t) :
  emitted effective_keys (observation_data o)
  = match first_populated (observation_effective_branches o) with
    | Some k => [k]
    | None => []
    end.
Proof.
  rewrite <- emitted_set_effective_x.
  apply emitted_ext. intros k Hk. now apply observation_data_effective_key.
Qed.

Lemma observation_absent_omitted (o : Observation.t) (k : string) (present : bool) :
  In (k, present) (observation_optional o) -> present = false ->
  Py.dict_get k (observation_data o) = None.
Proof.
  intros Hin Habs. unfold observation_optional in Hin. simpl in Hin.
  repeat (destruct Hin as [Heq | Hin];
          [injection Heq as <- <-;
           first
             [ rewrite observation_data_value_key
                 by (unfold Observation.value_fields; simpl; tauto);
               absent_field Habs; unfold set_value_x;
               cbn [Py.truthy_str]; split_chain; reflexivity
             | rewrite observation_data_effective_key
                 by (unfold effective_keys; simpl; tauto);
               unfold set_effective_x; absent_field Habs;
               split_chain; reflexivity
             | unfold observation_data; omitted Habs ]|]).
  contradiction.
Qed.

Lemma observation_lists_not_empty (o : Observation.t) (k : string) :
  In k observation_list_keys ->
  Py.dict_get k (observation_data o) <> Some (Py.PyList []).
Proof.
  intros Hk. unfold observation_list_keys in Hk. simpl in Hk.
  unfold observation_data.
  repeat (destruct Hk as [<- | Hk]; [not_empty_list|]).
  contradiction.
Qed.

End ObservationWire.

(** ** convert_observation_component *)

Section ComponentWire.
Context {C : Components}.

Lemma component_data_value_key (c : ObservationComponent.t) (k : string) :
  In k ObservationComponent.value_fields ->
  Py.dict_get k (observation_component_data c)
  = Py.dict_get k
      (set_value_x
         (ObservationComponent.valueQuantity c)
         (ObservationComponent.valueCodeableConcept c)
         (ObservationComponent.valueString c) (ObservationComponent.valueBoolean c)
         (ObservationComponent.valueInteger c) (ObservationComponent.valuePeriod c)
         (ObservationComponent.valueDateTime c) (ObservationComponent.valueTime c) []).
Proof.
  intros Hk. unfold ObservationComponent.value_fields in Hk. simpl in Hk.
  unfold observation_component_data. cbv zeta.
  repeat (destruct Hk as [<- | Hk];
          [peel; first [reflexivity
                       | rewrite set_value_x_fresh; [reflexivity | peel; reflexivity]]|]).
  contradiction.
Qed.

Lemma component_value_emitted (c : ObservationComponent.t) :
  emitted value_keys (observation_component_data c)
  = match first_populated (component_value_branches c) with
    | Some k => [k]
    | None => []
    end.
Proof.
  unfold component_value_branches. rewrite <- emitted_set_value_x.
  apply emitted_ext. intros k Hk. apply component_data_value_key.
  unfold value_keys in Hk. unfold ObservationComponent.value_fields.
  simpl in *. tauto.
Qed.

Lemma component_value_group_emitted (c : ObservationComponent.t) :
  emitted ObservationComponent.value_fields (observation_component_data c)
  = match first_populated (component_value_branches c) with
    | Some k => [k]
    | None => []
    end.
Proof.
  unfold component_value_branches, ObservationComponent.value_fields.
  rewrite <- emitted_group_set_value_x.
  apply emitted_ext. intros k Hk. now apply component_data_value_key.
Qed.

Lemma component_absent_omitted (c : ObservationComponent.t) (k : string)
    (present : bool) :
  In (k, present) (component_optional c) -> present = false ->
  Py.dict_get k (observation_component_data c) = None.
Proof.
  intros Hin Habs. unfold component_optional in Hin. simpl in Hin.
  repeat (destruct Hin as [Heq | Hin];
          [injection Heq as <- <-;
           first
             [ rewrite component_data_value_key
                 by (unfold ObservationComponent.value_fields; simpl; tauto);
               absent_field Habs; unfold set_value_x;
               cbn [Py.truthy_str]; split_chain; reflexivity
             | unfold observation_component_data; omitted Habs ]|]).
  contradiction.
Qed.

Lemma component_lists_not_empty (c : ObservationComponent.t) (k : string) :
  In k component_list_keys ->
  Py.dict_get k (observation_component_data c) <> Some (Py.PyList []).
Proof.
  intros Hk. unfold component_list_keys in Hk. simpl in Hk.
  unfold observation_component_data.
  repeat (destruct Hk as [<- | Hk]; [not_empty_list|]).
  contradiction.
Qed.

End ComponentWire.

(** ** convert_encounter *)

Section EncounterWire.
Context {C : Components}.

Lemma encounter_absent_omitted (e : Encounter.t) (k : string) (present : bool) :
  In (k, present) (encounter_optional e) -> present = false ->
  Py.dict_get k (encounter_data e) = None.
Proof.
  intros Hin Habs. unfold encounter_optional in Hin. simpl in Hin.
  unfold encounter_data.
  repeat (destruct Hin as [Heq | Hin];
          [injection Heq as <- <-;
           first [ omitted Habs
                 | destruct (Encounter.admission e); omitted Habs ]|]).
  contradiction.
Qed.

Lemma encounter_lists_not_empty (e : Encounter.t) (k : string) :
  In k encounter_list_keys ->
  Py.dict_get k (encounter_data e) <> Some (Py.PyList []).
Proof.
  intros Hk. unfold encounter_list_keys in Hk. simpl in Hk.
  unfold encounter_data.
  repeat (destruct Hk as [<- | Hk];
          [first [ not_empty_list
                 | destruct (Encounter.admission e); not_empty_list ]|]).
  contradiction.
Qed.

End EncounterWire.

(** ** The serialization contract *)

Section Contract.
Context {C : Components}.

(** C2 (as amended).  For saved rows, in the wire documents of
    [convert_observation], [convert_observation_component] and
    [convert_encounter], the key of an optional field is present only when
    the field is not [None] and the key of a relationship only when it has
    rows: an absent value is omitted, not emitted as a placeholder, and a
    relationship key never holds an empty list.  For each choice-type
    group, among the keys of the branches that the serializer handles
    (valueRange is not one of them) at most one is emitted: the key of the
    first branch, in the fixed priority order of the serializer, that is
    populated in Python's sense (a string branch when it is a non-empty
    string, every other handled branch when it is not [None]); none when
    there is no such branch.  For an entity whose valueRange is [None]
    these are all the keys of the value[x] group that are emitted.  What is
    emitted for an entity whose valueRange is set is left out. *)
Theorem serialization_contract :
  (forall o : Observation.t,
      Base.pk o <> None ->
      convert_observation (Some o) = Py.PyDict (observation_data o)
      /\ (forall k present,
             In (k, present) (observation_optional o) -> present = false ->
             Py.dict_get k (observation_data o) = None)
      /\ emitted effective_keys (observation_data o)
         = match first_populated (observation_effective_branches o) with
           | Some k => [k]
           | None => []
           end
      /\ emitted value_keys (observation_data o)
         = match first_populated (observation_value_branches o) with
           | Some k => [k]
           | None => []
           end
      /\ (Observation.valueRange o = None ->
          emitted Observation.value_fields (observation_data o)
          = match first_populated (observation_value_branches o) with
            | Some k => [k]
            | None => []
            end)
      /\ (forall k, In k observation_list_keys ->
                    Py.dict_get k (observation_data o) <> Some (Py.PyList [])))
  /\ (forall c : ObservationComponent.t,
         Base.pk c <> None ->
         convert_observation_component (Some c)
         = Py.PyDict (observation_component_data c)
         /\ (forall k present,
                In (k, present) (component_optional c) -> present = false ->
                Py.dict_get k (observation_component_data c) = None)
         /\ emitted value_keys (observation_component_data c)
            = match first_populated (component_value_branches c) with
              | Some k => [k]
              | None => []
              end
         /\ (ObservationComponent.valueRange c = None ->
             emitted ObservationComponent.value_fields
               (observation_component_data c)
             = match first_populated (component_value_branches c) with
               | Some k => [k]
               | None => []
               end)
         /\ (forall k, In k component_list_keys ->
                       Py.dict_get k (observation_component_data c)
                       <> Some (Py.PyList [])))
  /\ (forall e : Encounter.t,
         Base.pk e <> None ->
         convert_encounter (Some e) = Py.PyDict (encounter_data e)
         /\ (forall k present,
                In (k, present) (encounter_optional e) -> present = false ->
                Py.dict_get k (encounter_data e) = None)
         /\ (forall k, In k encounter_list_keys ->
                       Py.dict_get k (encounter_data e) <> Some (Py.PyList []))).
Proof.
  split; [|split].
  - intros o _. split; [reflexivity|].
    split; [apply observation_absent_omitted|].
    split; [apply observation_effective_emitted|].
    split; [apply observation_value_emitted|].
    split; [intros _; apply observation_value_group_emitted
           | apply observation_lists_not_empty].
  - intros c _. split; [reflexivity|].
    split; [apply component_absent_omitted|].
    split; [apply component_value_emitted|].
    split; [intros _; apply component_value_group_emitted
           | apply component_lists_not_empty].
  - intros e _. split; [reflexivity|].
    split; [apply encounter_absent_omitted | apply encounter_lists_not_empty].
Qed.



End Contract.

(** C2 at a saved observation with no optional field: no subject key;
    and with [valueInteger = 0] only, the one key of the value[x] group is
    valueInteger. *)
Lemma serialization_contract_witness :
  Base.pk (Sample.observation_value None None None None) <> None
  /\ Py.dict_get "subject"
       (observation_data (Sample.observation_value None None None None)) = None
  /\ emitted Observation.value_fields
       (observation_data (Sample.observation_value None None (Some 0%Z) None))
     = ["valueInteger"].
Proof.
  destruct (@serialization_contract sample_components) as [H _].
  assert (Hpk : forall vs vb vi vr,
             Base.pk (Sample.observation_value vs vb vi vr) <> None)
    by (intros vs vb vi vr; simpl; discriminate).
  split; [apply Hpk|]. split.
  - destruct (H (Sample.observation_value None None None None) (Hpk _ _ _ _))
      as [_ [Habsent _]].
    apply (Habsent "subject" false); [simpl; tauto | reflexivity].
  - destruct (H (Sample.observation_value None None (Some 0%Z) None)
                (Hpk _ _ _ _)) as [_ [_ [_ [_ [Hgroup _]]]]].
    apply Hgroup. reflexivity.
Defined.

(** C2 as stated fails on the code: a saved observation whose one non-null
    value branch is [valueString = ''] (its valueRange is [None]) has a
    populated branch for the validator, and its wire document has no value
    key. *)
Lemma serialization_contract_counterexample :
  Base.pk (Sample.observation_value (Some "") None None None) = Some 1%positive
  /\ Observation.valueRange (Sample.observation_value (Some "") None None None)
     = None
  /\ Observation.set_values (Sample.observation_value (Some "") None None None)
     = ["valueString"]
  /\ emitted Observation.value_fields
       (observation_data (Sample.observation_value (Some "") None None None))
     = [].
Proof. repeat split; reflexivity. Qed.

(** The serializers have no branch for valueRange: an observation whose
    value is a range is serialized without a value key. *)
Example convert_observation_value_range :
  Observation.set_values
    (Sample.observation_value None None None (Some (60, 100)%Z))
    = ["valueRange"]
  /\ emitted Observation.value_fields
       (observation_data
          (Sample.observation_value None None None (Some (60, 100)%Z)))
     = [].
Proof. split; reflexivity. Qed.


(** * Further properties of the validation chain *)

Lemma passed_or_fails (r : outcome) : r = Passed \/ fails r.
Proof. destruct r as [|m]; [now left | right; now exists m]. Qed.

Lemma passed_not_fails (r : outcome) : r = Passed <-> ~ fails r.
Proof.
  split.
  - intros -> [m H]. discriminate H.
  - intros H. destruct r as [|m]; [reflexivity | elim H; now exists m].
Qed.

Lemma contains_iff (c : ascii) (s : string) :
  Py.contains c s = true <-> In c (list_ascii_of_string s).
Proof.
  induction s as [|c' s IH]; simpl.
  - split; [discriminate | intros H; now elim H].
  - rewrite orb_true_iff, IH. split.
    + intros [H | H]; [left; symmetry; now apply Ascii.eqb_eq | now right].
    + intros [H | H]; [left; apply Ascii.eqb_eq; now symmetry | now right].
Qed.

Section Chain.
Context {C : Components}.

Lemma resource_clean_passed_iff (r : Resource.t) :
  Resource.clean r = Passed <-> resource_rule r.
Proof.
  unfold Resource.clean, Base.clean, resource_rule. simpl.
  rewrite raise_if_passed, <- !truthy_str_iff.
  destruct (Py.truthy_str (Resource.implicitRules r)),
    (Py.truthy_str (Resource.fhir_id r)); simpl; intuition congruence.
Qed.

(** X1.  [DomainResource.clean] passes exactly when the inherited rule on
    implicit rules holds and, for a contained resource, none of the three
    containment clauses is violated. *)
Theorem domain_clean_passed_iff (r : DomainResource.t) :
  DomainResource.clean r = Passed <-> resource_rule r /\ containment_rule r.
Proof.
  rewrite <- resource_clean_passed_iff. unfold containment_rule.
  destruct (DomainResource.container r) as [c|] eqn:Ec.
  - assert (Hc : DomainResource.container r <> None) by (rewrite Ec; discriminate).
    rewrite (domain_clean_contained r Hc).
    unfold contains_resources.
    rewrite <- meta_versioned_iff, <- meta_labelled_iff, <- exists_iff.
    rewrite !and_then_passed, !raise_if_passed, !not_true_false.
    split.
    + intros [Hr H]. split; [exact Hr | intros _; exact H].
    + intros [Hr H]. split; [exact Hr | apply H; discriminate].
  - rewrite (domain_clean_not_contained r Ec). split.
    + intros Hr. split; [exact Hr | intros H; now elim H].
    + intros [Hr _]. exact Hr.
Qed.

Lemma chain3_raised (a b c : outcome) (m : string) :
  a ;; b ;; c = Raised m
  <-> a = Raised m
      \/ (a = Passed /\ b = Raised m)
      \/ (a = Passed /\ b = Passed /\ c = Raised m).
Proof. destruct a, b; simpl; intuition congruence. Qed.

Lemma chain4_raised (a b c d : outcome) (m : string) :
  a ;; b ;; c ;; d = Raised m
  <-> a = Raised m
      \/ (a = Passed /\ b = Raised m)
      \/ (a = Passed /\ b = Passed /\ c = Raised m)
      \/ (a = Passed /\ b = Passed /\ c = Passed /\ d = Raised m).
Proof. destruct a, b, c; simpl; intuition congruence. Qed.

Lemma raise_if_raised_fails (c : bool) (msg m : string) :
  raise_if c msg = Raised m <-> fails (raise_if c msg) /\ m = msg.
Proof. rewrite raise_if_raised, fails_raise_if. reflexivity. Qed.

Lemma clean_planned_dates_passed_iff (e : Encounter.t) :
  Encounter.clean_planned_dates e = Passed <-> dates_ordered e.
Proof.
  rewrite passed_not_fails, clean_planned_dates_iff. unfold dates_ordered.
  split.
  - intros H s t Hs Ht.
    destruct (Z_le_gt_dec s t) as [Hle | Hgt]; [exact Hle|].
    elim H. now exists s, t.
  - intros H [s [t [Hs [Ht Hgt]]]]. specialize (H s t Hs Ht). lia.
Qed.

Lemma clean_period_passed_iff (e : Encounter.t) :
  Encounter.clean_period e = Passed <-> period_rule e.
Proof.
  unfold Encounter.clean_period, period_rule, Py.str_in.
  rewrite raise_if_passed. simpl. rewrite orb_false_r.
  rewrite <- truthy_obj_iff.
  destruct (String.eqb_spec (Encounter.status e) "completed") as [Hc | Hc],
    (String.eqb_spec (Encounter.status e) "discharged") as [Hd | Hd],
    (Py.truthy_obj (Encounter.period e)); simpl; intuition congruence.
Qed.

Lemma clean_period_fails_iff (e : Encounter.t) :
  fails (Encounter.clean_period e) <-> period_missing e.
Proof.
  unfold Encounter.clean_period, period_missing, Py.str_in.
  rewrite fails_raise_if. simpl. rewrite orb_false_r.
  rewrite <- truthy_obj_false_iff.
  destruct (String.eqb_spec (Encounter.status e) "completed") as [Hc | Hc],
    (String.eqb_spec (Encounter.status e) "discharged") as [Hd | Hd],
    (Py.truthy_obj (Encounter.period e)); simpl; intuition congruence.
Qed.

Lemma clean_planned_dates_raised (e : Encounter.t) (m : string) :
  Encounter.clean_planned_dates e = Raised m
  <-> dates_reversed e /\ m = date_order_error.
Proof.
  unfold dates_reversed. rewrite <- clean_planned_dates_iff.
  unfold Encounter.clean_planned_dates. apply raise_if_raised_fails.
Qed.

Lemma clean_period_raised (e : Encounter.t) (m : string) :
  Encounter.clean_period e = Raised m
  <-> period_missing e /\ m = period_required_error.
Proof.
  rewrite <- clean_period_fails_iff.
  unfold Encounter.clean_period. apply raise_if_raised_fails.
Qed.

(** X2.  [Encounter.clean] passes exactly when the inherited rules pass,
    the planned dates are ordered and a finished encounter has a period.
    The error it raises is that of the first failing rule: an inherited
    error first, then the date-order error, then the period error. *)
Theorem encounter_clean_outcome (e : Encounter.t) :
  (Encounter.clean e = Passed
   <-> DomainResource.clean e = Passed /\ dates_ordered e /\ period_rule e)
  /\ (forall m,
         Encounter.clean e = Raised m
         <-> DomainResource.clean e = Raised m
             \/ (DomainResource.clean e = Passed
                 /\ dates_reversed e /\ m = date_order_error)
             \/ (DomainResource.clean e = Passed /\ dates_ordered e
                 /\ period_missing e /\ m = period_required_error)).
Proof.
  split.
  - unfold Encounter.clean.
    now rewrite !and_then_passed, clean_planned_dates_passed_iff,
      clean_period_passed_iff.
  - intros m. unfold Encounter.clean.
    rewrite chain3_raised, clean_planned_dates_raised, clean_period_raised,
      clean_planned_dates_passed_iff.
    reflexivity.
Qed.

Lemma clean_data_absent_passed_iff (o : Observation.t) :
  Observation.clean_data_absent o = Passed <-> data_absent_rule o.
Proof.
  unfold Observation.clean_data_absent, data_absent_rule, Base.truthy_pk.
  rewrite raise_if_passed, <- truthy_obj_iff, <- observation_set_values_truthy,
    <- truthy_obj_false_iff.
  destruct (Py.truthy_obj (Base.pk o)),
    (Py.truthy_list (Observation.set_values o)),
    (Py.truthy_obj (Observation.dataAbsentReason o)); simpl; intuition congruence.
Qed.

Lemma observation_groups_passed_iff (o : Observation.t) :
  (Observation.clean_effective o = Passed
   <-> observation_effective_populated o <= 1)
  /\ (Observation.clean_value o = Passed
      <-> observation_value_populated o <= 1).
Proof.
  unfold Observation.clean_effective, Observation.clean_value.
  rewrite !raise_if_passed, observation_set_effectives_length,
    observation_set_values_length, !Nat.ltb_ge. now split.
Qed.

Lemma clean_data_absent_fails_iff (o : Observation.t) :
  fails (Observation.clean_data_absent o) <-> data_absent_conflict o.
Proof.
  unfold Observation.clean_data_absent, data_absent_conflict, Base.truthy_pk.
  rewrite fails_raise_if, !andb_true_iff, !truthy_obj_iff,
    observation_set_values_truthy. tauto.
Qed.

Lemma clean_effective_raised (o : Observation.t) (m : string) :
  Observation.clean_effective o = Raised m
  <-> 1 < observation_effective_populated o /\ m = effective_error.
Proof.
  unfold Observation.clean_effective.
  now rewrite raise_if_raised, observation_set_effectives_length, Nat.ltb_lt.
Qed.

Lemma clean_value_raised (o : Observation.t) (m : string) :
  Observation.clean_value o = Raised m
  <-> 1 < observation_value_populated o /\ m = value_error.
Proof.
  unfold Observation.clean_value.
  now rewrite raise_if_raised, observation_set_values_length, Nat.ltb_lt.
Qed.

Lemma clean_data_absent_raised (o : Observation.t) (m : string) :
  Observation.clean_data_absent o = Raised m
  <-> data_absent_conflict o /\ m = data_absent_error.
Proof.
  rewrite <- clean_data_absent_fails_iff.
  unfold Observation.clean_data_absent. apply raise_if_raised_fails.
Qed.

(** X3.  [Observation.clean] passes exactly when the inherited rules
    pass, each of effective[x] and value[x] has at most one non-null field,
    and a persisted observation with a value has no dataAbsentReason.  The
    error it raises is that of the first failing rule: an inherited error,
    then the effective[x] error, the value[x] error, the data-absent
    error. *)
Theorem observation_clean_outcome (o : Observation.t) :
  (Observation.clean o = Passed
   <-> DomainResource.clean o = Passed
       /\ observation_effective_populated o <= 1
       /\ observation_value_populated o <= 1
       /\ data_absent_rule o)
  /\ (forall m,
         Observation.clean o = Raised m
         <-> DomainResource.clean o = Raised m
             \/ (DomainResource.clean o = Passed
                 /\ 1 < observation_effective_populated o
                 /\ m = effective_error)
             \/ (DomainResource.clean o = Passed
                 /\ observation_effective_populated o <= 1
                 /\ 1 < observation_value_populated o
                 /\ m = value_error)
             \/ (DomainResource.clean o = Passed
                 /\ observation_effective_populated o <= 1
                 /\ observation_value_populated o <= 1
                 /\ data_absent_conflict o
                 /\ m = data_absent_error)).
Proof.
  destruct (observation_groups_passed_iff o) as [He Hv].
  split.
  - unfold Observation.clean.
    now rewrite !and_then_passed, He, Hv, clean_data_absent_passed_iff.
  - intros m. unfold Observation.clean.
    rewrite chain4_raised, clean_effective_raised, clean_value_raised,
      clean_data_absent_raised, He, Hv.
    reflexivity.
Qed.

(** X4.  The telecom rule of Organization raises exactly when the
    instance is saved and some telecom of some contact has use ['home']
    (the comparison is with the exact string); then the error is the
    home-telecom error. *)
Theorem organization_telecom_iff (o : Organization.t) :
  (fails (Organization.clean_telecom o)
   <-> Base.pk o <> None /\ has_home_telecom o)
  /\ (forall m, Organization.clean_telecom o = Raised m -> m = home_telecom_error).
Proof.
  split.
  - split.
    + intros [m H]. apply clean_telecom_raised in H. now destruct H as [_ H].
    + intros [Hpk Hhome]. rewrite (clean_telecom_fails o Hpk Hhome).
      now exists home_telecom_error.
  - intros m H. apply clean_telecom_raised in H. now destruct H as [-> _].
Qed.

Lemma clean_telecom_passed_iff (o : Organization.t) :
  Organization.clean_telecom o = Passed <-> telecom_rule o.
Proof.
  rewrite passed_not_fails. unfold telecom_rule. split.
  - intros H Hpk Hhome. apply H.
    rewrite (clean_telecom_fails o Hpk Hhome). now exists home_telecom_error.
  - intros H [m Hm]. apply clean_telecom_raised in Hm.
    destruct Hm as [_ [Hpk Hhome]]. now apply (H Hpk).
Qed.

(** X5.  [Organization.clean] passes exactly when the inherited rules
    pass, the organization has a non-blank name or (being saved) a linked
    identifier, and no contact telecom of a saved organization has use
    ['home'].  The error it raises is that of the first failing rule: an
    inherited error, then the identity error, then the home-telecom
    error. *)
Theorem organization_clean_outcome (o : Organization.t) :
  (Organization.clean o = Passed
   <-> DomainResource.clean o = Passed /\ identity_rule o /\ telecom_rule o)
  /\ (forall m,
         Organization.clean o = Raised m
         <-> DomainResource.clean o = Raised m
             \/ (DomainResource.clean o = Passed
                 /\ identity_missing o /\ m = identity_error)
             \/ (DomainResource.clean o = Passed /\ identity_rule o
                 /\ Base.pk o <> None /\ has_home_telecom o
                 /\ m = home_telecom_error)).
Proof.
  split.
  - unfold Organization.clean, identity_rule.
    now rewrite !and_then_passed, clean_identity_passed_iff,
      clean_telecom_passed_iff.
  - intros m. unfold Organization.clean.
    assert (Hi : Organization.clean_identity o = Raised m
                 <-> identity_missing o /\ m = identity_error).
    { unfold identity_missing. rewrite <- clean_identity_fails_iff.
      unfold Organization.clean_identity. apply raise_if_raised_fails. }
    assert (Ht : Organization.clean_telecom o = Raised m
                 <-> Base.pk o <> None /\ has_home_telecom o
                     /\ m = home_telecom_error).
    { split.
      - intros H. apply clean_telecom_raised in H. tauto.
      - intros [Hpk [Hhome ->]]. now apply clean_telecom_fails. }
    unfold identity_rule.
    rewrite chain3_raised, Hi, Ht, clean_identity_passed_iff.
    reflexivity.
Qed.

Lemma clean_url_fails_iff (r : CanonicalResource.t) :
  fails (CanonicalResource.clean_url r)
  <-> exists u, CanonicalResource.url r = Some u /\ has_reserved_char u.
Proof.
  unfold CanonicalResource.clean_url, has_reserved_char.
  rewrite fails_raise_if.
  destruct (CanonicalResource.url r) as [u|].
  - rewrite andb_true_iff, orb_true_iff, !contains_iff, negb_true_iff. split.
    + intros [_ H]. now exists u.
    + intros [u' [Hu H]]. injection Hu as <-. split; [|exact H].
      apply String.eqb_neq. intros ->. simpl in H. tauto.
  - split; [discriminate | intros [u [H _]]; discriminate H].
Qed.

(** X6.  The url rule of CanonicalResource raises exactly when the url
    is set and has a [|] or a [#]; a resource that violates both the
    versionAlgorithm rule and the url rule gets the versionAlgorithm
    error, and any error of [CanonicalResource.clean] is an inherited
    error, the versionAlgorithm error or the url error. *)
Theorem canonical_url_rule (r : CanonicalResource.t) :
  (fails (CanonicalResource.clean_url r)
   <-> exists u, CanonicalResource.url r = Some u /\ has_reserved_char u)
  /\ (DomainResource.clean r = Passed ->
      fails (CanonicalResource.clean_version_algorithm r) ->
      CanonicalResource.clean r = Raised version_algorithm_error)
  /\ (DomainResource.clean r = Passed ->
      CanonicalResource.clean_version_algorithm r = Passed ->
      fails (CanonicalResource.clean_url r) ->
      CanonicalResource.clean r = Raised url_error)
  /\ (forall m, CanonicalResource.clean r = Raised m ->
                In m (inherited_errors ++ [version_algorithm_error; url_error])).
Proof.
  split; [apply clean_url_fails_iff|]. split; [|split].
  - intros Hd [m Hm]. unfold CanonicalResource.clean. rewrite Hd, Hm. simpl.
    unfold CanonicalResource.clean_version_algorithm in Hm.
    apply raise_if_raised in Hm. now destruct Hm as [_ ->].
  - intros Hd Hv [m Hm]. unfold CanonicalResource.clean. rewrite Hd, Hv, Hm.
    simpl. unfold CanonicalResource.clean_url in Hm.
    apply raise_if_raised in Hm. now destruct Hm as [_ ->].
  - intros m H. unfold CanonicalResource.clean in H. apply in_or_app.
    apply and_then_raised in H. destruct H as [H | [_ H]].
    { left. now apply domain_clean_raises in H. }
    right.
    apply and_then_raised in H. destruct H as [H | [_ H]].
    { apply raise_if_raised in H. destruct H as [_ ->]. now left. }
    apply raise_if_raised in H. destruct H as [_ ->]. right. now left.
Qed.

(** X7.  [BackboneType.clean] fails exactly when the fhir_id is not set
    and the element has children, or is saved with extension rows, or has
    modifier extension rows; the modifier extension rows are read whether
    or not the instance is saved. *)
Theorem backbone_type_rule (b : BackboneType.t) :
  fails (BackboneType.clean b)
  <-> (element_needs_id b \/ BackboneType.modifierExtension b <> [])
      /\ ~ str_set (Element.fhir_id b).
Proof.
  unfold BackboneType.clean, element_needs_id.
  pose proof (element_clean_fails_iff b) as He.
  destruct (passed_or_fails (Element.clean b)) as [Hp | Hf].
  - rewrite Hp. simpl. rewrite fails_raise_if, andb_true_iff, negb_true_iff,
      exists_iff, <- not_true_false, truthy_str_iff.
    assert (Hn : ~ fails (Element.clean b)) by now apply passed_not_fails.
    rewrite He in Hn. split.
    + intros [Hm Hid]. split; [now right | exact Hid].
    + intros [[Hneed | Hm] Hid]; [elim Hn; now split | now split].
  - split.
    + intros _. apply He in Hf. destruct Hf as [Hneed Hid].
      split; [now left | exact Hid].
    + intros _. now apply fails_and_then_l.
Qed.

(** X8.  [ObservationComponent.clean] fails exactly when the inherited
    Element rule fails (children, or saved with extension rows, and no
    fhir_id) or more than one value[x] field is non-null; the Element error
    is raised first. *)
Theorem component_clean_iff (c : ObservationComponent.t) :
  (fails (ObservationComponent.clean c)
   <-> (element_needs_id c /\ ~ str_set (Element.fhir_id c))
       \/ 1 < component_value_populated c)
  /\ (element_needs_id c -> ~ str_set (Element.fhir_id c) ->
      ObservationComponent.clean c = Raised element_error).
Proof.
  unfold ObservationComponent.clean, BackboneElement.clean, element_needs_id.
  pose proof (element_clean_fails_iff c) as He.
  pose proof (component_clean_value_iff c) as Hv.
  split.
  - destruct (passed_or_fails (Element.clean c)) as [Hp | Hf].
    + rewrite Hp. simpl. rewrite Hv.
      assert (Hn : ~ fails (Element.clean c)) by now apply passed_not_fails.
      rewrite He in Hn. tauto.
    + split; [intros _; left; now apply He | intros _; now apply fails_and_then_l].
  - intros Hneed Hid.
    assert (Hf : fails (Element.clean c)) by (apply He; now split).
    destruct Hf as [m Hm]. rewrite Hm. simpl.
    unfold Element.clean in Hm. apply raise_if_raised in Hm.
    now destruct Hm as [_ ->].
Qed.

End Chain.

(** * Further properties of the serializers *)

Lemma has_key_in_keys (k : string) (d : Py.dict) :
  Py.has_key k d = true <-> In k (Py.keys d).
Proof.
  unfold Py.has_key, Py.keys. induction d as [|[k' v] d IH]; simpl.
  - split; [discriminate | intros H; now elim H].
  - destruct (String.eqb_spec k k') as [-> | Hne].
    + split; [intros _; now left | reflexivity].
    + rewrite IH. split; [intros H; now right|].
      intros [H | H]; [now elim Hne | exact H].
Qed.

Lemma keys_dict_set (k k' : string) (v : Py.value) (d : Py.dict) :
  In k (Py.keys (Py.dict_set k' v d)) -> k = k' \/ In k (Py.keys d).
Proof.
  unfold Py.keys. induction d as [|[k0 v0] d IH]; simpl.
  - intros [H | H]; [now left | now elim H].
  - destruct (String.eqb k' k0); simpl.
    + intros [H | H]; right; [now left | now right].
    + intros [H | H]; [right; now left|].
      destruct (IH H) as [H' | H']; [now left | right; now right].
Qed.

Lemma keys_set_opt {A : Type} (k k' : string) (x : option A)
    (f : A -> Py.value) (d : Py.dict) :
  In k (Py.keys (Py.set_opt x k' f d)) -> k = k' \/ In k (Py.keys d).
Proof.
  unfold Py.set_opt. destruct x; [apply keys_dict_set | now right].
Qed.

Lemma keys_set_str (k k' : string) (x : option string) (d : Py.dict) :
  In k (Py.keys (Py.set_str x k' d)) -> k = k' \/ In k (Py.keys d).
Proof.
  unfold Py.set_str. destruct x as [s|]; [|now right].
  destruct (String.eqb s ""); [now right | apply keys_dict_set].
Qed.

Lemma keys_set_list (k k' : string) (l : list Py.value) (d : Py.dict) :
  In k (Py.keys (Py.set_list l k' d)) -> k = k' \/ In k (Py.keys d).
Proof.
  unfold Py.set_list. destruct l; [now right | apply keys_dict_set].
Qed.

Lemma keys_set_if (k k' : string) (c : bool) (v : Py.value) (d : Py.dict) :
  In k (Py.keys (Py.set_if c k' v d)) -> k = k' \/ In k (Py.keys d).
Proof.
  unfold Py.set_if. destruct c; [apply keys_dict_set | now right].
Qed.

Lemma dict_set_not_nil (k : string) (v : Py.value) (d : Py.dict) :
  Py.dict_set k v d <> [].
Proof.
  destruct d as [|[k' v'] d]; simpl; [discriminate|].
  destruct (String.eqb k k'); discriminate.
Qed.

Lemma collect_all {A : Type} (f : A -> Py.value) (rows : list A) :
  (forall row, Py.truthy (f row) = true) -> Py.collect f rows = map f rows.
Proof.
  intros H. unfold Py.collect. induction rows as [|row rows IH]; simpl.
  - reflexivity.
  - now rewrite H, IH.
Qed.


Lemma collect_some_truthy {A : Type} (f : A -> Py.value) (rows : list A) :
  Py.truthy_list (Py.collect f rows) = some_truthy f rows.
Proof.
  unfold Py.collect, some_truthy. induction rows as [|row rows IH]; simpl.
  - reflexivity.
  - destruct (Py.truthy (f row)); [reflexivity | exact IH].
Qed.


(** Membership in a list of literal keys. *)
Ltac in_list := simpl; repeat first [left; reflexivity | right].

Section ChainKeys.
Context {C : Components}.

Lemma keys_set_value_x (k : string)
    (vq : option Quantity) (vcc : option CodeableConcept) (vs : option string)
    (vb : option bool) (vi : option Z) (vp : option Period)
    (vdt : option datetime) (vt : option time) (d : Py.dict) :
  In k (Py.keys (set_value_x vq vcc vs vb vi vp vdt vt d)) ->
  In k value_keys \/ In k (Py.keys d).
Proof.
  unfold set_value_x, value_keys.
  destruct vq; [intros H; apply keys_dict_set in H; destruct H as [-> | H]; [left; in_list | now right]|].
  destruct vcc; [intros H; apply keys_dict_set in H; destruct H as [-> | H]; [left; in_list | now right]|].
  destruct (Py.truthy_str vs); [intros H; apply keys_dict_set in H; destruct H as [-> | H]; [left; in_list | now right]|].
  destruct vb; [intros H; apply keys_dict_set in H; destruct H as [-> | H]; [left; in_list | now right]|].
  destruct vi; [intros H; apply keys_dict_set in H; destruct H as [-> | H]; [left; in_list | now right]|].
  destruct vp; [intros H; apply keys_dict_set in H; destruct H as [-> | H]; [left; in_list | now right]|].
  destruct vdt; [intros H; apply keys_dict_set in H; destruct H as [-> | H]; [left; in_list | now right]|].
  destruct vt; [intros H; apply keys_dict_set in H; destruct H as [-> | H]; [left; in_list | now right] | now right].
Qed.

Lemma keys_set_effective_x (k : string) (o : Observation.t) (d : Py.dict) :
  In k (Py.keys (set_effective_x o d)) ->
  In k effective_keys \/ In k (Py.keys d).
Proof.
  unfold set_effective_x, effective_keys.
  destruct (Observation.effectiveDateTime o);
    [intros H; apply keys_dict_set in H; destruct H as [-> | H]; [left; in_list | now right]|].
  destruct (Observation.effectiveInstant o);
    [intros H; apply keys_dict_set in H; destruct H as [-> | H]; [left; in_list | now right]|].
  destruct (Observation.effectivePeriod o);
    [intros H; apply keys_dict_set in H; destruct H as [-> | H]; [left; in_list | now right] | now right].
Qed.

End ChainKeys.

(** One layer of a [data] dict adds at most its own key. *)
Ltac known_key H :=
  repeat
    (first [ apply keys_set_opt in H | apply keys_set_str in H
           | apply keys_set_list in H | apply keys_set_if in H
           | apply keys_set_value_x in H | apply keys_set_effective_x in H ];
     destruct H as [H | H];
     [ first [ solve [subst; in_list]
             | unfold value_keys, effective_keys in H; simpl in H;
               repeat (destruct H as [H | H]; [solve [subst; in_list]|]);
               now elim H ] | ]);
  simpl in H; repeat (destruct H as [H | H]; [solve [subst; in_list]|]);
  now elim H.

Section KnownKeys.
Context {C : Components}.

(** X9.  The wire document of a saved row has no key outside the fixed
    list of its serializer; no serializer emits a valueRange key, and
    fields such as meta, text, focus or performer are never serialized. *)
Theorem wire_keys_known :
  (forall (o : Observation.t) (k : string),
      Base.pk o <> None ->
      Py.has_key k (observation_data o) = true -> In k observation_keys)
  /\ (forall (c : ObservationComponent.t) (k : string),
         Base.pk c <> None ->
         Py.has_key k (observation_component_data c) = true -> In k component_keys)
  /\ (forall (e : Encounter.t) (k : string),
         Base.pk e <> None ->
         Py.has_key k (encounter_data e) = true -> In k encounter_keys)
  /\ ~ In "valueRange" observation_keys
  /\ ~ In "valueRange" component_keys.
Proof.
  split; [|split; [|split; [|split]]].
  - intros o k _ H. apply has_key_in_keys in H.
    unfold observation_data in H. cbv zeta in H.
    unfold observation_keys. known_key H.
  - intros c k _ H. apply has_key_in_keys in H.
    unfold observation_component_data in H. cbv zeta in H.
    unfold component_keys. known_key H.
  - intros e k _ H. apply has_key_in_keys in H.
    unfold encounter_data in H. cbv zeta in H.
    unfold encounter_keys.
    apply keys_set_list in H. destruct H as [H | H]; [subst; in_list|].
    destruct (Encounter.admission e); known_key H.
  - unfold observation_keys. simpl. intros H.
    repeat (destruct H as [H | H]; [discriminate H|]). exact H.
  - unfold component_keys. simpl. intros H.
    repeat (destruct H as [H | H]; [discriminate H|]). exact H.
Qed.

End KnownKeys.

Ltac emitted_flag :=
  cbv zeta; peel;
  first [ rewrite dict_get_set_opt_eq | rewrite dict_get_set_str_eq
        | rewrite dict_get_set_list_eq | rewrite dict_get_set_if_eq ].

Section Emission.
Context {C : Components}.

Lemma component_data_truthy (c : ObservationComponent.t) :
  Py.truthy (convert_observation_component (Some c)) = true.
Proof.
  simpl. destruct (observation_component_data c) eqn:E; [|reflexivity].
  assert (H : Py.dict_get "code" (observation_component_data c) = None)
    by now rewrite E.
  unfold observation_component_data in H. cbv zeta in H. revert H. peel.
  discriminate.
Qed.

Lemma diagnosis_data_truthy (dg : EncounterDiagnosis.t) :
  Py.truthy (convert_encounter_diagnosis (Some dg)) = true.
Proof.
  simpl. destruct (encounter_diagnosis_data dg) eqn:E; [|reflexivity].
  assert (H : Py.dict_get "condition" (encounter_diagnosis_data dg) = None)
    by now rewrite E.
  unfold encounter_diagnosis_data in H. cbv zeta in H. revert H. peel.
  discriminate.
Qed.

Lemma location_data_truthy (loc : EncounterLocation.t) :
  Py.truthy (convert_encounter_location (Some loc)) = true.
Proof.
  simpl. destruct (encounter_location_data loc) eqn:E; [|reflexivity].
  assert (H : Py.dict_get "location" (encounter_location_data loc) = None)
    by now rewrite E.
  unfold encounter_location_data in H. cbv zeta in H. revert H. peel.
  discriminate.
Qed.

(** X10.  The required keys are always in the wire document of a saved
    row and no later step overwrites them: resourceType, status and code of
    an Observation, resourceType, status and the one-element class list of
    an Encounter, code of a component, the one-element condition list of a
    diagnosis, location of a location. *)
Theorem required_keys_present :
  (forall o : Observation.t,
      Base.pk o <> None ->
      Py.dict_get "resourceType" (observation_data o) = Some (Py.PyStr "Observation")
      /\ Py.dict_get "status" (observation_data o)
         = Some (Py.PyStr (Observation.status o))
      /\ Py.dict_get "code" (observation_data o)
         = Some (convert_codeable_concept (Observation.code o)))
  /\ (forall e : Encounter.t,
         Base.pk e <> None ->
         Py.dict_get "resourceType" (encounter_data e) = Some (Py.PyStr "Encounter")
         /\ Py.dict_get "status" (encounter_data e)
            = Some (Py.PyStr (Encounter.status e))
         /\ Py.dict_get "class" (encounter_data e)
            = Some (Py.PyList [convert_codeable_concept (Encounter.class_field e)]))
  /\ (forall c : ObservationComponent.t,
         Base.pk c <> None ->
         Py.dict_get "code" (observation_component_data c)
         = Some (convert_codeable_concept (ObservationComponent.code c)))
  /\ (forall dg : EncounterDiagnosis.t,
         Base.pk dg <> None ->
         Py.dict_get "condition" (encounter_diagnosis_data dg)
         = Some (Py.PyList [Reference.to_value (EncounterDiagnosis.condition dg)]))
  /\ (forall loc : EncounterLocation.t,
         Py.dict_get "location" (encounter_location_data loc)
         = Some (Reference.to_value (EncounterLocation.location loc))).
Proof.
  split; [|split; [|split; [|split]]].
  - intros o _. unfold observation_data. cbv zeta.
    repeat split; peel; reflexivity.
  - intros e _. unfold encounter_data. cbv zeta.
    destruct (Encounter.admission e); repeat split; peel; reflexivity.
  - intros c _. unfold observation_component_data. cbv zeta. peel. reflexivity.
  - intros dg _. unfold encounter_diagnosis_data. cbv zeta. peel. reflexivity.
  - intros loc. unfold encounter_location_data. cbv zeta. peel. reflexivity.
Qed.

Lemma has_key_set_list (k : string) (l : list Py.value) (d : Py.dict) :
  Py.dict_get k d = None ->
  Py.has_key k (Py.set_list l k d) = Py.truthy_list l.
Proof.
  intros H. unfold Py.has_key. rewrite dict_get_set_list_eq.
  destruct l; [now rewrite H | reflexivity].
Qed.

Lemma has_key_set_opt {A : Type} (k : string) (x : option A)
    (f : A -> Py.value) (d : Py.dict) :
  Py.dict_get k d = None ->
  Py.has_key k (Py.set_opt x k f d) = Py.is_not_None x.
Proof.
  intros H. unfold Py.has_key. rewrite dict_get_set_opt_eq.
  destruct x; [reflexivity | now rewrite H].
Qed.

Lemma has_key_set_str (k : string) (x : option string) (d : Py.dict) :
  Py.dict_get k d = None ->
  Py.has_key k (Py.set_str x k d) = Py.truthy_str x.
Proof.
  intros H. unfold Py.has_key. rewrite dict_get_set_str_eq.
  destruct x as [s|]; simpl; [|now rewrite H].
  destruct (String.eqb s ""); [now rewrite H | reflexivity].
Qed.

Lemma has_key_set_if (k : string) (c : bool) (v : Py.value) (d : Py.dict) :
  Py.dict_get k d = None ->
  Py.has_key k (Py.set_if c k v d) = c.
Proof.
  intros H. unfold Py.has_key. rewrite dict_get_set_if_eq.
  destruct c; [reflexivity | now rewrite H].
Qed.

Lemma some_truthy_all {A : Type} (f : A -> Py.value) (rows : list A) :
  (forall row, Py.truthy (f row) = true) -> some_truthy f rows = Py.exists_ rows.
Proof.
  intros H. unfold some_truthy. destruct rows as [|row rows]; simpl.
  - reflexivity.
  - now rewrite H.
Qed.

Lemma has_key_ext (k : string) (d d' : Py.dict) :
  Py.dict_get k d = Py.dict_get k d' -> Py.has_key k d = Py.has_key k d'.
Proof. unfold Py.has_key. now intros ->. Qed.

End Emission.

Ltac fold_has_key :=
  match goal with
  | |- context [match Py.dict_get ?k ?d with Some _ => true | None => false end] =>
      change (match Py.dict_get k d with Some _ => true | None => false end)
        with (Py.has_key k d)
  end.

(** Presence of the key of one layer: strip the later layers, then read
    the layer's own test. *)
Ltac presence :=
  cbv zeta; unfold Py.has_key; peel; fold_has_key;
  first [ rewrite has_key_set_opt by (peel; reflexivity)
        | rewrite has_key_set_str by (peel; reflexivity)
        | rewrite has_key_set_list by (peel; reflexivity)
        | rewrite has_key_set_if by (peel; reflexivity) ].

Section Emission2.
Context {C : Components}.

(** X11.  Outside the choice-type groups, an optional key of the
    document of a saved Observation or Encounter is present exactly when
    its field has something to emit: a non-empty string id, a field that is
    not [None], a true note, a relationship with a row that converts to a
    true value (any row for components, diagnoses and locations). *)
Theorem optional_keys_emitted :
  (forall (o : Observation.t) (k : string) (flag : bool),
      Base.pk o <> None ->
      In (k, flag) (observation_emits o) ->
      Py.has_key k (observation_data o) = flag)
  /\ (forall (e : Encounter.t) (k : string) (flag : bool),
         Base.pk e <> None ->
         In (k, flag) (encounter_emits e) ->
         Py.has_key k (encounter_data e) = flag).
Proof.
  split.
  - intros o k flag _ Hin. unfold observation_emits in Hin. simpl in Hin.
    unfold observation_data.
    repeat (destruct Hin as [Heq | Hin];
            [injection Heq as <- <-; presence;
             rewrite ?collect_some_truthy;
             first [ reflexivity
                   | apply some_truthy_all; apply component_data_truthy ]|]).
    contradiction.
  - intros e k flag _ Hin. unfold encounter_emits in Hin. simpl in Hin.
    unfold encounter_data.
    destruct (Encounter.admission e);
      repeat (destruct Hin as [Heq | Hin];
              [injection Heq as <- <-; presence;
               rewrite ?collect_some_truthy;
               first [ reflexivity
                     | apply some_truthy_all; apply diagnosis_data_truthy
                     | apply some_truthy_all; apply location_data_truthy ]|]);
      contradiction.
Qed.

End Emission2.

Section Rows.
Context {C : Components}.

(** X12.  Every component of a saved Observation, and every diagnosis and
    location of a saved Encounter, yields one entry of its list, in the
    order of the query: no row is dropped. *)
Theorem rows_serialized_in_order :
  (forall o : Observation.t,
      Base.pk o <> None ->
      Py.dict_get "component" (observation_data o)
      = match Observation.components o with
        | [] => None
        | rows =>
            Some (Py.PyList
                    (map (fun c => Py.PyDict (observation_component_data c)) rows))
        end)
  /\ (forall e : Encounter.t,
         Base.pk e <> None ->
         Py.dict_get "diagnosis" (encounter_data e)
         = match Encounter.diagnoses e with
           | [] => None
           | rows =>
               Some (Py.PyList
                       (map (fun dg => Py.PyDict (encounter_diagnosis_data dg)) rows))
           end
         /\ Py.dict_get "location" (encounter_data e)
            = match Encounter.locations e with
              | [] => None
              | rows =>
                  Some (Py.PyList
                          (map (fun loc => Py.PyDict (encounter_location_data loc))
                             rows))
              end).
Proof.
  split.
  - intros o _. unfold observation_data. cbv zeta. peel.
    rewrite dict_get_set_list_eq, (collect_all _ _ component_data_truthy).
    destruct (Observation.components o); [peel; reflexivity | reflexivity].
  - intros e _. unfold encounter_data. cbv zeta. split.
    + destruct (Encounter.admission e); peel;
        rewrite dict_get_set_list_eq, (collect_all _ _ diagnosis_data_truthy);
        (destruct (Encounter.diagnoses e); [peel; reflexivity | reflexivity]).
    + rewrite dict_get_set_list_eq, (collect_all _ _ location_data_truthy).
      destruct (Encounter.locations e); [|reflexivity].
      destruct (Encounter.admission e); peel; reflexivity.
Qed.






End Rows.

Section Backbone.
Context {C : Components}.

Lemma admission_data_empty_iff (a : EncounterAdmission.t) :
  encounter_admission_data a = [] <-> ~ admission_has_data a.
Proof.
  unfold encounter_admission_data, admission_has_data. cbv zeta.
  destruct (EncounterAdmission.admitSource a),
    (EncounterAdmission.reAdmission a),
    (EncounterAdmission.dischargeDisposition a),
    (EncounterAdmission.origin a),
    (EncounterAdmission.destination a);
    simpl; intuition congruence.
Qed.

(** X14.  The admission key of a saved Encounter is present exactly when
    the encounter has an admission with one of admitSource, reAdmission,
    dischargeDisposition, origin and destination, and then holds the
    admission's document; an encounter without admission, or whose
    admission has none of the five (a preAdmissionIdentifier alone does not
    count), has no admission key. *)
Theorem admission_emitted_iff (e : Encounter.t) :
  Base.pk e <> None ->
  (Py.has_key "admission" (encounter_data e) = true
   <-> exists a, Encounter.admission e = Some a /\ admission_has_data a)
  /\ (forall a, Encounter.admission e = Some a -> admission_has_data a ->
                Py.dict_get "admission" (encounter_data e)
                = Some (Py.PyDict (encounter_admission_data a))).
Proof.
  intros _.
  assert (Hget : Py.dict_get "admission" (encounter_data e)
                 = match Encounter.admission e with
                   | Some a =>
                       match encounter_admission_data a with
                       | [] => None
                       | d => Some (Py.PyDict d)
                       end
                   | None => None
                   end).
  { unfold encounter_data. cbv zeta. peel.
    destruct (Encounter.admission e) as [a|].
    - rewrite dict_get_set_if_eq. simpl.
      destruct (encounter_admission_data a); [peel; reflexivity | reflexivity].
    - peel. reflexivity. }
  unfold Py.has_key. rewrite Hget. split.
  - destruct (Encounter.admission e) as [a|].
    + pose proof (admission_data_empty_iff a) as Hempty.
      destruct (encounter_admission_data a) as [|kv d]; split.
      * discriminate.
      * intros [a' [Ha Hdata]]. injection Ha as <-.
        elim (proj1 Hempty eq_refl). exact Hdata.
      * intros _. exists a. split; [reflexivity|].
        unfold admission_has_data in *.
        destruct (EncounterAdmission.admitSource a),
          (EncounterAdmission.reAdmission a),
          (EncounterAdmission.dischargeDisposition a),
          (EncounterAdmission.origin a),
          (EncounterAdmission.destination a);
          try (left; discriminate);
          try (right; left; discriminate);
          try (right; right; left; discriminate);
          try (right; right; right; left; discriminate);
          try (right; right; right; right; discriminate).
        exfalso. assert (H : kv :: d = []) by (apply Hempty; tauto).
        discriminate H.
      * reflexivity.
    + split; [discriminate | intros [a [Ha _]]; discriminate Ha].
  - intros a Ha Hdata. rewrite Ha.
    pose proof (admission_data_empty_iff a) as Hempty.
    destruct (encounter_admission_data a); [|reflexivity].
    elim (proj1 Hempty eq_refl). exact Hdata.
Qed.

(** X15.  The encounter of a saved Observation is emitted as the
    reference ["Encounter/" ++ id]; when the linked encounter has no
    fhir_id the reference is the literal ["Encounter/None"]. *)
Theorem encounter_reference_format (o : Observation.t) (e : Encounter.t) :
  Base.pk o <> None ->
  Observation.encounter o = Some e ->
  (forall id, Resource.fhir_id e = Some id ->
              Py.dict_get "encounter" (observation_data o)
              = Some (Py.PyDict [("reference", Py.PyStr ("Encounter/" ++ id))]))
  /\ (Resource.fhir_id e = None ->
      Py.dict_get "encounter" (observation_data o)
      = Some (Py.PyDict [("reference", Py.PyStr "Encounter/None")])).
Proof.
  intros _ He.
  assert (Hget : Py.dict_get "encounter" (observation_data o)
                 = Some (Py.PyDict
                           [("reference",
                             Py.PyStr ("Encounter/" ++ Py.format (Resource.fhir_id e)))])).
  { unfold observation_data. cbv zeta. peel.
    rewrite dict_get_set_opt_eq, He. reflexivity. }
  rewrite Hget. split.
  - intros id Hid. now rewrite Hid.
  - intros Hid. now rewrite Hid.
Qed.

(** X16.  The value[x] key of a saved Observation holds the conversion
    of its branch, and an earlier branch wins over every later one: a
    valueQuantity is always emitted, converted; a valueCodeableConcept when
    there is no quantity; a non-empty valueString when there is neither;
    a valuePeriod, a valueDateTime and a valueTime when no earlier branch is
    populated, the two times in ISO format. *)
Theorem value_branch_converted (o : Observation.t) :
  Base.pk o <> None ->
  (forall q, Observation.valueQuantity o = Some q ->
             Py.dict_get "valueQuantity" (observation_data o)
             = Some (convert_quantity q))
  /\ (Observation.valueQuantity o = None ->
      (forall cc, Observation.valueCodeableConcept o = Some cc ->
                  Py.dict_get "valueCodeableConcept" (observation_data o)
                  = Some (convert_codeable_concept cc))
      /\ (Observation.valueCodeableConcept o = None ->
          (forall s, Observation.valueString o = Some s -> s <> "" ->
                     Py.dict_get "valueString" (observation_data o)
                     = Some (Py.PyStr s))
          /\ (Py.truthy_str (Observation.valueString o) = false ->
              Observation.valueBoolean o = None ->
              Observation.valueInteger o = None ->
              (forall p, Observation.valuePeriod o = Some p ->
                         Py.dict_get "valuePeriod" (observation_data o)
                         = Some (convert_period p))
              /\ (Observation.valuePeriod o = None ->
                  (forall d, Observation.valueDateTime o = Some d ->
                             Py.dict_get "valueDateTime" (observation_data o)
                             = Some (Py.PyStr (isoformat d)))
                  /\ (Observation.valueDateTime o = None ->
                      forall t, Observation.valueTime o = Some t ->
                                Py.dict_get "valueTime" (observation_data o)
                                = Some (Py.PyStr (time_isoformat t))))))).
Proof.
  intros _.
  assert (Hkey : forall k, In k Observation.value_fields ->
                 Py.dict_get k (observation_data o)
                 = Py.dict_get k
                     (set_value_x
                        (Observation.valueQuantity o)
                        (Observation.valueCodeableConcept o)
                        (Observation.valueString o) (Observation.valueBoolean o)
                        (Observation.valueInteger o) (Observation.valuePeriod o)
                        (Observation.valueDateTime o) (Observation.valueTime o) []))
    by (intros k Hk; now apply observation_data_value_key).
  split.
  - intros q Hq. rewrite Hkey by (unfold Observation.value_fields; simpl; tauto).
    unfold set_value_x. now rewrite Hq.
  - intros Hq. split.
    + intros cc Hcc.
      rewrite Hkey by (unfold Observation.value_fields; simpl; tauto).
      unfold set_value_x. now rewrite Hq, Hcc.
    + intros Hcc. split.
      * intros s Hs Hne.
        rewrite Hkey by (unfold Observation.value_fields; simpl; tauto).
        unfold set_value_x. rewrite Hq, Hcc, Hs. simpl.
        apply String.eqb_neq in Hne. now rewrite Hne.
      * intros Hs Hb Hi. split.
        { intros p Hp.
          rewrite Hkey by (unfold Observation.value_fields; simpl; tauto).
          unfold set_value_x. now rewrite Hq, Hcc, Hs, Hb, Hi, Hp. }
        intros Hp. split.
        { intros d Hd.
          rewrite Hkey by (unfold Observation.value_fields; simpl; tauto).
          unfold set_value_x. now rewrite Hq, Hcc, Hs, Hb, Hi, Hp, Hd. }
        intros Hd t Ht.
        rewrite Hkey by (unfold Observation.value_fields; simpl; tauto).
        unfold set_value_x. now rewrite Hq, Hcc, Hs, Hb, Hi, Hp, Hd, Ht.
Qed.

(** X17.  The serializers of the backbone elements omit what is absent:
    in the document of a reference range, a participant, a diagnosis, an
    admission or a location, the key of an optional field is present only
    when the field is not [None], and the key of a relationship only when
    it has rows. *)
Theorem backbone_absent_omitted :
  (forall (rr : ObservationReferenceRange.t) k present,
      In (k, present) (reference_range_optional rr) -> present = false ->
      Py.dict_get k (observation_reference_range_data rr) = None)
  /\ (forall (p : EncounterParticipant.t) k present,
         Base.pk p <> None ->
         In (k, present) (participant_optional p) -> present = false ->
         Py.dict_get k (encounter_participant_data p) = None)
  /\ (forall (dg : EncounterDiagnosis.t) k present,
         Base.pk dg <> None ->
         In (k, present) (diagnosis_optional dg) -> present = false ->
         Py.dict_get k (encounter_diagnosis_data dg) = None)
  /\ (forall (a : EncounterAdmission.t) k present,
         In (k, present) (admission_optional a) -> present = false ->
         Py.dict_get k (encounter_admission_data a) = None)
  /\ (forall (loc : EncounterLocation.t) k present,
         In (k, present) (location_optional loc) -> present = false ->
         Py.dict_get k (encounter_location_data loc) = None).
Proof.
  split; [|split; [|split; [|split]]].
  - intros rr k present Hin Habs.
    unfold reference_range_optional in Hin. simpl in Hin.
    unfold observation_reference_range_data.
    repeat (destruct Hin as [Heq | Hin]; [injection Heq as <- <-; omitted Habs|]).
    contradiction.
  - intros p k present _ Hin Habs.
    unfold participant_optional in Hin. simpl in Hin.
    unfold encounter_participant_data.
    repeat (destruct Hin as [Heq | Hin]; [injection Heq as <- <-; omitted Habs|]).
    contradiction.
  - intros dg k present _ Hin Habs.
    unfold diagnosis_optional in Hin. simpl in Hin.
    unfold encounter_diagnosis_data.
    repeat (destruct Hin as [Heq | Hin]; [injection Heq as <- <-; omitted Habs|]).
    contradiction.
  - intros a k present Hin Habs.
    unfold admission_optional in Hin. simpl in Hin.
    unfold encounter_admission_data.
    repeat (destruct Hin as [Heq | Hin]; [injection Heq as <- <-; omitted Habs|]).
    contradiction.
  - intros loc k present Hin Habs.
    unfold location_optional in Hin. simpl in Hin.
    unfold encounter_location_data.
    repeat (destruct Hin as [Heq | Hin]; [injection Heq as <- <-; omitted Habs|]).
    contradiction.
Qed.

End Backbone.

(** * Worked examples of the further properties *)

(** X6 at a url with a version suffix, alone and together with two
    version algorithms. *)
Lemma canonical_url_rule_witness :
  CanonicalResource.clean
    (SampleX.canonical (Some "http://example.org/vs|1.0") None None)
    = Raised url_error
  /\ CanonicalResource.clean
       (SampleX.canonical (Some "http://example.org/vs|1.0") (Some "semver")
          (Some "semver"))
     = Raised version_algorithm_error.
Proof.
  split.
  - destruct (canonical_url_rule
                (SampleX.canonical (Some "http://example.org/vs|1.0") None None))
      as [Hurl [_ [H _]]].
    apply H; [reflexivity | reflexivity|].
    apply Hurl. exists "http://example.org/vs|1.0". split; [reflexivity|].
    left. simpl. tauto.
  - destruct (canonical_url_rule
                (SampleX.canonical (Some "http://example.org/vs|1.0")
                   (Some "semver") (Some "semver"))) as [_ [H _]].
    apply H; [reflexivity|]. now exists version_algorithm_error.
Defined.

(** X8 at a saved component with an extension, no fhir_id and a single
    value. *)
Lemma component_clean_iff_witness :
  ObservationComponent.clean
    (SampleX.component None [Sample.extension_row] (Some 120%Z) None)
  = Raised element_error.
Proof.
  destruct (component_clean_iff
              (SampleX.component None [Sample.extension_row] (Some 120%Z) None))
    as [_ H].
  apply H.
  - right. split; simpl; discriminate.
  - intros [s [Hs _]]. simpl in Hs. discriminate Hs.
Defined.

(** X9 at a saved observation: its key id is one of the known keys. *)
Lemma wire_keys_known_witness :
  In "id" observation_keys.
Proof.
  destruct (@wire_keys_known sample_components) as [H _].
  apply (H (SampleX.observation None [] None None) "id").
  - simpl. discriminate.
  - reflexivity.
Defined.

(** X10 at a saved observation and a saved encounter. *)
Lemma required_keys_present_witness :
  Py.dict_get "resourceType"
    (observation_data (SampleX.observation None [] None None))
    = Some (Py.PyStr "Observation")
  /\ Py.dict_get "class" (encounter_data (SampleX.encounter None [] None))
     = Some (Py.PyList [Py.PyDict [("text", Py.PyStr "inpatient")]]).
Proof.
  destruct (@required_keys_present sample_components) as [Ho [He _]].
  split.
  - apply Ho. simpl. discriminate.
  - apply He. simpl. discriminate.
Defined.

(** X11 at a saved observation with an id and without subject. *)
Lemma optional_keys_emitted_witness :
  Py.has_key "id" (observation_data (SampleX.observation None [] None None)) = true
  /\ Py.has_key "subject"
       (observation_data (SampleX.observation None [] None None)) = false.
Proof.
  destruct (@optional_keys_emitted sample_components) as [H _].
  split.
  - apply (H (SampleX.observation None [] None None) "id" true);
      [simpl; discriminate | simpl; tauto].
  - apply (H (SampleX.observation None [] None None) "subject" false);
      [simpl; discriminate | simpl; tauto].
Defined.

(** X12 at a saved observation with two components. *)
Lemma rows_serialized_in_order_witness :
  Py.dict_get "component"
    (observation_data (SampleX.observation None [] None None))
  = Some (Py.PyList
            [Py.PyDict [("code", Py.PyDict [("text", Py.PyStr "Systolic BP")]);
                        ("valueInteger", Py.PyInt 120)];
             Py.PyDict [("code", Py.PyDict [("text", Py.PyStr "Systolic BP")]);
                        ("valueInteger", Py.PyInt 80)]]).
Proof.
  destruct (@rows_serialized_in_order sample_components) as [H _].
  apply (H (SampleX.observation None [] None None)). simpl. discriminate.
Defined.


(** X14 at a saved encounter whose admission has only a pre-admission
    identifier (no admission key), and one whose admission has an origin. *)
Lemma admission_emitted_iff_witness :
  Py.has_key "admission"
    (encounter_data (SampleX.encounter None [] (Some (SampleX.admission None))))
  = false
  /\ Py.dict_get "admission"
       (encounter_data
          (SampleX.encounter None [] (Some (SampleX.admission (Some SampleX.ward)))))
     = Some (Py.PyDict
               [("origin",
                 Py.PyDict [("reference", Py.PyStr "Location/ward-3")])]).
Proof.
  split.
  - destruct (admission_emitted_iff
                (SampleX.encounter None [] (Some (SampleX.admission None))))
      as [Hiff _]; [simpl; discriminate|].
    apply not_true_false. intros Hkey. apply Hiff in Hkey.
    destruct Hkey as [a [Ha Hdata]]. simpl in Ha. injection Ha as <-.
    destruct Hdata as [H | [H | [H | [H | H]]]]; now apply H.
  - destruct (admission_emitted_iff
                (SampleX.encounter None []
                   (Some (SampleX.admission (Some SampleX.ward)))))
      as [_ Hget]; [simpl; discriminate|].
    apply (Hget (SampleX.admission (Some SampleX.ward)) eq_refl).
    right. right. right. left. simpl. discriminate.
Defined.

(** X15 at a saved observation whose encounter has the id enc-7, and at
    one whose encounter has no id. *)
Lemma encounter_reference_format_witness :
  Py.dict_get "encounter"
    (observation_data
       (SampleX.observation (Some (SampleX.encounter (Some "enc-7") [] None))
          [] None None))
  = Some (Py.PyDict [("reference", Py.PyStr "Encounter/enc-7")])
  /\ Py.dict_get "encounter"
       (observation_data
          (SampleX.observation (Some (SampleX.encounter None [] None))
             [] None None))
     = Some (Py.PyDict [("reference", Py.PyStr "Encounter/None")]).
Proof.
  split.
  - destruct (encounter_reference_format
                (SampleX.observation
                   (Some (SampleX.encounter (Some "enc-7") [] None)) [] None None)
                (SampleX.encounter (Some "enc-7") [] None)) as [H _];
      [simpl; discriminate | reflexivity|].
    apply (H "enc-7" eq_refl).
  - destruct (encounter_reference_format
                (SampleX.observation
                   (Some (SampleX.encounter None [] None)) [] None None)
                (SampleX.encounter None [] None)) as [_ H];
      [simpl; discriminate | reflexivity|].
    apply H. reflexivity.
Defined.

(** X16 at a saved observation with a quantity and an integer: the
    quantity is emitted. *)
Lemma value_branch_converted_witness :
  Py.dict_get "valueQuantity"
    (observation_data
       (SampleX.observation None [] (Some (120%Z, "mmHg")) (Some 42%Z)))
  = Some (Py.PyDict [("value", Py.PyInt 120); ("unit", Py.PyStr "mmHg")]).
Proof.
  destruct (value_branch_converted
              (SampleX.observation None [] (Some (120%Z, "mmHg")) (Some 42%Z)))
    as [H _]; [simpl; discriminate|].
  apply (H (120%Z, "mmHg") eq_refl).
Defined.

(** X17 at a reference range without text and at a participant without
    actor. *)
Lemma backbone_absent_omitted_witness :
  Py.dict_get "text"
    (observation_reference_range_data (SampleX.reference_range None)) = None
  /\ Py.dict_get "actor" (encounter_participant_data (SampleX.participant None))
     = None.
Proof.
  destruct (@backbone_absent_omitted sample_components) as [Hrr [Hp _]].
  split.
  - apply (Hrr (SampleX.reference_range None) "text" false);
      [simpl; tauto | reflexivity].
  - apply (Hp (SampleX.participant None) "actor" false);
      [simpl; discriminate | simpl; tauto | reflexivity].
Defined.


(** * The display string of an extension *)

Lemma append_cancel_l (a b c : string) : (a ++ b = a ++ c)%string -> b = c.
Proof.
  induction a as [|x a IH]; simpl; [trivial|].
  intros H. injection H as H. now apply IH.
Qed.

Section ExtensionStr.
Context {C : Components}.
Variable str_bool : bool -> string.
Variable str_int : Z -> string.
Variable str_decimal : Z -> string.
Variable str_datetime : datetime -> string.
Variable str_period : Period -> string.

Local Notation "'display' e" :=
  (AbstractExtension.__str__ str_bool str_int str_decimal str_datetime
     str_period e) (at level 10, e at level 9).

(** X18.  The display string of an extension is its url followed by
    [" (no value)"] exactly when no value field is non-null; a
    value_string is shown verbatim after [" = "], whatever the other
    fields; and an extension that passes [clean] shows its one non-null
    value. *)
Theorem extension_str (e : AbstractExtension.t) :
  (display e = (AbstractExtension.url e ++ " (no value)")%string
   <-> extension_value_populated e = 0)
  /\ (forall v,
         AbstractExtension.value_string e = Some v ->
         display e = (AbstractExtension.url e ++ " = " ++ v)%string)
  /\ (AbstractExtension.clean e = Passed ->
      (forall v,
          AbstractExtension.value_boolean e = Some v ->
          display e = (AbstractExtension.url e ++ " = " ++ str_bool v)%string)
      /\ (forall v,
             AbstractExtension.value_integer e = Some v ->
             display e = (AbstractExtension.url e ++ " = " ++ str_int v)%string)
      /\ (forall v,
             AbstractExtension.value_decimal e = Some v ->
             display e
             = (AbstractExtension.url e ++ " = " ++ str_decimal v)%string)
      /\ (forall v,
             AbstractExtension.value_datetime e = Some v ->
             display e
             = (AbstractExtension.url e ++ " = " ++ str_datetime v)%string)
      /\ (forall v,
             AbstractExtension.value_period e = Some v ->
             display e
             = (AbstractExtension.url e ++ " = " ++ str_period v)%string)).
Proof.
  unfold AbstractExtension.__str__.
  split; [|split].
  - unfold extension_value_populated.
    destruct (AbstractExtension.value_string e),
      (AbstractExtension.value_boolean e),
      (AbstractExtension.value_integer e),
      (AbstractExtension.value_decimal e),
      (AbstractExtension.value_datetime e),
      (AbstractExtension.value_period e); simpl;
      (split;
       [ intros H; first [reflexivity | apply append_cancel_l in H; discriminate H]
       | intros H; first [reflexivity | discriminate H] ]).
  - intros v Hv. now rewrite Hv.
  - intros Hclean.
    assert (Hpop : extension_value_populated e <= 1).
    { apply passed_not_fails in Hclean. rewrite extension_clean_iff in Hclean.
      lia. }
    unfold extension_value_populated in Hpop.
    destruct (AbstractExtension.value_string e),
      (AbstractExtension.value_boolean e),
      (AbstractExtension.value_integer e),
      (AbstractExtension.value_decimal e),
      (AbstractExtension.value_datetime e),
      (AbstractExtension.value_period e); simpl in Hpop; try lia;
      repeat split; intros v Hv; first [discriminate Hv | now injection Hv as <-].
Qed.

End ExtensionStr.

(** X18 at an extension with the string value x and at one that passes
    [clean] with the integer value 5. *)
Lemma extension_str_witness :
  AbstractExtension.__str__ (fun _ => "True") (fun _ => "5") (fun _ => "")
    (fun _ => "") (fun _ => "") Sample.extension_row
  = "http://example.org/ext = x"
  /\ AbstractExtension.__str__ (fun _ => "True") (fun _ => "5") (fun _ => "")
       (fun _ => "") (fun _ => "") SampleX.extension_five
     = "http://example.org/ext = 5".
Proof.
  split.
  - destruct (extension_str (fun _ => "True") (fun _ => "5") (fun _ => "")
                (fun _ => "") (fun _ => "") Sample.extension_row) as [_ [H _]].
    apply (H "x" eq_refl).
  - destruct (extension_str (fun _ => "True") (fun _ => "5") (fun _ => "")
                (fun _ => "") (fun _ => "") SampleX.extension_five) as [_ [_ H]].
    destruct (H eq_refl) as [_ [Hint _]].
    apply (Hint 5%Z eq_refl).
Defined.
